(** * Domain signal aggregation and scoring: a shallow embedding

    Source files embedded here:
    - [backend/domain_scanner.py]     (class [DomainScanner])
    - [backend/webarchive_analyzer.py] (class [WebArchiveAnalyzer])
    - [backend/simple_api.py]         ([verify_token], [require_auth],
                                       [require_admin], [analyze_domains])
    - [backend/llm_analyzer.py]       ([analyze_domains_with_llm])

    Python values are modelled by the type [pyval]; dictionaries are finite
    maps keyed by strings.  Every Python function is a computation in the
    monad [M S A := S -> result A * S]: it may raise an exception and it
    threads a state [S], which is the history of calls made to the outside
    world (DNS resolver, WHOIS client, TLS socket, HTTP client, [time.sleep])
    paired, inside a function body, with the local object the body mutates.
    The outside world is a record [env] of oracles; an oracle answers from
    the history, so two identical queries may be answered differently.

    Faults are instances of Python's [Exception].  Calls to [logger] have no
    effect on any returned value and are left out. *)

From stdpp Require Import gmap strings list fin_maps.
From Stdlib Require Import ZArith Ascii String Lia.

Set Warnings "-register-all".
#[local] Open Scope string_scope.
#[local] Open Scope Z_scope.
#[local] Open Scope list_scope.

(* ===================================================================== *)
(** ** Python values                                                       *)
(* ===================================================================== *)

(** [PDate] stands for a [datetime] object (always truthy); it carries its
    ISO rendering. *)
Inductive pyval : Type :=
| PNone
| PBool (b : bool)
| PInt (n : Z)
| PStr (s : string)
| PList (l : list pyval)
| PDict (d : gmap string pyval)
| PDate (iso : string).

(** Python truthiness, as tested by [if v:], [v and ...], [not v]. *)
Definition truthy (v : pyval) : bool :=
  match v with
  | PNone => false
  | PBool b => b
  | PInt n => negb (Z.eqb n 0)
  | PStr s => match s with EmptyString => false | String _ _ => true end
  | PList l => match l with [] => false | _ :: _ => true end
  | PDict d => negb (Nat.eqb (size d) 0)
  | PDate _ => true
  end.

(** An exception: its class name and its message; [str(e)] is the message. *)
Record exn : Type := Exception { exn_class : string; exn_msg : string }.

Definition str_exn (e : exn) : string := exn_msg e.

Inductive result (A : Type) : Type :=
| Ok (a : A)
| Raise (e : exn).
Arguments Ok {A} a.
Arguments Raise {A} e.

(* ===================================================================== *)
(** ** The outside world                                                    *)
(* ===================================================================== *)

(** One entry of the history per call that leaves the process. *)
Inductive event : Type :=
| EvResolve (domain rdtype : string)
| EvWhois (domain : string)
| EvTls (domain : string) (timeout : Z)
| EvSleep (seconds : Z)
| EvGet (url : string).

Definition world : Type := list event.

(** What [whois.whois(domain)] returns: its truthiness, [str(w)], and each
    attribute the code reads ([None] when [hasattr] is false).  Reading
    them does not raise: an attempt of [check_whois_info] fails exactly
    when the query itself raises. *)
Record whois_entry : Type := WhoisEntry {
  w_truthy : bool;
  w_str : string;
  w_registrar : option pyval;
  w_creation_date : option pyval;
  w_expiration_date : option pyval;
  w_updated_date : option pyval;
  w_name_servers : option pyval;
  w_status : option pyval
}.

(** What [ssock.getpeercert()] returns: its truthiness and the value of each
    expression the code evaluates on it (any of them may raise). *)
Record peercert : Type := PeerCert {
  cert_truthy : bool;
  cert_issuer : result pyval;
  cert_subject : result pyval;
  cert_notBefore : result pyval;
  cert_notAfter : result pyval;
  cert_serialNumber : result pyval;
  cert_version : result pyval
}.

(** What [requests.get(url, timeout=10)] returns. *)
Record response : Type := Response {
  status_code : Z;
  json : result pyval
}.

(** The oracles.  [dns_resolve h domain rdtype] is the answer of
    [dns.resolver.resolve(domain, rdtype)] given as the list of renderings
    the caller asks of each record ([str(record)], and
    ["<preference> <exchange>"] for MX), or the exception raised. *)
Record env : Type := Env {
  dns_resolve : world -> string -> string -> result (list string);
  whois_whois : world -> string -> result whois_entry;
  tls_getpeercert : world -> string -> Z -> result peercert;
  requests_get : world -> string -> result response;
  datetime_now : world -> string
}.

(* ===================================================================== *)
(** ** The monad of Python computations                                     *)
(* ===================================================================== *)

Definition M (S A : Type) : Type := S -> result A * S.

Definition ret {S A} (a : A) : M S A := fun s => (Ok a, s).

Definition raise {S A} (e : exn) : M S A := fun s => (Raise e, s).

Definition bind {S A B} (m : M S A) (k : A -> M S B) : M S B :=
  fun s => match m s with
           | (Ok a, s') => k a s'
           | (Raise e, s') => (Raise e, s')
           end.

Declare Scope py_scope.
Delimit Scope py_scope with py.
Notation "x <- c1 ;; c2" := (bind c1 (fun x => c2))
  (at level 20, c1 at level 99, c2 at level 200, only parsing) : py_scope.
Notation "c1 ;; c2" := (bind c1 (fun _ => c2))
  (at level 100, c2 at level 200, right associativity, only parsing) : py_scope.
#[local] Open Scope py_scope.

(** [try: body except Exception as e: handler e].  State changes made by
    [body] before it raised are kept. *)
Definition try_except {S A} (body : M S A) (handler : exn -> M S A) : M S A :=
  fun s => match body s with
           | (Ok a, s') => (Ok a, s')
           | (Raise e, s') => handler e s'
           end.

(** [try: body except: pass]. *)
Definition try_pass {S} (body : M S unit) : M S unit :=
  try_except body (fun _ => ret tt).

Definition lift_result {S A} (r : result A) : M S A := fun s => (r, s).

(** A function body owns a local object of type [L] next to the world. *)
Definition get_local {L} : M (L * world) L := fun s => (Ok (fst s), s).

Definition modify_local {L} (f : L -> L) : M (L * world) unit :=
  fun s => (Ok tt, (f (fst s), snd s)).

(** Calling a function from inside a body: the callee sees the world only. *)
Definition call {L A} (m : M world A) : M (L * world) A :=
  fun s => match m (snd s) with (r, w') => (r, (fst s, w')) end.

(** Running a body on a fresh local object. *)
Definition with_local {L A} (init : L) (body : M (L * world) A) : M world A :=
  fun w => match body (init, w) with (r, (_, w')) => (r, w') end.

(** A call that leaves the process: the oracle answers from the history,
    and the call is recorded. *)
Definition external {A} (ev : event) (oracle : world -> result A) : M world A :=
  fun w => (oracle w, w ++ [ev]).

(** [for x in xs: body x], where the body says whether it ran [break]. *)
Inductive flow : Type := Continue | Break.

Fixpoint for_each {S X} (xs : list X) (body : X -> M S flow) : M S unit :=
  match xs with
  | [] => ret tt
  | x :: xs' =>
      f <- body x ;;
      match f with
      | Break => ret tt
      | Continue => for_each xs' body
      end
  end.

(** [range(n)]. *)
Definition range (n : Z) : list Z := seqZ 0 n.

(* ===================================================================== *)
(** ** Operations on Python values                                          *)
(* ===================================================================== *)

Definition quote (s : string) : string := "'" +:+ s +:+ "'".

Definition KeyError (key : string) : exn := Exception "KeyError" (quote key).
Definition TypeError (msg : string) : exn := Exception "TypeError" msg.
Definition AttributeError (msg : string) : exn := Exception "AttributeError" msg.
Definition IndexError (msg : string) : exn := Exception "IndexError" msg.
Definition ValueError (msg : string) : exn := Exception "ValueError" msg.

(** [v[key]] for a string key. *)
Definition getitem {S} (v : pyval) (key : string) : M S pyval :=
  match v with
  | PDict d => match d !! key with
               | Some x => ret x
               | None => raise (KeyError key)
               end
  | _ => raise (TypeError "indices must be integers or slices, not str")
  end.

(** [v.get(key, default)]; only dictionaries have the method. *)
Definition dict_get {S} (v : pyval) (key : string) (default : pyval) : M S pyval :=
  match v with
  | PDict d => ret (match d !! key with Some x => x | None => default end)
  | _ => raise (AttributeError "object has no attribute 'get'")
  end.

(** A dictionary literal [{k1: v1, ...}] (keys are distinct in every use). *)
Definition dict (items : list (string * pyval)) : gmap string pyval :=
  list_to_map items.

(** [local[key] = v] on the local dictionary of a body. *)
Definition set_item (key : string) (v : pyval) : M (gmap string pyval * world) unit :=
  modify_local (fun d => <[key := v]> d).

(* ===================================================================== *)
(** ** Strings                                                              *)
(* ===================================================================== *)

(** [str.lower()] on one character.  A character is a code point below
    256; there Python lowers exactly A-Z and the Latin-1 capitals
    U+00C0..U+00DE (U+00D7, the multiplication sign, apart), each by
    adding 32. *)
Definition lower_char (c : ascii) : ascii :=
  let n := N_of_ascii c in
  if ((65 <=? n) && (n <=? 90)
      || (192 <=? n) && (n <=? 222) && negb (n =? 215))%N
  then ascii_of_N (n + 32)
  else c.

Fixpoint lower (s : string) : string :=
  match s with
  | EmptyString => EmptyString
  | String c s' => String (lower_char c) (lower s')
  end.

(** [needle in hay] on strings. *)
Fixpoint contains (needle hay : string) : bool :=
  if String.prefix needle hay then true
  else match hay with
       | EmptyString => false
       | String _ hay' => contains needle hay'
       end.

(** [any(x in text for x in phrases)]. *)
Definition any_in (phrases : list string) (text : string) : bool :=
  List.existsb (fun indicator => contains indicator text) phrases.

(* ===================================================================== *)
(** ** [DomainScanner]                                                      *)
(* ===================================================================== *)

(** [self.available_indicators], set in [__init__]. *)
Definition available_indicators : list string := [
  "no match for"; "not found"; "no data found"; "no entries found";
  "domain not found"; "no object found"; "no matching record";
  "status: free"; "status: available"; "is available for registration";
  "domain status: no object found"; "no match!!"; "not registered";
  "available for registration"; "domain available"; "available domain";
  "free domain"; "domain free"; "unregistered domain"; "domain unregistered";
  "no match"; "not found in database"; "no matching record found";
  "domain name not found"; "object does not exist"; "no such domain";
  "domain status: available"; "registration status: available";
  "state: available"; "domain state: available"; "available for purchase";
  "this domain is available"; "domain is available"; "can be registered";
  "eligible for registration"; "free for registration"; "open for registration";
  "ready for registration"; "registration available"; "status code: 210";
  "status code: 220"; "response: 210"; "response: 220"
].

(** [self.unavailable_indicators], set in [__init__]. *)
Definition unavailable_indicators : list string := [
  "registrar:"; "registrant:"; "creation date:"; "updated date:";
  "expiration date:"; "name server:"; "nserver:"; "status: registered";
  "status: active"; "status: ok"; "status: connect";
  "status: clienttransferprohibited"; "status: servertransferprohibited";
  "domain status: registered"; "domain status: active"; "registration date:";
  "expiry date:"; "registry expiry date:"; "registrar registration expiration date:";
  "admin contact:"; "tech contact:"; "billing contact:"; "dnssec:";
  "domain servers in listed order:"; "registered domain"; "registered on:";
  "expires on:"; "last updated on:"; "changed:"; "holder:"; "person:";
  "sponsoring registrar:"; "whois server:"; "referral url:"; "domain name:";
  "registry domain id:"; "registrar whois server:"; "registrar url:";
  "registrar iana id:"; "registrar abuse contact email:";
  "registrar abuse contact phone:"; "reseller:"; "domain status:";
  "name server"; "dnssec: unsigned"; "dnssec: signed"
].

(** Lines 139-148 of [check_whois_info]: from [whois_info['raw_data']] to
    the pair ([whois_info['is_available']], [whois_info['is_registered']]). *)
Definition classify_whois (raw_data : string) : bool * bool :=
  let raw_lower := lower raw_data in
  let is_available := any_in available_indicators raw_lower in
  let is_registered := any_in unavailable_indicators raw_lower in
  (is_available && negb is_registered, is_registered).

(** [w.attr if hasattr(w, attr) and w.attr else default]. *)
Definition attr_truthy_or (attr : option pyval) (default : pyval) : pyval :=
  match attr with
  | Some v => if truthy v then v else default
  | None => default
  end.

(** [w.attr if hasattr(w, attr) else None]. *)
Definition attr_or_None (attr : option pyval) : pyval :=
  match attr with
  | Some v => v
  | None => PNone
  end.

(** The dictionary [check_whois_info] starts from. *)
Definition whois_info_default : gmap string pyval := dict [
  ("raw_data", PStr "");
  ("registrar", PStr "");
  ("creation_date", PNone);
  ("expiration_date", PNone);
  ("last_updated", PNone);
  ("name_servers", PList []);
  ("status", PList []);
  ("registrant", PStr "");
  ("admin_contact", PStr "");
  ("tech_contact", PStr "");
  ("is_registered", PBool false);
  ("is_available", PBool false)
].

(** [time.sleep(seconds)]. *)
Definition sleep (seconds : Z) : M world unit :=
  external (EvSleep seconds) (fun _ => Ok tt).

(** The body of the [if w:] block of [check_whois_info]. *)
Definition record_whois_entry (w : whois_entry) : M (gmap string pyval * world) unit :=
  set_item "raw_data" (PStr (w_str w)) ;;
  set_item "registrar" (attr_truthy_or (w_registrar w) (PStr "")) ;;
  set_item "creation_date" (attr_or_None (w_creation_date w)) ;;
  set_item "expiration_date" (attr_or_None (w_expiration_date w)) ;;
  set_item "last_updated" (attr_or_None (w_updated_date w)) ;;
  set_item "name_servers" (attr_truthy_or (w_name_servers w) (PList [])) ;;
  set_item "status" (attr_truthy_or (w_status w) (PList [])) ;;
  whois_info <- get_local ;;
  raw_data <- match whois_info !! "raw_data" with
              | Some (PStr s) => ret s
              | Some _ => raise (AttributeError "object has no attribute 'lower'")
              | None => raise (KeyError "raw_data")
              end ;;
  let '(is_available, is_registered) := classify_whois raw_data in
  set_item "is_available" (PBool is_available) ;;
  set_item "is_registered" (PBool is_registered).

(** One turn of the retry loop of [check_whois_info]. *)
Definition whois_attempt (E : env) (domain : string) (max_retries attempt : Z)
  : M (gmap string pyval * world) flow :=
  try_except
    (w <- call (external (EvWhois domain) (fun h => whois_whois E h domain)) ;;
     (if w_truthy w then record_whois_entry w else ret tt) ;;
     ret Break)
    (fun e =>
       (if attempt <? max_retries - 1 then call (sleep 2) else ret tt) ;;
       ret Continue).

Definition check_whois_info (E : env) (domain : string) (max_retries : Z)
  : M world pyval :=
  with_local whois_info_default
    (for_each (range max_retries) (whois_attempt E domain max_retries) ;;
     whois_info <- get_local ;;
     ret (PDict whois_info)).

(** One of the inner [try: ... except: pass] blocks of [check_dns_records]:
    query one record kind and store the rendered records under [key]. *)
Definition dns_query (E : env) (domain rdtype key : string)
  : M (gmap string pyval * world) unit :=
  try_pass
    (records <- call (external (EvResolve domain rdtype)
                               (fun h => dns_resolve E h domain rdtype)) ;;
     set_item key (PList (map PStr records))).

Definition dns_info_default : gmap string pyval := dict [
  ("ns_records", PList []);
  ("a_records", PList []);
  ("mx_records", PList []);
  ("txt_records", PList []);
  ("cname_records", PList [])
].

Definition check_dns_records (E : env) (domain : string) : M world pyval :=
  with_local dns_info_default
    (try_except
       (dns_query E domain "NS" "ns_records" ;;
        dns_query E domain "A" "a_records" ;;
        dns_query E domain "MX" "mx_records" ;;
        dns_query E domain "TXT" "txt_records" ;;
        dns_query E domain "CNAME" "cname_records")
       (fun e => ret tt) ;;
     dns_info <- get_local ;;
     ret (PDict dns_info)).

Definition ssl_info_default : gmap string pyval := dict [
  ("has_ssl", PBool false);
  ("issuer", PStr "");
  ("subject", PStr "");
  ("not_before", PNone);
  ("not_after", PNone);
  ("serial_number", PStr "");
  ("version", PStr "");
  ("signature_algorithm", PStr "")
].

(** The body of the [if cert:] block of [check_ssl_certificate]. *)
Definition record_peercert (cert : peercert) : M (gmap string pyval * world) unit :=
  set_item "has_ssl" (PBool true) ;;
  v <- lift_result (cert_issuer cert) ;; set_item "issuer" v ;;
  v <- lift_result (cert_subject cert) ;; set_item "subject" v ;;
  v <- lift_result (cert_notBefore cert) ;; set_item "not_before" v ;;
  v <- lift_result (cert_notAfter cert) ;; set_item "not_after" v ;;
  v <- lift_result (cert_serialNumber cert) ;; set_item "serial_number" v ;;
  v <- lift_result (cert_version cert) ;; set_item "version" v.

Definition check_ssl_certificate (E : env) (domain : string) (timeout : Z)
  : M world pyval :=
  with_local ssl_info_default
    (try_except
       (cert <- call (external (EvTls domain timeout)
                               (fun h => tls_getpeercert E h domain timeout)) ;;
        if cert_truthy cert then record_peercert cert else ret tt)
       (fun e => ret tt) ;;
     ssl_info <- get_local ;;
     ret (PDict ssl_info)).

(** [signatures.append(tag)] on the local list of a body. *)
Definition append_local (v : pyval) : M (list pyval * world) unit :=
  modify_local (fun l => l ++ [v]).

(** One of the inner [try: ... except: pass] blocks of
    [check_domain_signatures]. *)
Definition dns_signature (E : env) (domain rdtype tag : string)
  : M (list pyval * world) unit :=
  try_pass
    (records <- call (external (EvResolve domain rdtype)
                               (fun h => dns_resolve E h domain rdtype)) ;;
     match records with
     | [] => ret tt
     | _ :: _ => append_local (PStr tag)
     end).

(** [check_domain_signatures]; the two methods it calls on [self] are
    parameters ([check_whois_info] is called with its default
    [max_retries], [check_ssl_certificate] with its default [timeout]). *)
Definition check_domain_signatures (E : env)
    (self_check_whois_info self_check_ssl_certificate : string -> M world pyval)
    (domain : string) : M world pyval :=
  with_local []
    (try_except
       (dns_signature E domain "NS" "DNS_NS" ;;
        dns_signature E domain "A" "DNS_A" ;;
        dns_signature E domain "MX" "DNS_MX" ;;
        whois_info <- call (self_check_whois_info domain) ;;
        is_registered <- getitem whois_info "is_registered" ;;
        (if truthy is_registered then append_local (PStr "WHOIS") else ret tt) ;;
        ssl_info <- call (self_check_ssl_certificate domain) ;;
        has_ssl <- getitem ssl_info "has_ssl" ;;
        (if truthy has_ssl then append_local (PStr "SSL") else ret tt))
       (fun e => ret tt) ;;
     signatures <- get_local ;;
     ret (PList signatures)).

Definition _calculate_quality_score {S} (analysis : pyval) : M S pyval :=
  let score := 0 in
  dns <- getitem analysis "dns_records" ;;
  v <- dict_get dns "ns_records" PNone ;;
  let score := if truthy v then score + 20 else score in
  v <- dict_get dns "a_records" PNone ;;
  let score := if truthy v then score + 20 else score in
  v <- dict_get dns "mx_records" PNone ;;
  let score := if truthy v then score + 15 else score in
  v <- dict_get dns "txt_records" PNone ;;
  let score := if truthy v then score + 10 else score in
  whois <- getitem analysis "whois_info" ;;
  v <- dict_get whois "registrar" PNone ;;
  let score := if truthy v then score + 10 else score in
  v <- dict_get whois "creation_date" PNone ;;
  let score := if truthy v then score + 10 else score in
  v <- dict_get whois "name_servers" PNone ;;
  let score := if truthy v then score + 10 else score in
  ssl_info <- getitem analysis "ssl_info" ;;
  v <- dict_get ssl_info "has_ssl" PNone ;;
  let score := if truthy v then score + 15 else score in
  ret (PInt (Z.min score 100)).

(** [v < k] and [v > k] for an integer constant [k]; booleans compare as
    0 and 1, anything else is a [TypeError]. *)
Definition py_lt {S} (v : pyval) (k : Z) : M S bool :=
  match v with
  | PInt n => ret (n <? k)
  | PBool b => ret ((if b then 1 else 0) <? k)
  | _ => raise (TypeError "'<' not supported between these instances")
  end.

Definition py_gt {S} (v : pyval) (k : Z) : M S bool :=
  match v with
  | PInt n => ret (n >? k)
  | PBool b => ret ((if b then 1 else 0) >? k)
  | _ => raise (TypeError "'>' not supported between these instances")
  end.

Definition _generate_recommendations {S} (analysis : pyval) : M S pyval :=
  let recommendations := [] in
  is_available <- getitem analysis "is_available" ;;
  let recommendations :=
    if truthy is_available
    then recommendations ++ [PStr "Domain is available for registration"]
    else recommendations ++ [PStr "Domain is already registered"] in
  dns <- getitem analysis "dns_records" ;;
  a_records <- dict_get dns "a_records" PNone ;;
  let recommendations :=
    if negb (truthy a_records)
    then recommendations ++ [PStr "No A records found - domain may not be actively used"]
    else recommendations in
  ssl_info <- getitem analysis "ssl_info" ;;
  has_ssl <- dict_get ssl_info "has_ssl" PNone ;;
  let recommendations :=
    if negb (truthy has_ssl)
    then recommendations ++ [PStr "No SSL certificate found - HTTPS not available"]
    else recommendations in
  quality_score <- getitem analysis "quality_score" ;;
  low <- py_lt quality_score 50 ;;
  if low
  then ret (PList (recommendations ++ [PStr "Low quality score - limited web presence"]))
  else
    quality_score <- getitem analysis "quality_score" ;;
    high <- py_gt quality_score 80 ;;
    if high
    then ret (PList (recommendations ++ [PStr "High quality score - strong web presence"]))
    else ret (PList recommendations).

(** The methods [analyze_domain] calls on [self].  Python binds them late,
    so the orchestrator is defined for any implementation of them, faulty
    ones included; [DomainScanner] below is the class as written.  The four
    fetch methods are given the domain only.  The two helpers are given the
    record by value: that is what the source does for helpers that only read
    it, as the class's own two do, and not for an override that would change
    the dictionary it is handed. *)
Record methods : Type := Methods {
  self_check_dns_records : string -> M world pyval;
  self_check_whois_info : string -> M world pyval;
  self_check_ssl_certificate : string -> M world pyval;
  self_check_domain_signatures : string -> M world pyval;
  self_calculate_quality_score : pyval -> M world pyval;
  self_generate_recommendations : pyval -> M world pyval
}.

(** [datetime.now().isoformat()]. *)
Definition now (E : env) : M world string :=
  fun w => (Ok (datetime_now E w), w).

(** The dictionary [analyze_domain] starts from. *)
Definition analysis_default (domain timestamp : string) : gmap string pyval := dict [
  ("domain", PStr domain);
  ("timestamp", PStr timestamp);
  ("dns_records", PDict ∅);
  ("whois_info", PDict ∅);
  ("ssl_info", PDict ∅);
  ("signatures", PList []);
  ("is_available", PNone);
  ("quality_score", PInt 0);
  ("recommendations", PList [])
].

(** The [try] block of [analyze_domain] up to the point where the right-hand
    side of the [# Availability] assignment has been evaluated: the four
    calls, then [analysis['whois_info']['is_available']]. *)
Definition analyze_domain_fetch (self : methods) (domain : string)
  : M (gmap string pyval * world) pyval :=
  v <- call (self_check_dns_records self domain) ;;
  set_item "dns_records" v ;;
  v <- call (self_check_whois_info self domain) ;;
  set_item "whois_info" v ;;
  v <- call (self_check_ssl_certificate self domain) ;;
  set_item "ssl_info" v ;;
  v <- call (self_check_domain_signatures self domain) ;;
  set_item "signatures" v ;;
  analysis <- get_local ;;
  whois_info <- getitem (PDict analysis) "whois_info" ;;
  getitem whois_info "is_available".

(** The body of the [try] block of [analyze_domain]. *)
Definition analyze_domain_body (self : methods) (domain : string)
  : M (gmap string pyval * world) unit :=
  v <- analyze_domain_fetch self domain ;;
  set_item "is_available" v ;;
  analysis <- get_local ;;
  v <- call (self_calculate_quality_score self (PDict analysis)) ;;
  set_item "quality_score" v ;;
  analysis <- get_local ;;
  v <- call (self_generate_recommendations self (PDict analysis)) ;;
  set_item "recommendations" v.

Definition analyze_domain (E : env) (self : methods) (domain : string)
  : M world pyval :=
  timestamp <- now E ;;
  with_local (analysis_default domain timestamp)
    (try_except
       (analyze_domain_body self domain)
       (fun e => set_item "error" (PStr (str_exn e))) ;;
     analysis <- get_local ;;
     ret (PDict analysis)).

(** [results[key].append(v)] and [results[key] += 1] on the local
    dictionary of a body. *)
Definition append_item (key : string) (v : pyval) : M (gmap string pyval * world) unit :=
  results <- get_local ;;
  l <- getitem (PDict results) key ;;
  match l with
  | PList xs => set_item key (PList (xs ++ [v]))
  | _ => raise (AttributeError "object has no attribute 'append'")
  end.

Definition incr_item (key : string) : M (gmap string pyval * world) unit :=
  results <- get_local ;;
  n <- getitem (PDict results) key ;;
  match n with
  | PInt n => set_item key (PInt (n + 1))
  | PBool b => set_item key (PInt ((if b then 1 else 0) + 1))
  | _ => raise (TypeError "unsupported operand type(s) for +=")
  end.

(** The failure stub of [batch_analyze_domains]. *)
Definition failure_stub (domain : string) (e : exn) (timestamp : string) : pyval :=
  PDict (dict [
    ("domain", PStr domain);
    ("error", PStr (str_exn e));
    ("timestamp", PStr timestamp)
  ]).

Definition batch_results_default (domains : list string) : gmap string pyval := dict [
  ("total_domains", PInt (Z.of_nat (List.length domains)));
  ("processed", PInt 0);
  ("successful", PInt 0);
  ("failed", PInt 0);
  ("domains", PList [])
].

(** One turn of the loop of [batch_analyze_domains]. *)
Definition batch_step (E : env) (self_analyze_domain : string -> M world pyval)
    (domain : string) : M (gmap string pyval * world) flow :=
  try_except
    (analysis <- call (self_analyze_domain domain) ;;
     append_item "domains" analysis ;;
     incr_item "successful")
    (fun e =>
       timestamp <- call (now E) ;;
       append_item "domains" (failure_stub domain e timestamp) ;;
       incr_item "failed") ;;
  incr_item "processed" ;;
  ret Continue.

(** [batch_analyze_domains]; the method it calls on [self] is a parameter. *)
Definition batch_analyze_domains (E : env)
    (self_analyze_domain : string -> M world pyval)
    (domains : list string) : M world pyval :=
  with_local (batch_results_default domains)
    (for_each domains (batch_step E self_analyze_domain) ;;
     results <- get_local ;;
     ret (PDict results)).

(** The class as written: every method is the one defined above, with the
    default arguments [max_retries = 3] and [timeout = 5]. *)
Definition DomainScanner (E : env) : methods := {|
  self_check_dns_records := check_dns_records E;
  self_check_whois_info := fun domain => check_whois_info E domain 3;
  self_check_ssl_certificate := fun domain => check_ssl_certificate E domain 5;
  self_check_domain_signatures :=
    check_domain_signatures E
      (fun domain => check_whois_info E domain 3)
      (fun domain => check_ssl_certificate E domain 5);
  self_calculate_quality_score := _calculate_quality_score;
  self_generate_recommendations := _generate_recommendations
|}.

(** [DomainScanner().analyze_domain] and [DomainScanner().batch_analyze_domains]. *)
Definition scanner_analyze_domain (E : env) (domain : string) : M world pyval :=
  analyze_domain E (DomainScanner E) domain.

Definition scanner_batch_analyze_domains (E : env) (domains : list string)
  : M world pyval :=
  batch_analyze_domains E (scanner_analyze_domain E) domains.

(* ===================================================================== *)
(** ** More operations on Python values                                     *)
(* ===================================================================== *)

(** [v[i]] for a non-negative integer constant [i] (the code uses [v[1]]
    only).  A dictionary read from JSON has string keys only, so the
    integer key is never found. *)
Definition getitem_int {S} (v : pyval) (i : nat) : M S pyval :=
  match v with
  | PList l => match l !! i with
               | Some x => ret x
               | None => raise (IndexError "list index out of range")
               end
  | PStr s => match String.get i s with
              | Some c => ret (PStr (String c EmptyString))
              | None => raise (IndexError "string index out of range")
              end
  | PDict _ => raise (Exception "KeyError" "1")
  | _ => raise (TypeError "object is not subscriptable")
  end.

(** [len(v)]. *)
Definition py_len {S} (v : pyval) : M S Z :=
  match v with
  | PList l => ret (Z.of_nat (List.length l))
  | PStr s => ret (Z.of_nat (String.length s))
  | PDict d => ret (Z.of_nat (size d))
  | _ => raise (TypeError "object has no len()")
  end.

(** The first [n] characters of a string. *)
Fixpoint string_take (n : nat) (s : string) : string :=
  match n, s with
  | S n', String c s' => String c (string_take n' s')
  | _, _ => EmptyString
  end.

(** [v[:n]]. *)
Definition slice_to {S} (v : pyval) (n : nat) : M S pyval :=
  match v with
  | PStr s => ret (PStr (string_take n s))
  | PList l => ret (PList (take n l))
  | _ => raise (TypeError "object is not subscriptable")
  end.

(** The characters [int()] and [str.strip()] treat as white space, among
    the code points below 256. *)
Definition is_space (c : ascii) : bool :=
  let n := N_of_ascii c in
  ((9 <=? n) && (n <=? 13) || (n =? 32) || (n =? 133) || (n =? 160))%N.

Definition digit_of (c : ascii) : option Z :=
  let n := N_of_ascii c in
  if ((48 <=? n) && (n <=? 57))%N then Some (Z.of_N n - 48) else None.

Fixpoint lstrip (s : string) : string :=
  match s with
  | String c s' => if is_space c then lstrip s' else s
  | EmptyString => EmptyString
  end.

Fixpoint rstrip (s : string) : string :=
  match s with
  | EmptyString => EmptyString
  | String c s' =>
      match rstrip s' with
      | EmptyString => if is_space c then EmptyString else String c EmptyString
      | r => String c r
      end
  end.

(** Decimal digits, single underscores allowed between two digits. *)
Fixpoint parse_digits (s : string) (acc : Z) (after_digit : bool) : option Z :=
  match s with
  | EmptyString => if after_digit then Some acc else None
  | String c s' =>
      match digit_of c with
      | Some d => parse_digits s' (10 * acc + d) true
      | None =>
          if Ascii.eqb c "_" && after_digit
          then parse_digits s' acc false
          else None
      end
  end.

(** [int(s)] for a string [s]: white space around, an optional sign, then
    the digits. *)
Definition parse_int (s : string) : option Z :=
  match lstrip (rstrip s) with
  | String "+" rest => parse_digits rest 0 false
  | String "-" rest => option_map Z.opp (parse_digits rest 0 false)
  | body => parse_digits body 0 false
  end.

(** [int(v)]. *)
Definition py_int {S} (v : pyval) : M S Z :=
  match v with
  | PStr s => match parse_int s with
              | Some n => ret n
              | None => raise (ValueError "invalid literal for int() with base 10")
              end
  | PInt n => ret n
  | PBool b => ret (if b then 1 else 0)
  | _ => raise (TypeError "int() argument must be a string or a number")
  end.

(* ===================================================================== *)
(** ** [WebArchiveAnalyzer]                                                 *)
(* ===================================================================== *)

Definition wayback_base_url : string := "http://archive.org/wayback/available".
Definition cdx_base_url : string := "http://web.archive.org/cdx/search/search/cdx".

(** [requests.get(url, timeout=10)]. *)
Definition http_get (E : env) (url : string) : M world response :=
  external (EvGet url) (fun h => requests_get E h url).

(** [data.get('archived_snapshots', {}).get('closest', {}).get(field, '')]. *)
Definition closest_field {S} (data : pyval) (field : string) : M S pyval :=
  snapshots <- dict_get data "archived_snapshots" (PDict ∅) ;;
  closest <- dict_get snapshots "closest" (PDict ∅) ;;
  dict_get closest field (PStr "").

Definition check_wayback_availability (E : env) (domain : string) : M world pyval :=
  try_except
    (response <- http_get E (wayback_base_url +:+ "?url=" +:+ domain) ;;
     if status_code response =? 200
     then
       data <- lift_result (json response) ;;
       available <- dict_get data "available" (PBool false) ;;
       url <- closest_field data "url" ;;
       timestamp <- closest_field data "timestamp" ;;
       status <- closest_field data "status" ;;
       ret (PDict (dict [("available", available); ("url", url);
                         ("timestamp", timestamp); ("status", status)]))
     else ret (PDict (dict [("available", PBool false)])))
    (fun e => ret (PDict (dict [("available", PBool false)]))).

Definition get_snapshot_count (E : env) (domain : string) : M world pyval :=
  try_except
    (response <- http_get E (cdx_base_url +:+ "?url=" +:+ domain
                             +:+ "&output=json&limit=1&showNumPages=true") ;;
     if status_code response =? 200
     then
       data <- lift_result (json response) ;;
       dict_get data "num_pages" (PInt 0)
     else ret (PInt 0))
    (fun e => ret (PInt 0)).

(** One of the two directional queries of [analyze_webarchive]: fetch with
    the given [sort] and store the timestamp of the first row under [key]. *)
Definition fetch_snapshot (E : env) (domain sort key : string)
  : M (gmap string pyval * world) unit :=
  response <- call (http_get E (cdx_base_url +:+ "?url=" +:+ domain
                                +:+ "&output=json&limit=1&sort=" +:+ sort)) ;;
  if status_code response =? 200
  then
    data <- lift_result (json response) ;;
    if truthy data
    then
      n <- py_len data ;;
      if n >? 1
      then
        row <- getitem_int data 1 ;;
        timestamp <- getitem_int row 1 ;;
        set_item key timestamp
      else ret tt
    else ret tt
  else ret tt.

(** The [# Calculate years covered] block of [analyze_webarchive]. *)
Definition years_covered_block : M (gmap string pyval * world) unit :=
  analysis <- get_local ;;
  first_snapshot <- getitem (PDict analysis) "first_snapshot" ;;
  both <- (if truthy first_snapshot
           then last_snapshot <- getitem (PDict analysis) "last_snapshot" ;;
                ret (truthy last_snapshot)
           else ret false) ;;
  if both
  then
    first_snapshot <- getitem (PDict analysis) "first_snapshot" ;;
    prefix <- slice_to first_snapshot 4 ;;
    first_year <- py_int prefix ;;
    last_snapshot <- getitem (PDict analysis) "last_snapshot" ;;
    prefix <- slice_to last_snapshot 4 ;;
    last_year <- py_int prefix ;;
    set_item "years_covered" (PInt (last_year - first_year + 1))
  else ret tt.

Definition webarchive_default (domain : string) : gmap string pyval := dict [
  ("domain", PStr domain);
  ("has_snapshots", PBool false);
  ("total_snapshots", PInt 0);
  ("first_snapshot", PNone);
  ("last_snapshot", PNone);
  ("years_covered", PInt 0)
].

(** The body of the [try] block of [analyze_webarchive]. *)
Definition analyze_webarchive_body (E : env) (domain : string)
  : M (gmap string pyval * world) unit :=
  availability <- call (check_wayback_availability E domain) ;;
  available <- getitem availability "available" ;;
  set_item "has_snapshots" available ;;
  analysis <- get_local ;;
  has_snapshots <- getitem (PDict analysis) "has_snapshots" ;;
  if truthy has_snapshots
  then
    total <- call (get_snapshot_count E domain) ;;
    set_item "total_snapshots" total ;;
    fetch_snapshot E domain "oldest" "first_snapshot" ;;
    fetch_snapshot E domain "latest" "last_snapshot" ;;
    years_covered_block
  else ret tt.

Definition analyze_webarchive (E : env) (domain : string) : M world pyval :=
  with_local (webarchive_default domain)
    (try_except
       (analyze_webarchive_body E domain)
       (fun e => set_item "error" (PStr (str_exn e))) ;;
     analysis <- get_local ;;
     ret (PDict analysis)).

(* ===================================================================== *)
(** ** Specification: substrings *)
(* ===================================================================== *)

(** [phrase] occurs in [text] as a substring. *)
Definition occurs (phrase text : string) : Prop :=
  exists before after, text = before +:+ phrase +:+ after.

(* ===================================================================== *)
(** ** Specification: the retry histories of the WHOIS fetcher *)
(* ===================================================================== *)

(** The history that [k] failed WHOIS attempts leave when each is followed
    by the fixed sleep. *)
Fixpoint failed_attempts (domain : string) (k : nat) : list event :=
  match k with
  | O => []
  | S k' => EvWhois domain :: EvSleep 2 :: failed_attempts domain k'
  end.

(** The history that [m] failed WHOIS attempts leave when they are all the
    attempts there are: no sleep follows the last one. *)
Definition exhausted_attempts (domain : string) (m : nat) : list event :=
  match m with
  | O => []
  | S m' => failed_attempts domain m' ++ [EvWhois domain]
  end.

(** The number of WHOIS queries in a history. *)
Definition whois_queries (h : list event) : nat :=
  List.length (List.filter (fun ev => match ev with EvWhois _ => true | _ => false end) h).

(** The WHOIS query made after history [h] fails. *)
Definition whois_fails (E : env) (domain : string) (h : world) : Prop :=
  exists e, whois_whois E h domain = Raise e.

(** The dictionary [check_whois_info] has built once [record_whois_entry]
    has run on [w]. *)
Definition whois_info_recorded (w : whois_entry) : gmap string pyval :=
  <["is_registered" := PBool (snd (classify_whois (w_str w)))]>
  (<["is_available" := PBool (fst (classify_whois (w_str w)))]>
  (<["status" := attr_truthy_or (w_status w) (PList [])]>
  (<["name_servers" := attr_truthy_or (w_name_servers w) (PList [])]>
  (<["last_updated" := attr_or_None (w_updated_date w)]>
  (<["expiration_date" := attr_or_None (w_expiration_date w)]>
  (<["creation_date" := attr_or_None (w_creation_date w)]>
  (<["registrar" := attr_truthy_or (w_registrar w) (PStr "")]>
  (<["raw_data" := PStr (w_str w)]> whois_info_default)))))))).

(** What [check_whois_info] returns when the attempt that succeeds
    returns [w]. *)
Definition whois_info_of (w : whois_entry) : gmap string pyval :=
  if w_truthy w then whois_info_recorded w else whois_info_default.

(* ===================================================================== *)
(** ** Specification: the WHOIS flags *)
(* ===================================================================== *)

(** The two flags of a WHOIS dictionary. *)
Definition whois_flags (info : gmap string pyval) (is_available is_registered : bool) : Prop :=
  info !! "is_available" = Some (PBool is_available)
  /\ info !! "is_registered" = Some (PBool is_registered).

(* ===================================================================== *)
(** ** Specification: what the DNS and TLS fetchers observe *)
(* ===================================================================== *)

(** What [check_dns_records] stores for one record kind. *)
Definition dns_answer_value (answer : result (list string)) : pyval :=
  match answer with
  | Ok records => PList (map PStr records)
  | Raise _ => PList []
  end.

(** The five queries of [check_dns_records], in order. *)
Definition dns_events (domain : string) : list event :=
  [EvResolve domain "NS"; EvResolve domain "A"; EvResolve domain "MX";
   EvResolve domain "TXT"; EvResolve domain "CNAME"].

(** The dictionary [check_dns_records] returns when started after [h]. *)
Definition dns_info_of (E : env) (domain : string) (h : world) : gmap string pyval :=
  <["cname_records" :=
      dns_answer_value (dns_resolve E (h ++ take 4 (dns_events domain)) domain "CNAME")]>
  (<["txt_records" :=
      dns_answer_value (dns_resolve E (h ++ take 3 (dns_events domain)) domain "TXT")]>
  (<["mx_records" :=
      dns_answer_value (dns_resolve E (h ++ take 2 (dns_events domain)) domain "MX")]>
  (<["a_records" :=
      dns_answer_value (dns_resolve E (h ++ take 1 (dns_events domain)) domain "A")]>
  (<["ns_records" :=
      dns_answer_value (dns_resolve E h domain "NS")]> dns_info_default)))).

(** The presence flag [check_ssl_certificate] reports after [h]. *)
Definition tls_present (E : env) (domain : string) (timeout : Z) (h : world) : bool :=
  match tls_getpeercert E h domain timeout with
  | Ok cert => cert_truthy cert
  | Raise _ => false
  end.

(* ===================================================================== *)
(** ** Specification: the signature tags *)
(* ===================================================================== *)

(** The DNS query for [rdtype] made after [h] returns at least one record. *)
Definition dns_has_records (E : env) (domain rdtype : string) (h : world) : bool :=
  match dns_resolve E h domain rdtype with
  | Ok (_ :: _) => true
  | _ => false
  end.

(** The tags appended for five observations, in the order of the code. *)
Definition signature_tags (ns a mx whois ssl : bool) : list pyval :=
  (if ns then [PStr "DNS_NS"] else [])
  ++ (if a then [PStr "DNS_A"] else [])
  ++ (if mx then [PStr "DNS_MX"] else [])
  ++ (if whois then [PStr "WHOIS"] else [])
  ++ (if ssl then [PStr "SSL"] else []).

(** The three DNS queries of [check_domain_signatures], in order. *)
Definition signature_events (domain : string) : list event :=
  [EvResolve domain "NS"; EvResolve domain "A"; EvResolve domain "MX"].

(* ===================================================================== *)
(** ** Specification: the scoring table *)
(* ===================================================================== *)

(** The eight evidence items of the scoring table and their weights. *)
Inductive evidence : Type :=
| NS_records | A_records | MX_records | TXT_records
| Registrar | Creation_date | Name_servers | TLS_certificate.

Definition all_evidence : list evidence :=
  [NS_records; A_records; MX_records; TXT_records;
   Registrar; Creation_date; Name_servers; TLS_certificate].

Definition weight (e : evidence) : Z :=
  match e with
  | NS_records => 20
  | A_records => 20
  | MX_records => 15
  | TXT_records => 10
  | Registrar => 10
  | Creation_date => 10
  | Name_servers => 10
  | TLS_certificate => 15
  end.

(** The field [key] of the dictionary [d] is there and truthy. *)
Definition field_truthy (d : gmap string pyval) (key : string) : bool :=
  match d !! key with
  | Some v => truthy v
  | None => false
  end.

(** An evidence item is present in the three parts of a record. *)
Definition present (dns whois ssl : gmap string pyval) (e : evidence) : bool :=
  match e with
  | NS_records => field_truthy dns "ns_records"
  | A_records => field_truthy dns "a_records"
  | MX_records => field_truthy dns "mx_records"
  | TXT_records => field_truthy dns "txt_records"
  | Registrar => field_truthy whois "registrar"
  | Creation_date => field_truthy whois "creation_date"
  | Name_servers => field_truthy whois "name_servers"
  | TLS_certificate => field_truthy ssl "has_ssl"
  end.

(** The score of the table: the weights of the items present, summed and
    capped at 100. *)
Definition weight_sum (observed : evidence -> bool) : Z :=
  fold_right Z.add 0 (map weight (List.filter observed all_evidence)).

Definition table_score (observed : evidence -> bool) : Z :=
  Z.min (weight_sum observed) 100.

(* ===================================================================== *)
(** ** Specification: the recommendation rules *)
(* ===================================================================== *)

Inductive advisory : Type :=
| Available_for_registration
| Already_registered
| No_active_use
| No_HTTPS
| Limited_web_presence
| Strong_web_presence.

Definition advisory_text (a : advisory) : string :=
  match a with
  | Available_for_registration => "Domain is available for registration"
  | Already_registered => "Domain is already registered"
  | No_active_use => "No A records found - domain may not be actively used"
  | No_HTTPS => "No SSL certificate found - HTTPS not available"
  | Limited_web_presence => "Low quality score - limited web presence"
  | Strong_web_presence => "High quality score - strong web presence"
  end.

(** The four rules, each yielding at most one advisory. *)
Definition rule_availability (is_available : pyval) : list advisory :=
  if truthy is_available then [Available_for_registration] else [Already_registered].

Definition rule_active_use (dns : gmap string pyval) : list advisory :=
  if field_truthy dns "a_records" then [] else [No_active_use].

Definition rule_https (ssl : gmap string pyval) : list advisory :=
  if field_truthy ssl "has_ssl" then [] else [No_HTTPS].

Definition rule_presence (score : Z) : list advisory :=
  if score <? 50 then [Limited_web_presence]
  else if score >? 80 then [Strong_web_presence]
  else [].

Definition advisories (is_available : pyval) (dns ssl : gmap string pyval)
    (score : Z) : list advisory :=
  rule_availability is_available ++ rule_active_use dns
  ++ rule_https ssl ++ rule_presence score.

Definition render (l : list advisory) : pyval :=
  PList (map (fun a => PStr (advisory_text a)) l).

(* ===================================================================== *)
(** ** Specification: the record of the orchestrator *)
(* ===================================================================== *)

(** The keys every record of [analyze_domain] starts with. *)
Definition base_keys : list string :=
  ["domain"; "timestamp"; "dns_records"; "whois_info"; "ssl_info";
   "signatures"; "is_available"; "quality_score"; "recommendations"].

(** [m] never removes a key from the local dictionary. *)
Definition grows {A} (m : M (gmap string pyval * world) A) : Prop :=
  forall d h r d' h', m (d, h) = (r, (d', h')) ->
    forall k, is_Some (d !! k) -> is_Some (d' !! k).

(** [m] leaves the entries of [keys] in the local dictionary as they are. *)
Definition keeps (keys : list string) {A} (m : M (gmap string pyval * world) A) : Prop :=
  forall d h r d' h', m (d, h) = (r, (d', h')) ->
    forall k, In k keys -> d' !! k = d !! k.

(** The record [analyze_domain] builds when nothing faults. *)
Definition analysis_record (domain timestamp : string)
    (dns whois ssl : gmap string pyval) (sigs : list pyval) (is_available : pyval)
  : gmap string pyval :=
  <["recommendations" :=
      render (advisories is_available dns ssl (table_score (present dns whois ssl)))]>
  (<["quality_score" := PInt (table_score (present dns whois ssl))]>
  (<["is_available" := is_available]>
  (<["signatures" := PList sigs]>
  (<["ssl_info" := PDict ssl]>
  (<["whois_info" := PDict whois]>
  (<["dns_records" := PDict dns]> (analysis_default domain timestamp))))))).

(** One run of the class's [analyze_domain] started after [h]: what each
    fetch observed, the record built and the history left.  The signature
    extractor makes its own queries, after those of the three fetchers. *)
Inductive scanner_run (E : env) (domain : string) (h : world)
  : gmap string pyval -> world -> Prop :=
| ScannerRun (whois ssl whois' : gmap string pyval) (trace trace' : list event)
    (a r a' r' : bool) (h1 h2 h3 h4 : world) :
    h1 = h ++ dns_events domain ->
    check_whois_info E domain 3 h1 = (Ok (PDict whois), h1 ++ trace) ->
    whois_flags whois a r ->
    a && r = false ->
    h2 = h1 ++ trace ->
    check_ssl_certificate E domain 5 h2 = (Ok (PDict ssl), h2 ++ [EvTls domain 5]) ->
    ssl !! "has_ssl" = Some (PBool (tls_present E domain 5 h2)) ->
    h3 = (h2 ++ [EvTls domain 5]) ++ signature_events domain ->
    check_whois_info E domain 3 h3 = (Ok (PDict whois'), h3 ++ trace') ->
    whois_flags whois' a' r' ->
    h4 = h3 ++ trace' ->
    scanner_run E domain h
      (analysis_record domain (datetime_now E h) (dns_info_of E domain h) whois ssl
         (signature_tags
            (dns_has_records E domain "NS" (h2 ++ [EvTls domain 5]))
            (dns_has_records E domain "A"
               ((h2 ++ [EvTls domain 5]) ++ take 1 (signature_events domain)))
            (dns_has_records E domain "MX"
               ((h2 ++ [EvTls domain 5]) ++ take 2 (signature_events domain)))
            r'
            (tls_present E domain 5 h4))
         (PBool a))
      (h4 ++ [EvTls domain 5]).

(* ===================================================================== *)
(** ** Specification: runs of the batch driver *)
(* ===================================================================== *)

(** The [results] dictionary of [batch_analyze_domains] by its contents. *)
Definition batch_dict (total processed successful failed : Z) (entries : list pyval)
  : gmap string pyval :=
  <["total_domains" := PInt total]>
  (<["processed" := PInt processed]>
  (<["successful" := PInt successful]>
  (<["failed" := PInt failed]>
  (<["domains" := PList entries]> ∅)))).

(** A run of the loop of [batch_analyze_domains] over [domains] started
    after [h], for any implementation [an] of [self.analyze_domain]: the
    entries appended, how many calls returned, how many raised, and the
    history left. *)
Inductive batch_run (E : env) (an : string -> M world pyval)
  : list string -> world -> list pyval -> Z -> Z -> world -> Prop :=
| BatchDone (h : world) :
    batch_run E an [] h [] 0 0 h
| BatchReturned (domain : string) (domains : list string) (h h1 h' : world)
    (analysis : pyval) (entries : list pyval) (successful failed : Z) :
    an domain h = (Ok analysis, h1) ->
    batch_run E an domains h1 entries successful failed h' ->
    batch_run E an (domain :: domains) h (analysis :: entries)
              (successful + 1) failed h'
| BatchRaised (domain : string) (domains : list string) (h h1 h' : world)
    (e : exn) (entries : list pyval) (successful failed : Z) :
    an domain h = (Raise e, h1) ->
    batch_run E an domains h1 entries successful failed h' ->
    batch_run E an (domain :: domains) h
              (failure_stub domain e (datetime_now E h1) :: entries)
              successful (failed + 1) h'.

(** The entry the batch holds for [domain]: the record a call of [an]
    returned, or the stub of a call that raised. *)
Definition entry_for (E : env) (an : string -> M world pyval)
    (domain : string) (entry : pyval) : Prop :=
  (exists h h1, an domain h = (Ok entry, h1))
  \/ (exists h h1 e, an domain h = (Raise e, h1)
                     /\ entry = failure_stub domain e (datetime_now E h1)).

(* ===================================================================== *)
(** ** Specification: years covered *)
(* ===================================================================== *)

(** The year of a snapshot timestamp: the integer value of its first four
    characters, when it is a string that has one. *)
Definition year_of (timestamp : pyval) : option Z :=
  match timestamp with
  | PStr s => parse_int (string_take 4 s)
  | _ => None
  end.

(** What the years block guarantees about a dictionary, given how the
    [try] block ended. *)
Definition years_covered_spec (d : gmap string pyval) (faulted : bool) : Prop :=
  exists first last years,
    d !! "first_snapshot" = Some first
    /\ d !! "last_snapshot" = Some last
    /\ d !! "years_covered" = Some (PInt years)
    /\ (forall y1 y2, truthy first = true -> truthy last = true ->
          year_of first = Some y1 -> year_of last = Some y2 ->
          years = y2 - y1 + 1)
    /\ (truthy first = false \/ truthy last = false -> years = 0)
    /\ (truthy first = true -> truthy last = true ->
        year_of first = None \/ year_of last = None ->
        years = 0 /\ faulted = true).

Definition faulted {A} (r : result A) : bool :=
  match r with Ok _ => false | Raise _ => true end.

(* ===================================================================== *)
(** ** Concrete worlds and scanners *)
(* ===================================================================== *)

Definition unreachable : exn := Exception "Exception" "unreachable".

(** Every source is unreachable. *)
Definition env_down : env := {|
  dns_resolve := fun _ _ _ => Raise unreachable;
  whois_whois := fun _ _ => Raise unreachable;
  tls_getpeercert := fun _ _ _ => Raise unreachable;
  requests_get := fun _ _ => Raise unreachable;
  datetime_now := fun _ => "2024-01-01T00:00:00"
|}.

Definition registered_entry : whois_entry := {|
  w_truthy := true;
  w_str := "Domain Name: EXAMPLE.COM  Registrar: Example Registrar  Creation Date: 1995-08-14";
  w_registrar := Some (PStr "Example Registrar");
  w_creation_date := Some (PDate "1995-08-14T04:00:00");
  w_expiration_date := Some (PDate "2030-08-13T04:00:00");
  w_updated_date := None;
  w_name_servers := Some (PList [PStr "A.IANA-SERVERS.NET"; PStr "B.IANA-SERVERS.NET"]);
  w_status := Some (PStr "clientTransferProhibited")
|}.

Definition served_cert : peercert := {|
  cert_truthy := true;
  cert_issuer := Ok (PDict (dict [("organizationName", PStr "Example CA")]));
  cert_subject := Ok (PDict (dict [("commonName", PStr "example.com")]));
  cert_notBefore := Ok (PStr "Jan  1 00:00:00 2024 GMT");
  cert_notAfter := Ok (PStr "Jan  1 00:00:00 2025 GMT");
  cert_serialNumber := Ok (PStr "0A");
  cert_version := Ok (PInt 3)
|}.

(** Every source answers, and answers every time alike. *)
Definition env_up : env := {|
  dns_resolve := fun _ _ rdtype => Ok [rdtype +:+ " record of example.com"];
  whois_whois := fun _ _ => Ok registered_entry;
  tls_getpeercert := fun _ _ _ => Ok served_cert;
  requests_get := fun _ _ => Raise unreachable;
  datetime_now := fun _ => "2024-01-01T00:00:00"
|}.

(** The resolver times out on the very first query and answers from then
    on; the other sources are unreachable. *)
Definition env_flaky : env := {|
  dns_resolve := fun h _ rdtype =>
    match h with
    | [] => Raise (Exception "LifetimeTimeout" "The resolution lifetime expired")
    | _ :: _ => Ok [rdtype +:+ " record of example.com"]
    end;
  whois_whois := fun _ _ => Raise unreachable;
  tls_getpeercert := fun _ _ _ => Raise unreachable;
  requests_get := fun _ _ => Raise unreachable;
  datetime_now := fun _ => "2024-01-01T00:00:00"
|}.

(** A row of the CDX index: [urlkey], [timestamp], and the rest. *)
Definition cdx_rows (timestamp : string) : pyval :=
  PList [PList [PStr "urlkey"; PStr "timestamp"; PStr "original"];
         PList [PStr "com,example)/"; PStr timestamp; PStr "http://example.com/"]].

(** The archive holds snapshots of example.com from 2008 to 2023. *)
Definition env_archive : env := {|
  dns_resolve := fun _ _ _ => Raise unreachable;
  whois_whois := fun _ _ => Raise unreachable;
  tls_getpeercert := fun _ _ _ => Raise unreachable;
  requests_get := fun _ url =>
    if String.eqb url "http://archive.org/wayback/available?url=example.com"
    then Ok (Response 200 (Ok (PDict (dict [("available", PBool true)]))))
    else if String.eqb url
      "http://web.archive.org/cdx/search/search/cdx?url=example.com&output=json&limit=1&sort=oldest"
    then Ok (Response 200 (Ok (cdx_rows "20080315120000")))
    else if String.eqb url
      "http://web.archive.org/cdx/search/search/cdx?url=example.com&output=json&limit=1&sort=latest"
    then Ok (Response 200 (Ok (cdx_rows "20231120000000")))
    else Ok (Response 200 (Ok (PInt 7)));
  datetime_now := fun _ => "2024-01-01T00:00:00"
|}.

(** The class over [env_down] with [check_dns_records] overridden to raise
    for the one domain [k.example]. *)
Definition faulty_scanner : methods := {|
  self_check_dns_records := fun domain =>
    if String.eqb domain "k.example"
    then raise (Exception "RuntimeError" "resolver exploded")
    else check_dns_records env_down domain;
  self_check_whois_info := self_check_whois_info (DomainScanner env_down);
  self_check_ssl_certificate := self_check_ssl_certificate (DomainScanner env_down);
  self_check_domain_signatures := self_check_domain_signatures (DomainScanner env_down);
  self_calculate_quality_score := _calculate_quality_score;
  self_generate_recommendations := _generate_recommendations
|}.

(** The field [key] of the dictionary a run returned. *)
Definition returned_field (run : result pyval * world) (key : string) : option pyval :=
  match run with
  | (Ok (PDict d), _) => d !! key
  | _ => None
  end.

(** The field [key] of the [i]-th entry of a batch result. *)
Definition entry_field (run : result pyval * world) (i : nat) (key : string)
  : option pyval :=
  match returned_field run "domains" with
  | Some (PList entries) =>
      match entries !! i with
      | Some (PDict d) => d !! key
      | _ => None
      end
  | _ => None
  end.

(** The sources answer a repeated query as they answered it before. *)
Definition stable (E : env) : Prop :=
  (forall h1 h2 d rdtype, dns_resolve E h1 d rdtype = dns_resolve E h2 d rdtype)
  /\ (forall h1 h2 d, whois_whois E h1 d = whois_whois E h2 d)
  /\ (forall h1 h2 d t, tls_getpeercert E h1 d t = tls_getpeercert E h2 d t).

(* ===================================================================== *)
(** ** Reading a returned record *)
(* ===================================================================== *)

(** The entry [sub] of the dictionary under [key] in what a run returned. *)
Definition returned_subfield (run : result pyval * world) (key sub : string)
  : option pyval :=
  match returned_field run key with
  | Some (PDict d) => d !! sub
  | _ => None
  end.

(** The five tags a signature list may hold. *)
Definition all_tags : list pyval :=
  [PStr "DNS_NS"; PStr "DNS_A"; PStr "DNS_MX"; PStr "WHOIS"; PStr "SSL"].

(* ===================================================================== *)
(** ** Concrete records *)
(* ===================================================================== *)

(** A WHOIS text with a registration field and an availability phrase. *)
Definition conflicting_whois : string :=
  "creation date: 2001-01-01; status: available".

(** A record with all eight evidence items. *)
Definition full_dns : gmap string pyval := dict [
  ("ns_records", PList [PStr "a.iana-servers.net."]);
  ("a_records", PList [PStr "93.184.216.34"]);
  ("mx_records", PList [PStr "10 mail.example.com."]);
  ("txt_records", PList [PStr "v=spf1 -all"]);
  ("cname_records", PList [])
].

Definition full_whois : gmap string pyval := dict [
  ("registrar", PStr "Example Registrar");
  ("creation_date", PDate "1995-08-14T04:00:00");
  ("name_servers", PList [PStr "A.IANA-SERVERS.NET"])
].

Definition full_ssl : gmap string pyval := dict [("has_ssl", PBool true)].

Definition full_analysis : gmap string pyval := dict [
  ("dns_records", PDict full_dns);
  ("whois_info", PDict full_whois);
  ("ssl_info", PDict full_ssl);
  ("is_available", PBool false);
  ("quality_score", PInt 100)
].

(** An [analyze_domain] that raises to its caller for the one domain
    [k.example]. *)
Definition raising_analyze_domain (domain : string) : M world pyval :=
  if String.eqb domain "k.example"
  then raise (Exception "RuntimeError" "analysis exploded")
  else scanner_analyze_domain env_down domain.

(* ===================================================================== *)
(** ** [WebArchiveAnalyzer]: the batch driver *)
(* ===================================================================== *)

(** The failure stub of [batch_analyze_webarchive]. *)
Definition webarchive_stub (domain : string) (e : exn) : pyval :=
  PDict (dict [
    ("domain", PStr domain);
    ("error", PStr (str_exn e))
  ]).

(** One turn of the loop of [batch_analyze_webarchive]. *)
Definition webarchive_batch_step (self_analyze_webarchive : string -> M world pyval)
    (domain : string) : M (gmap string pyval * world) flow :=
  try_except
    (analysis <- call (self_analyze_webarchive domain) ;;
     append_item "domains" analysis ;;
     incr_item "successful")
    (fun e =>
       append_item "domains" (webarchive_stub domain e) ;;
       incr_item "failed") ;;
  incr_item "processed" ;;
  ret Continue.

(** [batch_analyze_webarchive]; the method it calls on [self] is a
    parameter.  Its [results] dictionary starts as that of
    [batch_analyze_domains]. *)
Definition batch_analyze_webarchive
    (self_analyze_webarchive : string -> M world pyval)
    (domains : list string) : M world pyval :=
  with_local (batch_results_default domains)
    (for_each domains (webarchive_batch_step self_analyze_webarchive) ;;
     results <- get_local ;;
     ret (PDict results)).

(* ===================================================================== *)
(** ** Specification: requests, counts and orders *)
(* ===================================================================== *)

(** The four URLs [WebArchiveAnalyzer] requests for a domain. *)
Definition availability_url (domain : string) : string :=
  wayback_base_url +:+ "?url=" +:+ domain.

Definition count_url (domain : string) : string :=
  cdx_base_url +:+ "?url=" +:+ domain +:+ "&output=json&limit=1&showNumPages=true".

Definition snapshot_url (domain sort : string) : string :=
  cdx_base_url +:+ "?url=" +:+ domain +:+ "&output=json&limit=1&sort=" +:+ sort.

(** The requests of one [analyze_webarchive], in order. *)
Definition webarchive_requests (domain : string) : list event :=
  [EvGet (availability_url domain); EvGet (count_url domain);
   EvGet (snapshot_url domain "oldest"); EvGet (snapshot_url domain "latest")].

(** How many DNS queries and TLS probes a history holds, and how long it
    slept. *)
Definition dns_queries (h : list event) : nat :=
  List.length (List.filter (fun ev => match ev with EvResolve _ _ => true | _ => false end) h).

Definition tls_probes (h : list event) : nat :=
  List.length (List.filter (fun ev => match ev with EvTls _ _ => true | _ => false end) h).

Definition slept (h : list event) : Z :=
  fold_right Z.add 0 (map (fun ev => match ev with EvSleep n => n | _ => 0 end) h).

(** [l1] is [l2] with some elements left out, the order kept. *)
Fixpoint ordered_sublist (l1 l2 : list pyval) : Prop :=
  match l1, l2 with
  | [], _ => True
  | _ :: _, [] => False
  | x :: l1', y :: l2' =>
      (x = y /\ ordered_sublist l1' l2') \/ ordered_sublist l1 l2'
  end.

(** A run of the loop of [batch_analyze_webarchive], for any
    implementation [an] of [self.analyze_webarchive]. *)
Inductive webarchive_batch_run (an : string -> M world pyval)
  : list string -> world -> list pyval -> Z -> Z -> world -> Prop :=
| WaBatchDone (h : world) :
    webarchive_batch_run an [] h [] 0 0 h
| WaBatchReturned (domain : string) (domains : list string) (h h1 h' : world)
    (analysis : pyval) (entries : list pyval) (successful failed : Z) :
    an domain h = (Ok analysis, h1) ->
    webarchive_batch_run an domains h1 entries successful failed h' ->
    webarchive_batch_run an (domain :: domains) h (analysis :: entries)
                         (successful + 1) failed h'
| WaBatchRaised (domain : string) (domains : list string) (h h1 h' : world)
    (e : exn) (entries : list pyval) (successful failed : Z) :
    an domain h = (Raise e, h1) ->
    webarchive_batch_run an domains h1 entries successful failed h' ->
    webarchive_batch_run an (domain :: domains) h
                         (webarchive_stub domain e :: entries)
                         successful (failed + 1) h'.

(** The dictionary [check_wayback_availability] returns on any failure. *)
Definition not_available : gmap string pyval := dict [("available", PBool false)].

(** The availability indicators that contain a registration indicator. *)
Definition shadowed_indicators : list string :=
  List.filter (any_in unavailable_indicators) available_indicators.

(* ===================================================================== *)
(** ** [simple_api.py]: the route [/api/v1/domains/analyze] *)
(* ===================================================================== *)

(** Whether [v] holds a [datetime] object. *)
Fixpoint has_date (v : pyval) : bool :=
  match v with
  | PDate _ => true
  | PList l => existsb has_date l
  | PDict d => map_fold (fun _ x acc => has_date x || acc) false d
  | _ => false
  end.

(** The text [json.dumps(v)] returns, named by the value it renders. *)
Inductive json_text : Type := Dumped (v : pyval).

(** [json.dumps(v)]: every value of [pyval] has a JSON rendering but those
    that hold a [datetime]. *)
Definition json_dumps {S} (v : pyval) : M S json_text :=
  if has_date v
  then raise (TypeError "Object of type datetime is not JSON serializable")
  else ret (Dumped v).

(** The calls the route makes on the database: [sqlite3.connect] with
    [conn.cursor()], the [INSERT OR REPLACE INTO domains] statement with
    its six parameters, [conn.commit()] and [conn.close()]. *)
Inductive db_event : Type :=
| DbConnect
| DbInsertDomain (domain quality_score : pyval)
                 (dns_json whois_json ssl_json : json_text) (is_available : pyval)
| DbCommit
| DbClose.

(** The database answers a call from the calls made before it. *)
Definition database : Type := list db_event -> db_event -> result unit.

(** A view owns the list of its database calls next to the world. *)
Definition db_call (D : database) (ev : db_event) : M (list db_event * world) unit :=
  fun s => (D (fst s) ev, (fst s ++ [ev], snd s)).

(** [key in v] for a string [key]. *)
Definition py_in {S} (key : string) (v : pyval) : M S bool :=
  match v with
  | PDict d => ret (bool_decide (is_Some (d !! key)))
  | PList l => ret (existsb (fun x => match x with
                                      | PStr s => String.eqb key s
                                      | _ => false
                                      end) l)
  | PStr s => ret (contains key s)
  | _ => raise (TypeError "argument is not iterable")
  end.

(** The items of [for x in v] when [v] is a list, the one kind of value
    the views iterate over. *)
Definition iter_list {S} (v : pyval) : M S (list pyval) :=
  match v with
  | PList l => ret l
  | _ => raise (TypeError "object is not iterable")
  end.

(** The body of the loop of [analyze_domains] that saves the results. *)
Definition store_result (D : database) (result : pyval)
  : M (list db_event * world) flow :=
  has_error <- py_in "error" result ;;
  (if negb has_error
   then
     dns_records <- getitem result "dns_records" ;;
     dns_json <- json_dumps dns_records ;;
     whois_info <- getitem result "whois_info" ;;
     whois_json <- json_dumps whois_info ;;
     ssl_info <- getitem result "ssl_info" ;;
     ssl_json <- json_dumps ssl_info ;;
     domain <- getitem result "domain" ;;
     quality_score <- getitem result "quality_score" ;;
     is_available <- getitem result "is_available" ;;
     db_call D (DbInsertDomain domain quality_score dns_json whois_json ssl_json
                               is_available)
   else ret tt) ;;
  ret Continue.

(** What a view returns: the value given to [jsonify] and the status. *)
Definition http_response : Type := (pyval * Z)%type.

(** The view [analyze_domains], under [require_auth].  The request body is
    a JSON object whose [domains], when present, is a list of strings;
    [self_analyze_domain] is the [analyze_domain] of the module's
    [domain_scanner]. *)
Definition analyze_domains (E : env) (D : database)
    (self_analyze_domain : string -> M world pyval)
    (data_domains : option (list string))
  : M (list db_event * world) http_response :=
  let domains := default [] data_domains in
  match domains with
  | [] => ret (PDict (dict [("message", PStr "No domains provided")]), 400)
  | _ :: _ =>
      results <- call (batch_analyze_domains E self_analyze_domain domains) ;;
      db_call D DbConnect ;;
      entries <- getitem results "domains" ;;
      entries <- iter_list entries ;;
      for_each entries (store_result D) ;;
      db_call D DbCommit ;;
      db_call D DbClose ;;
      ret (results, 200)
  end.

(** A database whose calls all succeed. *)
Definition db_ok : database := fun _ _ => Ok tt.

(** [rec[key]], [None] standing for a missing key. *)
Definition field (rec : gmap string pyval) (key : string) : pyval :=
  default PNone (rec !! key).

(** The row the route saves for an entry of the batch: none for an entry
    that has the key [error]. *)
Definition row_of (entry : pyval) : option db_event :=
  match entry with
  | PDict rec =>
      if bool_decide (is_Some (rec !! "error")) then None
      else Some (DbInsertDomain (field rec "domain") (field rec "quality_score")
                                (Dumped (field rec "dns_records"))
                                (Dumped (field rec "whois_info"))
                                (Dumped (field rec "ssl_info"))
                                (field rec "is_available"))
  | _ => None
  end.

(** The rows the route saves for the entries of a batch, in order. *)
Definition stored_rows (entries : list pyval) : list db_event :=
  omap row_of entries.

(** The keys the route reads from a stored entry. *)
Definition stored_keys : list string :=
  ["dns_records"; "whois_info"; "ssl_info"; "domain"; "quality_score";
   "is_available"].

(** A record with the [stored_keys] and without [error]. *)
Definition stored_record (entry : pyval) : Prop :=
  exists rec, entry = PDict rec
              /\ rec !! "error" = None
              /\ forall k, In k stored_keys -> is_Some (rec !! k).

(** A stored record one of whose three serialised entries holds a
    [datetime]. *)
Definition unserialisable (entry : pyval) : Prop :=
  exists rec, entry = PDict rec
              /\ rec !! "error" = None
              /\ has_date (field rec "dns_records")
                 || has_date (field rec "whois_info")
                 || has_date (field rec "ssl_info") = true.

(** An entry the route can handle: a dictionary that has [error], or a
    stored record whose three serialised entries hold no [datetime]. *)
Definition storable (entry : pyval) : Prop :=
  exists rec, entry = PDict rec
              /\ (is_Some (rec !! "error")
                  \/ ((forall k, In k stored_keys -> is_Some (rec !! k))
                      /\ has_date (field rec "dns_records") = false
                      /\ has_date (field rec "whois_info") = false
                      /\ has_date (field rec "ssl_info") = false)).

Definition is_insert (ev : db_event) : Prop :=
  match ev with
  | DbInsertDomain _ _ _ _ _ _ => True
  | _ => False
  end.

(** An [analyze_domain] that returns a record made of the defaults, and
    raises to its caller for the one domain [k.example]. *)
Definition plain_analysis (domain : string) : gmap string pyval := dict [
  ("domain", PStr domain);
  ("dns_records", PDict dns_info_default);
  ("whois_info", PDict whois_info_default);
  ("ssl_info", PDict ssl_info_default);
  ("is_available", PBool false);
  ("quality_score", PInt 0)
].

Definition plain_analyze_domain (domain : string) : M world pyval :=
  if String.eqb domain "k.example"
  then raise (Exception "RuntimeError" "analysis exploded")
  else ret (PDict (plain_analysis domain)).

(* ===================================================================== *)
(** ** [simple_api.py]: tokens and the two decorators *)
(* ===================================================================== *)

(** [s.replace(old, new)] for a non-empty [old]: the occurrences of [old]
    are replaced from left to right, without overlap.  [skip] counts the
    characters of an occurrence still to pass over. *)
Fixpoint replace_from (old new : string) (skip : nat) (s : string) : string :=
  match s with
  | EmptyString => EmptyString
  | String c s' =>
      match skip with
      | S k => replace_from old new k s'
      | O =>
          if String.prefix old s
          then new +:+ replace_from old new (String.length old - 1) s'
          else String c (replace_from old new 0 s')
      end
  end.

Definition str_replace (old new s : string) : string := replace_from old new 0 s.

(** What [jwt.decode(token, key, algorithms=['HS256'])] does: return the
    payload, raise an [InvalidTokenError] ([ExpiredSignatureError] is one),
    or raise anything else. *)
Inductive jwt_outcome : Type :=
| JwtPayload (payload : pyval)
| JwtInvalid (e : exn)
| JwtError (e : exn).

Definition jwt : Type := string -> jwt_outcome.

Definition verify_token {S} (J : jwt) (token : string) : M S pyval :=
  match J token with
  | JwtPayload payload => ret payload
  | JwtInvalid _ => ret PNone
  | JwtError e => raise e
  end.

(** [jsonify({'message': text}), status]. *)
Definition message (text : string) (status : Z) : http_response :=
  (PDict (dict [("message", PStr text)]), status).

(** A view runs on the request, of which [request.current_user] is kept
    ([None] while the attribute is not set), and on a state of its own. *)
Definition view (S : Type) : Type := M (option pyval * S) http_response.

(** A function that does not look at the request, called from a view. *)
Definition in_request {S A} (m : M S A) : M (option pyval * S) A :=
  fun s => match m (snd s) with (r, s') => (r, (fst s, s')) end.

(** [request.current_user = payload]. *)
Definition set_current_user {S} (payload : pyval) : M (option pyval * S) unit :=
  fun s => (Ok tt, (Some payload, snd s)).

(** [require_auth(f)], called on a request whose [Authorization] header
    is [authorization]. *)
Definition require_auth {S} (J : jwt) (f : view S) (authorization : option string)
  : view S :=
  let token :=
    match authorization with
    | Some token =>
        if truthy (PStr token) then Some (str_replace "Bearer " "" token)
        else Some token
    | None => None
    end in
  match token with
  | Some token =>
      if negb (truthy (PStr token))
      then ret (message "Token required" 401)
      else
        payload <- verify_token J token ;;
        if negb (truthy payload)
        then ret (message "Invalid token" 401)
        else
          set_current_user payload ;;
          f
  | None => ret (message "Token required" 401)
  end.

(** [x != 'admin']. *)
Definition not_admin (x : pyval) : bool :=
  match x with
  | PStr s => negb (String.eqb s "admin")
  | _ => true
  end.

(** [require_admin(f)]. *)
Definition require_admin {S} (f : view S) : view S :=
  fun s =>
    match fst s with
    | None => ret (message "Admin access required" 403) s
    | Some current_user =>
        (role <- dict_get current_user "role" PNone ;;
         if not_admin role
         then ret (message "Admin access required" 403)
         else f) s
    end.

(** The route [/api/v1/domains/analyze] as registered. *)
Definition api_analyze_domains (J : jwt) (E : env) (D : database)
    (self_analyze_domain : string -> M world pyval)
    (authorization : option string) (data_domains : option (list string))
  : view (list db_event * world) :=
  require_auth J
    (in_request (analyze_domains E D self_analyze_domain data_domains))
    authorization.

(** The token [require_auth] verifies, when the header gives one. *)
Definition bearer_token (authorization : option string) : option string :=
  match authorization with
  | Some header =>
      match str_replace "Bearer " "" header with
      | EmptyString => None
      | String c token => Some (String c token)
      end
  | None => None
  end.

(** The payload of a token that [verify_token] accepts and [require_auth]
    takes for a user. *)
Definition authenticated (J : jwt) (authorization : option string)
    (payload : pyval) : Prop :=
  exists token, bearer_token authorization = Some token
                /\ J token = JwtPayload payload
                /\ truthy payload = true.

(** The answers of the decorators that refuse a request. *)
Definition refusals : list http_response :=
  [message "Token required" 401; message "Invalid token" 401;
   message "Admin access required" 403].

(** A decoder that accepts the one token [abc], as an administrator's. *)
Definition jwt_abc : jwt := fun token =>
  if String.eqb token "abc"
  then JwtPayload (PDict (dict [("role", PStr "admin")]))
  else JwtInvalid (Exception "DecodeError" "Not enough segments").

(* ===================================================================== *)
(** ** [LLMAnalyzer]: the batch driver *)
(* ===================================================================== *)

(** The failure stub of [analyze_domains_with_llm]. *)
Definition llm_stub (domain : pyval) (e : exn) : pyval :=
  PDict (dict [
    ("domain", domain);
    ("error", PStr (str_exn e));
    ("llm_analysis", PNone)
  ]).

Definition llm_results_default (domains_data : list pyval) : gmap string pyval := dict [
  ("total_domains", PInt (Z.of_nat (List.length domains_data)));
  ("processed", PInt 0);
  ("successful", PInt 0);
  ("failed", PInt 0);
  ("domains", PList [])
].

(** One turn of the loop of [analyze_domains_with_llm]; [single] is
    [self._analyze_single_domain] with the three settings given.  The
    handler reads [domain_data.get('domain', 'unknown')] twice, for the log
    and for the stub. *)
Definition llm_step (single : pyval -> M world pyval) (domain_data : pyval)
  : M (gmap string pyval * world) flow :=
  try_except
    (analysis <- call (single domain_data) ;;
     append_item "domains" analysis ;;
     incr_item "successful")
    (fun e =>
       dict_get domain_data "domain" (PStr "unknown") ;;
       domain <- dict_get domain_data "domain" (PStr "unknown") ;;
       append_item "domains" (llm_stub domain e) ;;
       incr_item "failed") ;;
  incr_item "processed" ;;
  ret Continue.

(** What [analyze_domains_with_llm] returns when no key is configured. *)
Definition no_api_key : pyval :=
  PDict (dict [
    ("error", PStr "OpenRouter API key not configured. Please configure it in settings.");
    ("domains", PList [])
  ]).

Definition default_model : string := "openai/gpt-3.5-turbo".

Definition default_prompt : string :=
  "Analyze the following domain data and provide insights about its quality, potential, and recommendations for use.".

(** [analyze_domains_with_llm]; the two methods it calls on [self] are
    parameters. *)
Definition analyze_domains_with_llm (self_get_settings : M world pyval)
    (self_analyze_single_domain : pyval -> pyval -> pyval -> pyval -> M world pyval)
    (domains_data : list pyval) : M world pyval :=
  settings <- self_get_settings ;;
  api_key <- dict_get settings "openrouter_api_key" (PStr "") ;;
  model <- dict_get settings "openrouter_model" (PStr default_model) ;;
  prompt_template <- dict_get settings "analysis_prompt" (PStr default_prompt) ;;
  if negb (truthy api_key)
  then ret no_api_key
  else
    with_local (llm_results_default domains_data)
      (for_each domains_data
         (llm_step (fun domain_data =>
                      self_analyze_single_domain domain_data api_key model
                                                 prompt_template)) ;;
       results <- get_local ;;
       ret (PDict results)).

(** [settings.get(key, default)] on the dictionary of settings. *)
Definition setting (settings : gmap string pyval) (key : string) (default : pyval)
  : pyval :=
  match settings !! key with
  | Some x => x
  | None => default
  end.

Definition is_dict (v : pyval) : Prop := exists d, v = PDict d.

(** What [v.get] raises on a value [v] that is no dictionary. *)
Definition no_get : exn := AttributeError "object has no attribute 'get'".

(** The record kinds [check_dns_records] queries, in order, each with the
    key its records are stored under. *)
Definition dns_kinds : list (string * string) :=
  [("NS", "ns_records"); ("A", "a_records"); ("MX", "mx_records");
   ("TXT", "txt_records"); ("CNAME", "cname_records")].

(* ===================================================================== *)
(** ** Specification: what the TLS fetcher records *)
(* ===================================================================== *)







(* ===================================================================== *)
(** ** Specification: what a directional query recovers *)
(* ===================================================================== *)

(** What [fetch_snapshot] makes of the answer to its request: the fault
    that ends it, no timestamp, or the timestamp [data[1][1]]. *)
Definition read_snapshot (answer : result response) : result (option pyval) :=
  match answer with
  | Raise e => Raise e
  | Ok response =>
      if status_code response =? 200
      then
        match json response with
        | Raise e => Raise e
        | Ok data =>
            if truthy data
            then
              match fst (py_len data tt) with
              | Raise e => Raise e
              | Ok n =>
                  if n >? 1
                  then
                    match fst (getitem_int data 1 tt) with
                    | Raise e => Raise e
                    | Ok row =>
                        match fst (getitem_int row 1 tt) with
                        | Raise e => Raise e
                        | Ok timestamp => Ok (Some timestamp)
                        end
                    end
                  else Ok None
              end
            else Ok None
        end
      else Ok None
  end.

(** The timestamp stored after a query: [None] when none was recovered. *)
Definition recovered (snapshot : option pyval) : pyval :=
  match snapshot with
  | Some timestamp => timestamp
  | None => PNone
  end.

(* ===================================================================== *)
(** ** Strings: substring search and lowering *)
(* ===================================================================== *)

Lemma append_nil_l (s : string) : "" +:+ s = s.
Proof. reflexivity. Qed.

Lemma append_cons (c : ascii) (a b : string) :
  String c a +:+ b = String c (a +:+ b).
Proof. reflexivity. Qed.

Lemma prefix_spec (p s : string) :
  String.prefix p s = true <-> exists rest, s = p +:+ rest.
Proof.
  revert s; induction p as [|c p IH]; intros s; simpl.
  - split; [intros _; exists s; reflexivity | intros _; destruct s; reflexivity].
  - destruct s as [|d s]; simpl.
    + split; [discriminate | intros [rest H]; discriminate].
    + destruct (Ascii.ascii_dec c d) as [->|Hne].
      * rewrite IH.
        split; intros [rest H]; exists rest; rewrite append_cons in *; congruence.
      * split; [discriminate |].
        intros [rest H]; rewrite append_cons in H; congruence.
Qed.

Lemma contains_unfold (p s : string) :
  contains p s =
  String.prefix p s
  || match s with EmptyString => false | String _ s' => contains p s' end.
Proof.
  destruct s; cbn [contains];
    match goal with
    | |- context [String.prefix p ?x] => destruct (String.prefix p x)
    end; reflexivity.
Qed.

Lemma contains_spec (p s : string) : contains p s = true <-> occurs p s.
Proof.
  unfold occurs. induction s as [|c s IH]; rewrite contains_unfold.
  - rewrite orb_false_r, prefix_spec. split.
    + intros [rest H]. exists "", rest. exact H.
    + intros (before & after & H). destruct before as [|b before].
      * exists after. exact H.
      * rewrite append_cons in H. discriminate.
  - rewrite orb_true_iff, prefix_spec, IH. split.
    + intros [[rest H] | (before & after & ->)].
      * exists "", rest. exact H.
      * exists (String c before), after. reflexivity.
    + intros (before & after & H). destruct before as [|b before].
      * left. exists after. exact H.
      * right. rewrite append_cons in H. injection H as _ ->. eauto.
Qed.

Lemma any_in_spec (phrases : list string) (text : string) :
  any_in phrases text = true <->
  exists phrase, In phrase phrases /\ occurs phrase text.
Proof.
  unfold any_in. rewrite List.existsb_exists.
  split; intros (x & Hin & H); exists x; split; auto; apply contains_spec; auto.
Qed.

Lemma lower_app (a b : string) : lower (a +:+ b) = lower a +:+ lower b.
Proof.
  induction a as [|c a IH]; [reflexivity |].
  rewrite append_cons. simpl. now rewrite IH.
Qed.

Lemma occurs_lower (phrase text : string) :
  lower phrase = phrase -> occurs phrase text -> occurs phrase (lower text).
Proof.
  intros Hp (before & after & ->).
  exists (lower before), (lower after). now rewrite !lower_app, Hp.
Qed.

(* ===================================================================== *)
(** ** Running monadic code *)
(* ===================================================================== *)

Lemma dict_nil : dict [] = ∅.
Proof. reflexivity. Qed.

Lemma dict_cons (k : string) (v : pyval) (items : list (string * pyval)) :
  dict ((k, v) :: items) = <[k := v]> (dict items).
Proof. reflexivity. Qed.

Ltac key_neq := apply String.eqb_neq; reflexivity.

Ltac dict_lookup :=
  repeat first
    [ rewrite lookup_insert_eq
    | rewrite lookup_insert_ne by key_neq
    | rewrite lookup_empty ].

Ltac run_monad :=
  cbv beta iota delta
    [bind ret raise try_except try_pass call with_local get_local
     modify_local set_item external lift_result getitem dict_get fst snd].

Ltac open_dicts :=
  unfold whois_info_default, dns_info_default, ssl_info_default,
    analysis_default, batch_results_default, webarchive_default, failure_stub;
  rewrite ?dict_cons, ?dict_nil.

(* ===================================================================== *)
(** ** The WHOIS fetcher *)
(* ===================================================================== *)

Lemma record_whois_entry_run (w : whois_entry) (h : world) :
  record_whois_entry w (whois_info_default, h)
  = (Ok tt, (whois_info_recorded w, h)).
Proof.
  unfold record_whois_entry, whois_info_recorded.
  run_monad. dict_lookup.
  destruct (classify_whois (w_str w)) as [a r]. reflexivity.
Qed.

Section WhoisLoop.
Variable E : env.
Variable domain : string.
Variable max_retries : Z.

Lemma whois_attempt_fail (attempt : Z) (info : gmap string pyval) (h : world) :
  whois_fails E domain h ->
  whois_attempt E domain max_retries attempt (info, h)
  = (Ok Continue,
     (info, h ++ EvWhois domain
                 :: (if attempt <? max_retries - 1 then [EvSleep 2] else []))).
Proof.
  intros [e He]. unfold whois_attempt, sleep. run_monad. rewrite He.
  destruct (attempt <? max_retries - 1); cbn [fst snd].
  - rewrite <- app_assoc. reflexivity.
  - reflexivity.
Qed.

Lemma whois_attempt_ok (attempt : Z) (w : whois_entry) (h : world) :
  whois_whois E h domain = Ok w ->
  whois_attempt E domain max_retries attempt (whois_info_default, h)
  = (Ok Break, (whois_info_of w, h ++ [EvWhois domain])).
Proof.
  intros Hw. unfold whois_attempt, whois_info_of.
  unfold try_except, bind at 1, call, external. cbn [fst snd]. rewrite Hw.
  destruct (w_truthy w).
  - unfold bind. rewrite record_whois_entry_run. reflexivity.
  - reflexivity.
Qed.

Lemma whois_loop_all_fail (m : nat) :
  forall (i : Z) (info : gmap string pyval) (h : world),
    i + Z.of_nat m = max_retries ->
    (forall j, (j < m)%nat -> whois_fails E domain (h ++ failed_attempts domain j)) ->
    for_each (seqZ i (Z.of_nat m)) (whois_attempt E domain max_retries) (info, h)
    = (Ok tt, (info, h ++ exhausted_attempts domain m)).
Proof.
  induction m as [|m IH]; intros i info h Hi Hfail.
  - cbn. rewrite app_nil_r. reflexivity.
  - rewrite seqZ_cons by lia.
    replace (Z.pred (Z.of_nat (S m))) with (Z.of_nat m) by lia.
    cbn [for_each]. unfold bind at 1.
    rewrite whois_attempt_fail
      by (specialize (Hfail O ltac:(lia)); cbn in Hfail;
          rewrite app_nil_r in Hfail; exact Hfail).
    destruct m as [|m].
    + replace (i <? max_retries - 1) with false by (symmetry; apply Z.ltb_ge; lia).
      cbn. reflexivity.
    + replace (i <? max_retries - 1) with true by (symmetry; apply Z.ltb_lt; lia).
      rewrite IH.
      * cbn [exhausted_attempts failed_attempts].
        rewrite <- !app_assoc. reflexivity.
      * lia.
      * intros j Hj. specialize (Hfail (S j) ltac:(lia)).
        cbn [failed_attempts] in Hfail. rewrite <- app_assoc. exact Hfail.
Qed.

Lemma whois_loop_success (k : nat) :
  forall (m : nat) (i : Z) (h : world) (w : whois_entry),
    i + Z.of_nat m = max_retries ->
    (k < m)%nat ->
    (forall j, (j < k)%nat -> whois_fails E domain (h ++ failed_attempts domain j)) ->
    whois_whois E (h ++ failed_attempts domain k) domain = Ok w ->
    for_each (seqZ i (Z.of_nat m)) (whois_attempt E domain max_retries)
             (whois_info_default, h)
    = (Ok tt, (whois_info_of w, h ++ failed_attempts domain k ++ [EvWhois domain])).
Proof.
  induction k as [|k IH]; intros m i h w Hi Hk Hfail Hw;
    (destruct m as [|m]; [lia |]);
    rewrite seqZ_cons by lia;
    replace (Z.pred (Z.of_nat (S m))) with (Z.of_nat m) by lia;
    cbn [for_each]; unfold bind at 1.
  - cbn [failed_attempts] in *. rewrite app_nil_r in Hw.
    rewrite (whois_attempt_ok _ w) by exact Hw. reflexivity.
  - rewrite whois_attempt_fail
      by (specialize (Hfail O ltac:(lia)); cbn in Hfail;
          rewrite app_nil_r in Hfail; exact Hfail).
    replace (i <? max_retries - 1) with true by (symmetry; apply Z.ltb_lt; lia).
    rewrite (IH m (Z.succ i) _ w).
    + cbn [failed_attempts]. rewrite <- !app_assoc. reflexivity.
    + lia.
    + lia.
    + intros j Hj. specialize (Hfail (S j) ltac:(lia)).
      cbn [failed_attempts] in Hfail. rewrite <- app_assoc. exact Hfail.
    + cbn [failed_attempts] in Hw. rewrite <- app_assoc. exact Hw.
Qed.

(** Either some attempt is the first to succeed, or all [m] fail. *)
Lemma first_success_or_all_fail (m : nat) (h : world) :
  (exists k w, (k < m)%nat
     /\ (forall j, (j < k)%nat -> whois_fails E domain (h ++ failed_attempts domain j))
     /\ whois_whois E (h ++ failed_attempts domain k) domain = Ok w)
  \/ (forall j, (j < m)%nat -> whois_fails E domain (h ++ failed_attempts domain j)).
Proof.
  induction m as [|m [(k & w & Hk & Hf & Hw) | Hall]].
  - right. intros j Hj. lia.
  - left. exists k, w. split; [lia | auto].
  - destruct (whois_whois E (h ++ failed_attempts domain m) domain) as [w|e] eqn:Hm.
    + left. exists m, w. auto.
    + right. intros j Hj. destruct (Nat.eq_dec j m) as [->|Hne].
      * exists e. exact Hm.
      * apply Hall. lia.
Qed.

End WhoisLoop.

Lemma whois_queries_app (h1 h2 : list event) :
  whois_queries (h1 ++ h2) = (whois_queries h1 + whois_queries h2)%nat.
Proof. unfold whois_queries. rewrite List.filter_app, List.length_app. reflexivity. Qed.

Lemma whois_queries_failed (domain : string) (k : nat) :
  whois_queries (failed_attempts domain k) = k.
Proof.
  induction k as [|k IH]; [reflexivity |].
  cbn [failed_attempts]. unfold whois_queries in *. cbn. now rewrite IH.
Qed.

Lemma whois_queries_exhausted (domain : string) (m : nat) :
  whois_queries (exhausted_attempts domain m) = m.
Proof.
  destruct m as [|m]; [reflexivity |].
  cbn [exhausted_attempts]. rewrite whois_queries_app, whois_queries_failed.
  cbn. lia.
Qed.

Lemma range_to_nat (n : Z) : range n = seqZ 0 (Z.of_nat (Z.to_nat n)).
Proof. unfold range, seqZ. now rewrite Nat2Z.id. Qed.

Lemma check_whois_info_success (E : env) (domain : string) (max_retries : Z)
    (h : world) (k : nat) (w : whois_entry) :
  (k < Z.to_nat max_retries)%nat ->
  (forall j, (j < k)%nat -> whois_fails E domain (h ++ failed_attempts domain j)) ->
  whois_whois E (h ++ failed_attempts domain k) domain = Ok w ->
  check_whois_info E domain max_retries h
  = (Ok (PDict (whois_info_of w)),
     h ++ failed_attempts domain k ++ [EvWhois domain]).
Proof.
  intros Hk Hfail Hw. unfold check_whois_info, with_local, bind at 1.
  rewrite range_to_nat.
  rewrite (whois_loop_success E domain max_retries k _ 0 h w) by (auto; lia).
  reflexivity.
Qed.

Lemma check_whois_info_exhausted (E : env) (domain : string) (max_retries : Z)
    (h : world) :
  (forall j, (j < Z.to_nat max_retries)%nat ->
             whois_fails E domain (h ++ failed_attempts domain j)) ->
  check_whois_info E domain max_retries h
  = (Ok (PDict whois_info_default),
     h ++ exhausted_attempts domain (Z.to_nat max_retries)).
Proof.
  intros Hfail. unfold check_whois_info, with_local, bind at 1.
  rewrite range_to_nat.
  destruct (Z.to_nat max_retries) as [|m] eqn:Hm.
  - cbn. rewrite app_nil_r. reflexivity.
  - rewrite (whois_loop_all_fail E domain max_retries (S m) 0) by (auto; lia).
    reflexivity.
Qed.

Lemma whois_flags_default : whois_flags whois_info_default false false.
Proof. split; open_dicts; dict_lookup; reflexivity. Qed.

Lemma whois_flags_recorded (w : whois_entry) :
  whois_flags (whois_info_recorded w)
              (fst (classify_whois (w_str w))) (snd (classify_whois (w_str w))).
Proof. split; unfold whois_info_recorded; dict_lookup; reflexivity. Qed.

Lemma whois_flags_of (w : whois_entry) :
  whois_flags (whois_info_of w)
    (w_truthy w && fst (classify_whois (w_str w)))
    (w_truthy w && snd (classify_whois (w_str w))).
Proof.
  unfold whois_info_of. destruct (w_truthy w); cbn [andb].
  - apply whois_flags_recorded.
  - apply whois_flags_default.
Qed.

Lemma classify_exclusive (raw : string) :
  fst (classify_whois raw) && snd (classify_whois raw) = false.
Proof.
  unfold classify_whois. cbn [fst snd].
  destruct (any_in available_indicators _), (any_in unavailable_indicators _);
    reflexivity.
Qed.

(** [check_whois_info] always returns: a dictionary with both flags, never
    both true, after at most [max_retries] queries. *)
Lemma check_whois_info_returns (E : env) (domain : string) (max_retries : Z)
    (h : world) :
  exists info trace a r,
    check_whois_info E domain max_retries h = (Ok (PDict info), h ++ trace)
    /\ whois_flags info a r
    /\ a && r = false
    /\ (whois_queries trace <= Z.to_nat max_retries)%nat.
Proof.
  destruct (first_success_or_all_fail E domain (Z.to_nat max_retries) h)
    as [(k & w & Hk & Hfail & Hw) | Hall].
  - exists (whois_info_of w), (failed_attempts domain k ++ [EvWhois domain]).
    exists (w_truthy w && fst (classify_whois (w_str w))).
    exists (w_truthy w && snd (classify_whois (w_str w))).
    split; [apply check_whois_info_success; assumption |].
    split; [apply whois_flags_of |].
    split.
    + pose proof (classify_exclusive (w_str w)).
      destruct (w_truthy w), (fst _), (snd _); cbn in *; congruence.
    + rewrite whois_queries_app, whois_queries_failed. cbn. lia.
  - exists whois_info_default, (exhausted_attempts domain (Z.to_nat max_retries)).
    exists false, false.
    split; [apply check_whois_info_exhausted; assumption |].
    split; [apply whois_flags_default |].
    split; [reflexivity |].
    rewrite whois_queries_exhausted. lia.
Qed.

Example classify_unregistered :
  classify_whois "No match for EXAMPLE.COM" = (true, false).
Proof. vm_compute. reflexivity. Qed.

Example classify_registered :
  classify_whois "Domain Name: EXAMPLE.COM  Registrar: Some Registrar, Inc."
  = (false, true).
Proof. vm_compute. reflexivity. Qed.

Example classify_unknown : classify_whois "connection limit exceeded" = (false, false).
Proof. vm_compute. reflexivity. Qed.

(** C1.  For every raw WHOIS text [raw], the classifier (lines 139-148 of
    [check_whois_info]) sets [is_registered] exactly when some phrase of
    [unavailable_indicators] occurs in the lowercased text, and
    [is_available] exactly when some phrase of [available_indicators]
    occurs in the lowercased text and [is_registered] is false.  So the two
    flags are never both true; both are false on some text; and a text in
    which both "creation date:" and "status: available" occur is classified
    registered and not available.  The flags [check_whois_info] returns are
    never both true, and after an attempt that returns a truthy entry [w]
    they are the classification of [str(w)]. *)
Theorem C1_classifier :
  (forall raw : string,
     (snd (classify_whois raw) = true <->
        exists phrase, In phrase unavailable_indicators
                       /\ occurs phrase (lower raw))
     /\ (fst (classify_whois raw) = true <->
           (exists phrase, In phrase available_indicators
                           /\ occurs phrase (lower raw))
           /\ snd (classify_whois raw) = false)
     /\ ~ (fst (classify_whois raw) = true /\ snd (classify_whois raw) = true)
     /\ (occurs "creation date:" raw -> occurs "status: available" raw ->
         snd (classify_whois raw) = true /\ fst (classify_whois raw) = false))
  /\ (exists raw : string, classify_whois raw = (false, false))
  /\ (forall (E : env) (domain : string) (max_retries : Z) (h : world),
        exists info h' a r,
          check_whois_info E domain max_retries h = (Ok (PDict info), h')
          /\ whois_flags info a r
          /\ ~ (a = true /\ r = true))
  /\ (forall (E : env) (domain : string) (max_retries : Z) (h : world)
             (k : nat) (w : whois_entry),
        (k < Z.to_nat max_retries)%nat ->
        (forall j, (j < k)%nat ->
                   whois_fails E domain (h ++ failed_attempts domain j)) ->
        whois_whois E (h ++ failed_attempts domain k) domain = Ok w ->
        w_truthy w = true ->
        exists info h',
          check_whois_info E domain max_retries h = (Ok (PDict info), h')
          /\ info !! "raw_data" = Some (PStr (w_str w))
          /\ whois_flags info (fst (classify_whois (w_str w)))
                              (snd (classify_whois (w_str w)))).
Proof.
  split; [| split; [| split]].
  - intros raw.
    assert (Hreg : snd (classify_whois raw) = true <->
              exists phrase, In phrase unavailable_indicators
                             /\ occurs phrase (lower raw))
      by (unfold classify_whois; cbn [snd]; apply any_in_spec).
    split; [exact Hreg |]. split; [| split].
    + unfold classify_whois. cbn [fst snd].
      rewrite andb_true_iff, negb_true_iff, any_in_spec. reflexivity.
    + intros [Ha Hr]. pose proof (classify_exclusive raw) as Hx.
      rewrite Ha, Hr in Hx. discriminate.
    + intros Hc Hs.
      assert (Hr : snd (classify_whois raw) = true).
      { apply Hreg. exists "creation date:". split.
        - unfold unavailable_indicators. cbn. tauto.
        - apply occurs_lower; [reflexivity | exact Hc]. }
      split; [exact Hr |].
      pose proof (classify_exclusive raw) as Hx. rewrite Hr in Hx.
      destruct (fst (classify_whois raw)); [discriminate | reflexivity].
  - exists "". vm_compute. reflexivity.
  - intros E domain max_retries h.
    destruct (check_whois_info_returns E domain max_retries h)
      as (info & trace & a & r & Hrun & Hflags & Hx & _).
    exists info, (h ++ trace), a, r. split; [exact Hrun |]. split; [exact Hflags |].
    intros [-> ->]. discriminate.
  - intros E domain max_retries h k w Hk Hfail Hw Ht.
    exists (whois_info_of w), (h ++ failed_attempts domain k ++ [EvWhois domain]).
    split; [apply check_whois_info_success; assumption |].
    unfold whois_info_of. rewrite Ht. split.
    + unfold whois_info_recorded. dict_lookup. reflexivity.
    + apply whois_flags_recorded.
Qed.

(** C6.  [check_whois_info] always returns a dictionary and never raises,
    after at most [max_retries] WHOIS queries.  When attempt number [k]
    (counted from 0) is the first that succeeds, the history is [k] failed
    queries, each followed by a sleep of 2, then the successful query, and
    nothing more.  When every attempt fails, the history is [max_retries]
    queries with a sleep of 2 between consecutive ones (none after the
    last), and the result is the default dictionary, whose [is_registered]
    and [is_available] are false.  The class calls it with
    [max_retries = 3]. *)
Theorem C6_whois_retry (E : env) (domain : string) (max_retries : Z) (h : world) :
  (exists info trace,
     check_whois_info E domain max_retries h = (Ok (PDict info), h ++ trace)
     /\ (whois_queries trace <= Z.to_nat max_retries)%nat)
  /\ (forall (k : nat) (w : whois_entry),
        (k < Z.to_nat max_retries)%nat ->
        (forall j, (j < k)%nat ->
                   whois_fails E domain (h ++ failed_attempts domain j)) ->
        whois_whois E (h ++ failed_attempts domain k) domain = Ok w ->
        check_whois_info E domain max_retries h
        = (Ok (PDict (whois_info_of w)),
           h ++ failed_attempts domain k ++ [EvWhois domain]))
  /\ ((forall j, (j < Z.to_nat max_retries)%nat ->
                 whois_fails E domain (h ++ failed_attempts domain j)) ->
      check_whois_info E domain max_retries h
      = (Ok (PDict whois_info_default),
         h ++ exhausted_attempts domain (Z.to_nat max_retries))
      /\ whois_flags whois_info_default false false)
  /\ exhausted_attempts domain 3
     = [EvWhois domain; EvSleep 2; EvWhois domain; EvSleep 2; EvWhois domain]
  /\ self_check_whois_info (DomainScanner E) domain
     = check_whois_info E domain 3.
Proof.
  split; [| split; [| split; [| split]]].
  - destruct (check_whois_info_returns E domain max_retries h)
      as (info & trace & a & r & Hrun & _ & _ & Hq).
    exists info, trace. auto.
  - intros k w Hk Hfail Hw. apply check_whois_info_success; assumption.
  - intros Hall. split.
    + apply check_whois_info_exhausted; assumption.
    + apply whois_flags_default.
  - reflexivity.
  - reflexivity.
Qed.

(* ===================================================================== *)
(** ** The DNS and TLS fetchers *)
(* ===================================================================== *)

Lemma dns_query_run (E : env) (domain rdtype key : string)
    (info : gmap string pyval) (h : world) :
  info !! key = Some (PList []) ->
  dns_query E domain rdtype key (info, h)
  = (Ok tt, (<[key := dns_answer_value (dns_resolve E h domain rdtype)]> info,
             h ++ [EvResolve domain rdtype])).
Proof.
  intros Hkey. unfold dns_query. run_monad.
  destruct (dns_resolve E h domain rdtype) as [records|e]; cbn [dns_answer_value].
  - reflexivity.
  - rewrite insert_id by exact Hkey. reflexivity.
Qed.

Lemma check_dns_records_run (E : env) (domain : string) (h : world) :
  check_dns_records E domain h
  = (Ok (PDict (dns_info_of E domain h)), h ++ dns_events domain).
Proof.
  unfold check_dns_records, with_local, try_except, bind.
  rewrite dns_query_run by (open_dicts; dict_lookup; reflexivity).
  rewrite dns_query_run by (open_dicts; dict_lookup; reflexivity).
  rewrite dns_query_run by (open_dicts; dict_lookup; reflexivity).
  rewrite dns_query_run by (open_dicts; dict_lookup; reflexivity).
  rewrite dns_query_run by (open_dicts; dict_lookup; reflexivity).
  unfold get_local, ret, dns_info_of, dns_events. cbn [fst snd take].
  rewrite <- !app_assoc. reflexivity.
Qed.

Lemma record_peercert_has_ssl (cert : peercert) (info : gmap string pyval) (h : world) :
  exists r info',
    record_peercert cert (info, h) = (r, (info', h))
    /\ info' !! "has_ssl" = Some (PBool true).
Proof.
  unfold record_peercert. run_monad.
  destruct (cert_issuer cert); [| eexists _, _; split; [reflexivity | dict_lookup; reflexivity]].
  destruct (cert_subject cert); [| eexists _, _; split; [reflexivity | dict_lookup; reflexivity]].
  destruct (cert_notBefore cert); [| eexists _, _; split; [reflexivity | dict_lookup; reflexivity]].
  destruct (cert_notAfter cert); [| eexists _, _; split; [reflexivity | dict_lookup; reflexivity]].
  destruct (cert_serialNumber cert); [| eexists _, _; split; [reflexivity | dict_lookup; reflexivity]].
  destruct (cert_version cert); eexists _, _; (split; [reflexivity | dict_lookup; reflexivity]).
Qed.

(** [check_ssl_certificate] always returns: a dictionary whose [has_ssl]
    is the presence flag, and the default dictionary when the flag is
    false. *)
Lemma check_ssl_certificate_returns (E : env) (domain : string) (timeout : Z)
    (h : world) :
  exists info,
    check_ssl_certificate E domain timeout h
    = (Ok (PDict info), h ++ [EvTls domain timeout])
    /\ info !! "has_ssl" = Some (PBool (tls_present E domain timeout h))
    /\ (tls_present E domain timeout h = false -> info = ssl_info_default).
Proof.
  unfold check_ssl_certificate, tls_present, with_local, try_except.
  unfold bind at 1. unfold bind at 1. unfold call, external. cbn [fst snd].
  destruct (tls_getpeercert E h domain timeout) as [cert|e].
  - destruct (cert_truthy cert).
    + destruct (record_peercert_has_ssl cert ssl_info_default
                  (h ++ [EvTls domain timeout])) as (r & info' & Hrun & Hssl).
      rewrite Hrun. exists info'.
      destruct r; (split; [reflexivity | split; [exact Hssl | discriminate]]).
    + exists ssl_info_default. split; [reflexivity |].
      split; [open_dicts; dict_lookup; reflexivity | reflexivity].
  - exists ssl_info_default. split; [reflexivity |].
    split; [open_dicts; dict_lookup; reflexivity | reflexivity].
Qed.

(* ===================================================================== *)
(** ** The signature extractor *)
(* ===================================================================== *)

Lemma dns_signature_run (E : env) (domain rdtype tag : string)
    (sigs : list pyval) (h : world) :
  dns_signature E domain rdtype tag (sigs, h)
  = (Ok tt, (sigs ++ (if dns_has_records E domain rdtype h then [PStr tag] else []),
             h ++ [EvResolve domain rdtype])).
Proof.
  unfold dns_signature, dns_has_records, append_local. run_monad.
  destruct (dns_resolve E h domain rdtype) as [[|x records]|e];
    rewrite ?app_nil_r; reflexivity.
Qed.


Lemma getitem_Some {S} (d : gmap string pyval) (key : string) (v : pyval) (s : S) :
  d !! key = Some v -> getitem (PDict d) key s = (Ok v, s).
Proof. intros H. unfold getitem. rewrite H. reflexivity. Qed.

(** [check_domain_signatures] as the class runs it: the tags are those of
    its own three DNS queries, its own call of [check_whois_info] and its
    own call of [check_ssl_certificate]. *)
Lemma check_domain_signatures_run (E : env) (domain : string) (h : world) :
  exists (whois_info : gmap string pyval) (trace : list event) (a r : bool),
    let h3 := h ++ signature_events domain in
    check_whois_info E domain 3 h3 = (Ok (PDict whois_info), h3 ++ trace)
    /\ whois_flags whois_info a r
    /\ check_domain_signatures E
         (fun domain => check_whois_info E domain 3)
         (fun domain => check_ssl_certificate E domain 5) domain h
       = (Ok (PList (signature_tags
                       (dns_has_records E domain "NS" h)
                       (dns_has_records E domain "A" (h ++ take 1 (signature_events domain)))
                       (dns_has_records E domain "MX" (h ++ take 2 (signature_events domain)))
                       r
                       (tls_present E domain 5 (h3 ++ trace)))),
          (h3 ++ trace) ++ [EvTls domain 5]).
Proof.
  destruct (check_whois_info_returns E domain 3 (h ++ signature_events domain))
    as (whois_info & trace & a & r & Hrun & Hflags & _ & _).
  exists whois_info, trace, a, r. cbv zeta.
  split; [exact Hrun |]. split; [exact Hflags |].
  destruct (check_ssl_certificate_returns E domain 5
              ((h ++ signature_events domain) ++ trace))
    as (ssl_info & Hssl & Hhas & _).
  unfold check_domain_signatures, with_local, try_except, bind.
  rewrite !dns_signature_run. unfold call. cbn [fst snd].
  unfold signature_events in *. cbn [take]. rewrite <- !app_assoc in *.
  cbn [app] in *. rewrite Hrun.
  rewrite (getitem_Some _ _ _ _ (proj2 Hflags)).
  unfold append_local, modify_local, ret, get_local. cbn [truthy fst snd].
  unfold signature_tags.
  destruct r; cbn [fst snd]; rewrite Hssl;
    rewrite (getitem_Some _ _ _ _ Hhas); cbn [truthy];
    destruct (tls_present E domain 5 _); cbn [fst snd];
    rewrite <- ?app_assoc, ?app_nil_r; reflexivity.
Qed.

(* ===================================================================== *)
(** ** The quality score *)
(* ===================================================================== *)

Lemma truthy_get (o : option pyval) :
  truthy (match o with Some x => x | None => PNone end)
  = match o with Some v => truthy v | None => false end.
Proof. destruct o; reflexivity. Qed.

Lemma weight_sum_ext (f g : evidence -> bool) :
  (forall e, f e = g e) -> weight_sum f = weight_sum g.
Proof.
  intros H. unfold weight_sum, all_evidence. cbn [List.filter].
  rewrite !H. reflexivity.
Qed.

Lemma weight_sum_bounds (f : evidence -> bool) : 0 <= weight_sum f <= 110.
Proof.
  unfold weight_sum, all_evidence. cbn [List.filter].
  destruct (f NS_records), (f A_records), (f MX_records), (f TXT_records),
    (f Registrar), (f Creation_date), (f Name_servers), (f TLS_certificate);
    cbn; lia.
Qed.

Lemma calculate_quality_score_run {S} (analysis dns whois ssl : gmap string pyval)
    (s : S) :
  analysis !! "dns_records" = Some (PDict dns) ->
  analysis !! "whois_info" = Some (PDict whois) ->
  analysis !! "ssl_info" = Some (PDict ssl) ->
  _calculate_quality_score (PDict analysis) s
  = (Ok (PInt (table_score (present dns whois ssl))), s).
Proof.
  intros Hd Hw Hs. unfold _calculate_quality_score. run_monad.
  rewrite Hd, Hw, Hs. rewrite !truthy_get.
  unfold table_score, weight_sum, all_evidence. cbn [List.filter present].
  unfold field_truthy.
  destruct (match dns !! "ns_records" with Some v => truthy v | None => false end),
    (match dns !! "a_records" with Some v => truthy v | None => false end),
    (match dns !! "mx_records" with Some v => truthy v | None => false end),
    (match dns !! "txt_records" with Some v => truthy v | None => false end),
    (match whois !! "registrar" with Some v => truthy v | None => false end),
    (match whois !! "creation_date" with Some v => truthy v | None => false end),
    (match whois !! "name_servers" with Some v => truthy v | None => false end),
    (match ssl !! "has_ssl" with Some v => truthy v | None => false end);
    reflexivity.
Qed.

(* ===================================================================== *)
(** ** The recommendations *)
(* ===================================================================== *)

Lemma generate_recommendations_run {S} (analysis dns ssl : gmap string pyval)
    (is_available : pyval) (score : Z) (s : S) :
  analysis !! "is_available" = Some is_available ->
  analysis !! "dns_records" = Some (PDict dns) ->
  analysis !! "ssl_info" = Some (PDict ssl) ->
  analysis !! "quality_score" = Some (PInt score) ->
  _generate_recommendations (PDict analysis) s
  = (Ok (render (advisories is_available dns ssl score)), s).
Proof.
  intros Ha Hd Hs Hq. unfold _generate_recommendations, py_lt, py_gt. run_monad.
  rewrite Ha, Hd, Hs, Hq. rewrite !truthy_get.
  unfold render, advisories, rule_availability, rule_active_use, rule_https,
    rule_presence, field_truthy.
  destruct (truthy is_available),
    (match dns !! "a_records" with Some v => truthy v | None => false end),
    (match ssl !! "has_ssl" with Some v => truthy v | None => false end),
    (score <? 50), (score >? 80); reflexivity.
Qed.

(* ===================================================================== *)
(** ** The orchestrator: what a body does to its local dictionary *)
(* ===================================================================== *)

Section LocalDictionary.
Context {A B : Type}.
Implicit Types (m : M (gmap string pyval * world) A).

Lemma grows_ret (a : A) : grows (ret a).
Proof. intros d h r d' h' H k Hk. injection H as _ <- _. exact Hk. Qed.

Lemma grows_raise (e : exn) : grows (raise e : M _ A).
Proof. intros d h r d' h' H k Hk. injection H as _ <- _. exact Hk. Qed.

Lemma grows_call (c : M world A) : grows (call c).
Proof.
  intros d h r d' h' H k Hk. unfold call in H. cbn [fst snd] in H.
  destruct (c h) as [r0 w0]. injection H as _ <- _. exact Hk.
Qed.

Lemma grows_bind m (f : A -> M (gmap string pyval * world) B) :
  grows m -> (forall a, grows (f a)) -> grows (bind m f).
Proof.
  intros Hm Hf d h r d' h' H k Hk. unfold bind in H.
  destruct (m (d, h)) as [[a|e] [d1 h1]] eqn:Hrun.
  - eapply Hf; [exact H |]. eapply Hm; eauto.
  - injection H as _ <- _. eapply Hm; eauto.
Qed.

Lemma grows_try_except m (f : exn -> M (gmap string pyval * world) A) :
  grows m -> (forall e, grows (f e)) -> grows (try_except m f).
Proof.
  intros Hm Hf d h r d' h' H k Hk. unfold try_except in H.
  destruct (m (d, h)) as [[a|e] [d1 h1]] eqn:Hrun.
  - injection H as _ <- _. eapply Hm; eauto.
  - eapply Hf; [exact H |]. eapply Hm; eauto.
Qed.

Lemma keeps_ret keys (a : A) : keeps keys (ret a).
Proof. intros d h r d' h' H k Hk. injection H as _ <- _. reflexivity. Qed.

Lemma keeps_raise keys (e : exn) : keeps keys (raise e : M _ A).
Proof. intros d h r d' h' H k Hk. injection H as _ <- _. reflexivity. Qed.

Lemma keeps_call keys (c : M world A) : keeps keys (call c).
Proof.
  intros d h r d' h' H k Hk. unfold call in H. cbn [fst snd] in H.
  destruct (c h) as [r0 w0]. injection H as _ <- _. reflexivity.
Qed.

Lemma keeps_bind keys m (f : A -> M (gmap string pyval * world) B) :
  keeps keys m -> (forall a, keeps keys (f a)) -> keeps keys (bind m f).
Proof.
  intros Hm Hf d h r d' h' H k Hk. unfold bind in H.
  destruct (m (d, h)) as [[a|e] [d1 h1]] eqn:Hrun.
  - rewrite (Hf _ _ _ _ _ _ H k Hk). eapply Hm; eauto.
  - injection H as _ <- _. eapply Hm; eauto.
Qed.

End LocalDictionary.

Lemma grows_set_item (key : string) (v : pyval) : grows (set_item key v).
Proof.
  intros d h r d' h' H k Hk. injection H as _ <- _.
  destruct (decide (key = k)) as [->|Hne].
  - rewrite lookup_insert_eq. eauto.
  - rewrite lookup_insert_ne by exact Hne. exact Hk.
Qed.

Lemma grows_get_local : grows get_local.
Proof. intros d h r d' h' H k Hk. injection H as _ <- _. exact Hk. Qed.

Lemma grows_getitem (v : pyval) (key : string) : grows (getitem v key).
Proof.
  intros d h r d' h' H k Hk. unfold getitem in H.
  destruct v; try (injection H as _ <- _; exact Hk).
  destruct (_ !! key); injection H as _ <- _; exact Hk.
Qed.

Lemma keeps_set_item keys (key : string) (v : pyval) :
  ~ In key keys -> keeps keys (set_item key v).
Proof.
  intros Hnot d h r d' h' H k Hk. injection H as _ <- _.
  apply lookup_insert_ne. intros ->. contradiction.
Qed.

Lemma keeps_get_local keys : keeps keys get_local.
Proof. intros d h r d' h' H k Hk. injection H as _ <- _. reflexivity. Qed.

Lemma keeps_getitem keys (v : pyval) (key : string) : keeps keys (getitem v key).
Proof.
  intros d h r d' h' H k Hk. unfold getitem in H.
  destruct v; try (injection H as _ <- _; reflexivity).
  destruct (_ !! key); injection H as _ <- _; reflexivity.
Qed.

Create HintDb local_dict.
#[local] Hint Resolve grows_ret grows_raise grows_call grows_set_item
  grows_get_local grows_getitem keeps_ret keeps_raise keeps_call
  keeps_get_local keeps_getitem : local_dict.

Ltac not_in_keys :=
  cbn [In]; intros Hin; repeat destruct Hin as [Hin | Hin];
  try discriminate Hin; try contradiction.

Ltac local_dict :=
  repeat first
    [ apply grows_bind; [| intros ?]
    | apply keeps_bind; [| intros ?]
    | apply grows_try_except; [| intros ?]
    | apply keeps_set_item; not_in_keys
    | solve [auto with local_dict] ].

Lemma grows_analyze_domain_body (self : methods) (domain : string) :
  grows (analyze_domain_body self domain).
Proof. unfold analyze_domain_body, analyze_domain_fetch. local_dict. Qed.

Lemma keeps_analyze_domain_fetch (self : methods) (domain : string) :
  keeps ["domain"; "timestamp"; "is_available"; "quality_score"; "recommendations"]
        (analyze_domain_fetch self domain).
Proof. unfold analyze_domain_fetch. local_dict. Qed.

Lemma keeps_analyze_domain_body (self : methods) (domain : string) :
  keeps ["domain"; "timestamp"] (analyze_domain_body self domain).
Proof. unfold analyze_domain_body, analyze_domain_fetch. local_dict. Qed.

(** [analyze_domain] in terms of its [try] block: a fault is turned into
    the [error] entry, and the dictionary built so far is returned. *)
Lemma analyze_domain_outcome (E : env) (self : methods) (domain : string) (h : world) :
  analyze_domain E self domain h
  = match analyze_domain_body self domain
            (analysis_default domain (datetime_now E h), h) with
    | (Ok _, (analysis, h')) => (Ok (PDict analysis), h')
    | (Raise e, (analysis, h')) =>
        (Ok (PDict (<["error" := PStr (str_exn e)]> analysis)), h')
    end.
Proof.
  unfold analyze_domain, now, with_local, try_except, bind.
  destruct (analyze_domain_body self domain _) as [[[]|e] [analysis h']];
    reflexivity.
Qed.

Lemma analysis_default_base (domain timestamp k : string) :
  In k base_keys -> is_Some (analysis_default domain timestamp !! k).
Proof.
  unfold base_keys. cbn [In]. intros Hin.
  repeat destruct Hin as [<- | Hin]; try contradiction;
    open_dicts; dict_lookup; eauto.
Qed.

(** [analyze_domain] returns a dictionary whatever the methods of [self]
    do; the dictionary has the nine base keys, and its [domain] and
    [timestamp] are those it started with. *)
Lemma analyze_domain_returns (E : env) (self : methods) (domain : string) (h : world) :
  exists rec h',
    analyze_domain E self domain h = (Ok (PDict rec), h')
    /\ (forall k, In k base_keys -> is_Some (rec !! k))
    /\ rec !! "domain" = Some (PStr domain)
    /\ rec !! "timestamp" = Some (PStr (datetime_now E h)).
Proof.
  rewrite analyze_domain_outcome.
  destruct (analyze_domain_body self domain _) as [[[]|e] [analysis h']] eqn:Hrun.
  - exists analysis, h'. split; [reflexivity |]. split; [| split].
    + intros k Hk. eapply grows_analyze_domain_body; [exact Hrun |].
      apply analysis_default_base, Hk.
    + rewrite (keeps_analyze_domain_body _ _ _ _ _ _ _ Hrun) by (cbn; auto).
      open_dicts. dict_lookup. reflexivity.
    + rewrite (keeps_analyze_domain_body _ _ _ _ _ _ _ Hrun) by (cbn; auto).
      open_dicts. dict_lookup. reflexivity.
  - exists (<["error" := PStr (str_exn e)]> analysis), h'.
    split; [reflexivity |]. split; [| split].
    + intros k Hk.
      eapply (grows_set_item "error" _ analysis h' (Ok tt)); [reflexivity |].
      eapply grows_analyze_domain_body; [exact Hrun |].
      apply analysis_default_base, Hk.
    + rewrite lookup_insert_ne by key_neq.
      rewrite (keeps_analyze_domain_body _ _ _ _ _ _ _ Hrun) by (cbn; auto).
      open_dicts. dict_lookup. reflexivity.
    + rewrite lookup_insert_ne by key_neq.
      rewrite (keeps_analyze_domain_body _ _ _ _ _ _ _ Hrun) by (cbn; auto).
      open_dicts. dict_lookup. reflexivity.
Qed.

Lemma scanner_analyze_domain_run (E : env) (domain : string) (h : world) :
  exists rec h',
    scanner_run E domain h rec h'
    /\ scanner_analyze_domain E domain h = (Ok (PDict rec), h').
Proof.
  destruct (check_whois_info_returns E domain 3 (h ++ dns_events domain))
    as (whois & trace & a & r & Hwhois & Hflags & Hx & _).
  destruct (check_ssl_certificate_returns E domain 5 ((h ++ dns_events domain) ++ trace))
    as (ssl & Hssl & Hhas & _).
  destruct (check_domain_signatures_run E domain
              (((h ++ dns_events domain) ++ trace) ++ [EvTls domain 5]))
    as (whois' & trace' & a' & r' & Hwhois' & Hflags' & Hsig).
  cbv zeta in Hwhois', Hsig.
  eexists _, _. split.
  - eapply (ScannerRun E domain h whois ssl whois' trace trace' a r a' r');
      try reflexivity; eassumption.
  - unfold scanner_analyze_domain. rewrite analyze_domain_outcome.
    unfold analyze_domain_body, analyze_domain_fetch, DomainScanner.
    cbn [self_check_dns_records self_check_whois_info self_check_ssl_certificate
         self_check_domain_signatures self_calculate_quality_score
         self_generate_recommendations].
    unfold bind, call, set_item, modify_local, get_local. cbn [fst snd].
    rewrite check_dns_records_run. cbn [fst snd].
    rewrite Hwhois. cbn [fst snd]. rewrite Hssl. cbn [fst snd].
    rewrite Hsig. cbn [fst snd].
    rewrite (getitem_Some _ "whois_info" (PDict whois))
      by (dict_lookup; reflexivity).
    rewrite (getitem_Some _ _ _ _ (proj1 Hflags)).
    erewrite calculate_quality_score_run; [| dict_lookup; reflexivity ..].
    erewrite generate_recommendations_run; [| dict_lookup; reflexivity ..].
    reflexivity.
Qed.

(* ===================================================================== *)
(** ** The batch driver *)
(* ===================================================================== *)

Ltac bubble key :=
  repeat (rewrite (insert_insert_ne _ key) by key_neq);
  rewrite insert_insert_eq.

Lemma batch_dict_append (t p s f : Z) (es : list pyval) (v : pyval) (h : world) :
  append_item "domains" v (batch_dict t p s f es, h)
  = (Ok tt, (batch_dict t p s f (es ++ [v]), h)).
Proof.
  unfold append_item, batch_dict. run_monad. dict_lookup.
  bubble "domains". reflexivity.
Qed.

Lemma batch_dict_successful (t p s f : Z) (es : list pyval) (h : world) :
  incr_item "successful" (batch_dict t p s f es, h)
  = (Ok tt, (batch_dict t p (s + 1) f es, h)).
Proof.
  unfold incr_item, batch_dict. run_monad. dict_lookup.
  bubble "successful". reflexivity.
Qed.

Lemma batch_dict_failed (t p s f : Z) (es : list pyval) (h : world) :
  incr_item "failed" (batch_dict t p s f es, h)
  = (Ok tt, (batch_dict t p s (f + 1) es, h)).
Proof.
  unfold incr_item, batch_dict. run_monad. dict_lookup.
  bubble "failed". reflexivity.
Qed.

Lemma batch_dict_processed (t p s f : Z) (es : list pyval) (h : world) :
  incr_item "processed" (batch_dict t p s f es, h)
  = (Ok tt, (batch_dict t (p + 1) s f es, h)).
Proof.
  unfold incr_item, batch_dict. run_monad. dict_lookup.
  bubble "processed". reflexivity.
Qed.

Lemma batch_results_default_dict (domains : list string) :
  batch_results_default domains
  = batch_dict (Z.of_nat (List.length domains)) 0 0 0 [].
Proof. reflexivity. Qed.

Lemma batch_step_run (E : env) (an : string -> M world pyval) (domain : string)
    (t p s f : Z) (es : list pyval) (h : world) :
  batch_step E an domain (batch_dict t p s f es, h)
  = match an domain h with
    | (Ok analysis, h1) =>
        (Ok Continue, (batch_dict t (p + 1) (s + 1) f (es ++ [analysis]), h1))
    | (Raise e, h1) =>
        (Ok Continue,
         (batch_dict t (p + 1) s (f + 1)
                     (es ++ [failure_stub domain e (datetime_now E h1)]), h1))
    end.
Proof.
  unfold batch_step, try_except, now.
  unfold bind at 1. unfold bind at 1. unfold call at 1. cbn [fst snd].
  destruct (an domain h) as [[analysis|e] h1].
  - unfold bind. rewrite batch_dict_append, batch_dict_successful,
      batch_dict_processed. reflexivity.
  - unfold bind, call. cbn [fst snd].
    rewrite batch_dict_append, batch_dict_failed, batch_dict_processed.
    reflexivity.
Qed.

Lemma batch_loop_run (E : env) (an : string -> M world pyval) (domains : list string) :
  forall (t p s f : Z) (es : list pyval) (h : world),
  exists entries successful failed h',
    batch_run E an domains h entries successful failed h'
    /\ for_each domains (batch_step E an) (batch_dict t p s f es, h)
       = (Ok tt,
          (batch_dict t (p + successful + failed) (s + successful) (f + failed)
                      (es ++ entries), h')).
Proof.
  induction domains as [|domain domains IH]; intros t p s f es h.
  - exists [], 0, 0, h. split; [constructor |].
    cbn. rewrite app_nil_r, !Z.add_0_r. reflexivity.
  - cbn [for_each]. unfold bind. rewrite batch_step_run.
    destruct (an domain h) as [[analysis|e] h1] eqn:Han.
    + destruct (IH t (p + 1) (s + 1) f (es ++ [analysis]) h1)
        as (entries & successful & failed & h' & Hrun & Hloop).
      exists (analysis :: entries), (successful + 1), failed, h'.
      split; [econstructor; eassumption |].
      rewrite Hloop, <- app_assoc. cbn [app].
      do 3 f_equal; lia.
    + destruct (IH t (p + 1) s (f + 1)
                  (es ++ [failure_stub domain e (datetime_now E h1)]) h1)
        as (entries & successful & failed & h' & Hrun & Hloop).
      exists (failure_stub domain e (datetime_now E h1) :: entries),
        successful, (failed + 1), h'.
      split; [econstructor; eassumption |].
      rewrite Hloop, <- app_assoc. cbn [app].
      do 3 f_equal; lia.
Qed.

Lemma batch_analyze_domains_run (E : env) (an : string -> M world pyval)
    (domains : list string) (h : world) :
  exists entries successful failed h',
    batch_run E an domains h entries successful failed h'
    /\ batch_analyze_domains E an domains h
       = (Ok (PDict (batch_dict (Z.of_nat (List.length domains))
                                (successful + failed) successful failed entries)),
          h').
Proof.
  destruct (batch_loop_run E an domains (Z.of_nat (List.length domains)) 0 0 0 [] h)
    as (entries & successful & failed & h' & Hrun & Hloop).
  exists entries, successful, failed, h'. split; [exact Hrun |].
  unfold batch_analyze_domains, with_local, bind.
  rewrite batch_results_default_dict, Hloop. reflexivity.
Qed.

Lemma batch_run_counts (E : env) (an : string -> M world pyval)
    (domains : list string) (h h' : world) (entries : list pyval)
    (successful failed : Z) :
  batch_run E an domains h entries successful failed h' ->
  0 <= successful /\ 0 <= failed
  /\ successful + failed = Z.of_nat (List.length domains)
  /\ List.length entries = List.length domains.
Proof.
  induction 1; cbn [List.length]; lia.
Qed.

Lemma batch_run_entries (E : env) (an : string -> M world pyval)
    (domains : list string) (h h' : world) (entries : list pyval)
    (successful failed : Z) :
  batch_run E an domains h entries successful failed h' ->
  Forall2 (entry_for E an) domains entries.
Proof.
  induction 1; constructor; auto.
  - left. eauto.
  - right. eauto 6.
Qed.

(** No call raised: nothing is counted as failed. *)
Lemma batch_run_no_raise (E : env) (an : string -> M world pyval)
    (domains : list string) (h h' : world) (entries : list pyval)
    (successful failed : Z) :
  batch_run E an domains h entries successful failed h' ->
  (forall d w, In d domains -> exists a w', an d w = (Ok a, w')) ->
  failed = 0
  /\ Forall2 (fun d entry => exists w w', an d w = (Ok entry, w')) domains entries.
Proof.
  induction 1 as [h | domain domains h h1 h' analysis entries s f Han Hrun IH
                    | domain domains h h1 h' e entries s f Han Hrun IH];
    intros Hok.
  - split; [reflexivity | constructor].
  - destruct IH as [-> Hall]; [intros; apply Hok; right; assumption |].
    split; [reflexivity |]. constructor; eauto.
  - destruct (Hok domain h) as (a & w' & Ha); [left; reflexivity |]. congruence.
Qed.

(** A domain whose call raises in every state is counted as failed, and
    each of its entries is a stub. *)
Lemma batch_run_raise (E : env) (an : string -> M world pyval)
    (domains : list string) (h h' : world) (entries : list pyval)
    (successful failed : Z) (K : string) :
  batch_run E an domains h entries successful failed h' ->
  (forall w, exists e w', an K w = (Raise e, w')) ->
  In K domains ->
  1 <= failed
  /\ forall i, domains !! i = Some K ->
       exists e w', entries !! i = Some (failure_stub K e (datetime_now E w')).
Proof.
  intros Hrun HK.
  induction Hrun as [h | domain domains h h1 h' analysis entries s f Han Hrun IH
                       | domain domains h h1 h' e entries s f Han Hrun IH];
    intros Hin.
  - destruct Hin.
  - assert (Hne : domain <> K).
    { intros ->. destruct (HK h) as (e & w' & He). congruence. }
    destruct Hin as [-> | Hin]; [contradiction |].
    destruct (IH Hin) as [Hf Hstub]. split; [exact Hf |].
    intros [|i] Hi; cbn in Hi; [congruence | apply Hstub, Hi].
  - pose proof (batch_run_counts _ _ _ _ _ _ _ _ Hrun) as (_ & Hf & _).
    split; [lia |].
    intros [|i] Hi; cbn in Hi.
    + injection Hi as ->. cbn. eauto.
    + apply IH; [| exact Hi].
      apply list_elem_of_In. eapply list_elem_of_lookup_2. exact Hi.
Qed.

(* ===================================================================== *)
(** ** The web-archive analysis *)
(* ===================================================================== *)

Lemma year_read_run {S B} (v : pyval) (k : Z -> M S B) (s : S) :
  (year_of v = None
   /\ exists e, bind (slice_to v 4) (fun p => bind (py_int p) k) s = (Raise e, s))
  \/ (exists y, year_of v = Some y
      /\ bind (slice_to v 4) (fun p => bind (py_int p) k) s = k y s).
Proof.
  destruct v; cbn [year_of]; try (left; split; [reflexivity | eexists; reflexivity]).
  unfold slice_to, py_int, bind, ret, raise.
  destruct (parse_int (string_take 4 s0)) as [y|].
  - right. exists y. split; reflexivity.
  - left. split; [reflexivity | eexists; reflexivity].
Qed.

(** The three ways the years block can end. *)
Lemma years_covered_block_run (d : gmap string pyval) (h : world)
    (first last : pyval) :
  d !! "first_snapshot" = Some first ->
  d !! "last_snapshot" = Some last ->
  exists r d',
    years_covered_block (d, h) = (r, (d', h))
    /\ ((truthy first && truthy last = false /\ r = Ok tt /\ d' = d)
        \/ (truthy first && truthy last = true
            /\ (year_of first = None \/ year_of last = None)
            /\ (exists e, r = Raise e) /\ d' = d)
        \/ (truthy first && truthy last = true
            /\ exists y1 y2, year_of first = Some y1 /\ year_of last = Some y2
               /\ r = Ok tt
               /\ d' = <["years_covered" := PInt (y2 - y1 + 1)]> d)).
Proof.
  intros Hf Hl. unfold years_covered_block.
  unfold bind at 1. unfold get_local at 1. cbn [fst snd].
  unfold bind at 1. rewrite (getitem_Some _ _ _ _ Hf).
  unfold bind at 1.
  assert (Hboth :
    (if truthy first
     then bind (getitem (PDict d) "last_snapshot") (fun last_snapshot => ret (truthy last_snapshot))
     else ret false) (d, h) = (Ok (truthy first && truthy last), (d, h))).
  { destruct (truthy first); [| reflexivity].
    unfold bind. rewrite (getitem_Some _ _ _ _ Hl). reflexivity. }
  rewrite Hboth. destruct (truthy first && truthy last) eqn:Hb.
  - unfold bind at 1. rewrite (getitem_Some _ _ _ _ Hf).
    match goal with
    | |- context [bind (slice_to first 4) (fun p => bind (py_int p) ?k) ?s] =>
        destruct (year_read_run first k s) as [[Hy1 [e He]] | [y1 [Hy1 He]]];
        rewrite He; clear He
    end.
    + exists (Raise e), d. split; [reflexivity |]. right; left.
      split; [reflexivity |]. split; [left; exact Hy1 |]. split; [eauto | reflexivity].
    + unfold bind at 1. rewrite (getitem_Some _ _ _ _ Hl).
      match goal with
      | |- context [bind (slice_to last 4) (fun p => bind (py_int p) ?k) ?s] =>
          destruct (year_read_run last k s) as [[Hy2 [e He]] | [y2 [Hy2 He]]];
          rewrite He; clear He
      end.
      * exists (Raise e), d. split; [reflexivity |]. right; left.
        split; [reflexivity |]. split; [right; exact Hy2 |].
        split; [eauto | reflexivity].
      * exists (Ok tt), (<["years_covered" := PInt (y2 - y1 + 1)]> d).
        split; [reflexivity |]. right; right.
        split; [reflexivity |]. exists y1, y2. auto.
  - exists (Ok tt), d. split; [reflexivity |]. left. auto.
Qed.

Lemma py_len_stateless {S} (v : pyval) (s : S) : exists r, py_len v s = (r, s).
Proof. destruct v; cbn; eauto. Qed.

Lemma getitem_int_stateless {S} (v : pyval) (i : nat) (s : S) :
  exists r, getitem_int v i s = (r, s).
Proof.
  destruct v; cbn; eauto.
  - destruct (String.get i s0); cbn; eauto.
  - destruct (l !! i); cbn; eauto.
Qed.

(** A directional query either leaves the dictionary as it is, or returns
    after storing a timestamp under [key]. *)
Lemma fetch_snapshot_cases (E : env) (domain sort key : string)
    (d : gmap string pyval) (h : world) :
  exists r d' h',
    fetch_snapshot E domain sort key (d, h) = (r, (d', h'))
    /\ (d' = d \/ (r = Ok tt /\ exists ts, d' = <[key := ts]> d)).
Proof.
  unfold fetch_snapshot, http_get.
  unfold bind at 1. unfold call, external. cbn [fst snd].
  destruct (requests_get E h _) as [resp|e]; [| eauto 10].
  destruct (status_code resp =? 200); [| eexists _, _, _; split; [reflexivity | auto]].
  unfold bind at 1. unfold lift_result at 1.
  destruct (json resp) as [data|e]; [| eauto 10].
  destruct (truthy data); [| eexists _, _, _; split; [reflexivity | auto]].
  unfold bind at 1.
  match goal with
  | |- context [py_len data ?s] =>
      destruct (py_len_stateless data s) as [[n|e] ->]; [| eauto 10]
  end.
  destruct (n >? 1); [| eexists _, _, _; split; [reflexivity | auto]].
  unfold bind at 1.
  match goal with
  | |- context [getitem_int data 1 ?s] =>
      destruct (getitem_int_stateless data 1 s) as [[row|e] ->]; [| eauto 10]
  end.
  unfold bind at 1.
  match goal with
  | |- context [getitem_int row 1 ?s] =>
      destruct (getitem_int_stateless row 1 s) as [[ts|e] ->]; [| eauto 10]
  end.
  eexists _, _, _. split; [reflexivity |]. right. eauto.
Qed.

(** [check_wayback_availability] always returns a dictionary that has the
    key [available]. *)
Lemma check_wayback_availability_returns (E : env) (domain : string) (h : world) :
  exists av v h',
    check_wayback_availability E domain h = (Ok (PDict av), h')
    /\ av !! "available" = Some v.
Proof.
  assert (Hdefault : (dict [("available", PBool false)] : gmap string pyval)
                     !! "available" = Some (PBool false))
    by (rewrite dict_cons; dict_lookup; reflexivity).
  unfold check_wayback_availability, try_except, http_get, external.
  unfold bind at 1.
  destruct (requests_get E h _) as [resp|e]; [| cbn; eauto].
  destruct (status_code resp =? 200); [| cbn; eauto].
  unfold bind at 1. unfold lift_result at 1.
  destruct (json resp) as [data|e]; [| cbn; eauto].
  unfold bind at 1.
  destruct (dict_get data "available" (PBool false) _) as [[available|e] h1];
    [| cbn; eauto].
  unfold bind at 1.
  destruct (closest_field data "url" h1) as [[url|e] h2]; [| cbn; eauto].
  unfold bind at 1.
  destruct (closest_field data "timestamp" h2) as [[timestamp|e] h3]; [| cbn; eauto].
  unfold bind at 1.
  destruct (closest_field data "status" h3) as [[status|e] h4]; [| cbn; eauto].
  unfold ret. eexists _, available, _. split; [reflexivity |].
  rewrite dict_cons. dict_lookup. reflexivity.
Qed.

(** [get_snapshot_count] always returns. *)
Lemma get_snapshot_count_returns (E : env) (domain : string) (h : world) :
  exists v h', get_snapshot_count E domain h = (Ok v, h').
Proof.
  unfold get_snapshot_count, try_except, http_get, external.
  unfold bind at 1.
  destruct (requests_get E h _) as [resp|e]; [| cbn; eauto].
  destruct (status_code resp =? 200); [| cbn; eauto].
  unfold bind at 1. unfold lift_result at 1.
  destruct (json resp) as [data|e]; [| cbn; eauto].
  destruct (dict_get data "num_pages" (PInt 0) _) as [[v|e] h1]; cbn; eauto.
Qed.

Lemma years_block_leaf (d : gmap string pyval) (h : world) (first last : pyval) :
  d !! "first_snapshot" = Some first ->
  d !! "last_snapshot" = Some last ->
  d !! "years_covered" = Some (PInt 0) ->
  exists r d',
    years_covered_block (d, h) = (r, (d', h))
    /\ years_covered_spec d' (faulted r).
Proof.
  intros Hf Hl Hy.
  destruct (years_covered_block_run d h first last Hf Hl)
    as (r & d' & Hrun & [(Hb & -> & ->) | [(Hb & Hnone & [e ->] & ->)
                                          | (Hb & y1 & y2 & Hy1 & Hy2 & -> & ->)]]);
    eexists _, _; (split; [exact Hrun |]);
    (apply andb_false_iff in Hb || apply andb_true_iff in Hb).
  - exists first, last, 0. repeat (split; [assumption |]).
    split; [| split]; [| reflexivity |].
    + intros y1 y2 H1 H2. destruct Hb; congruence.
    + intros H1 H2. destruct Hb; congruence.
  - exists first, last, 0. repeat (split; [assumption |]).
    split; [| split]; [| reflexivity | auto].
    intros y1 y2 _ _ H1 H2. destruct Hnone; congruence.
  - exists first, last, (y2 - y1 + 1).
    split; [rewrite lookup_insert_ne by key_neq; exact Hf |].
    split; [rewrite lookup_insert_ne by key_neq; exact Hl |].
    split; [apply lookup_insert_eq |].
    split; [| split].
    + intros z1 z2 _ _ H1 H2. congruence.
    + intros [H|H]; destruct Hb; congruence.
    + intros _ _ [H|H]; congruence.
Qed.

Lemma years_spec_unrecovered (d : gmap string pyval) (first last : pyval) (b : bool) :
  d !! "first_snapshot" = Some first ->
  d !! "last_snapshot" = Some last ->
  d !! "years_covered" = Some (PInt 0) ->
  truthy first = false \/ truthy last = false ->
  years_covered_spec d b.
Proof.
  intros Hf Hl Hy Hfalse. exists first, last, 0.
  repeat (split; [assumption |]). split; [| split]; [| reflexivity |].
  - intros y1 y2 H1 H2. destruct Hfalse; congruence.
  - intros H1 H2. destruct Hfalse; congruence.
Qed.

Lemma analyze_webarchive_body_cases (E : env) (domain : string) (h : world) :
  exists r d' h',
    analyze_webarchive_body E domain (webarchive_default domain, h) = (r, (d', h'))
    /\ years_covered_spec d' (faulted r).
Proof.
  destruct (check_wayback_availability_returns E domain h)
    as (av & v & h1 & Hav & Hv).
  unfold analyze_webarchive_body.
  unfold bind at 1. unfold call at 1. cbn [fst snd]. rewrite Hav.
  unfold bind at 1. rewrite (getitem_Some _ _ _ _ Hv).
  unfold bind at 1. unfold set_item at 1, modify_local at 1. cbn [fst snd].
  unfold bind at 1. unfold get_local at 1. cbn [fst snd].
  unfold bind at 1.
  rewrite (getitem_Some _ "has_snapshots" v) by apply lookup_insert_eq.
  destruct (truthy v).
  - destruct (get_snapshot_count_returns E domain h1) as (total & h2 & Hcount).
    unfold bind at 1. unfold call at 1. cbn [fst snd]. rewrite Hcount.
    unfold bind at 1. unfold set_item at 1, modify_local at 1. cbn [fst snd].
    unfold bind at 1.
    match goal with
    | |- context [fetch_snapshot E domain "oldest" "first_snapshot" (?d, ?w)] =>
        destruct (fetch_snapshot_cases E domain "oldest" "first_snapshot" d w)
          as (r3 & d3 & h3 & Hrun3 & Hcase3); rewrite Hrun3
    end.
    destruct r3 as [[]|e3].
    + unfold bind at 1.
      destruct (fetch_snapshot_cases E domain "latest" "last_snapshot" d3 h3)
        as (r4 & d4 & h4 & Hrun4 & Hcase4); rewrite Hrun4.
      destruct r4 as [[]|e4].
      * destruct Hcase3 as [-> | [_ [ts1 ->]]];
          destruct Hcase4 as [-> | [_ [ts2 ->]]];
          match goal with
          | |- context [years_covered_block (?d, ?w)] =>
              edestruct (years_block_leaf d w) as (r & d' & Hrun & Hspec);
                [open_dicts; dict_lookup; reflexivity ..
                | rewrite Hrun; eexists _, _, _; split; [reflexivity | exact Hspec]]
          end.
      * eexists _, _, _. split; [reflexivity |].
        destruct Hcase4 as [-> | [Hr _]]; [| discriminate].
        destruct Hcase3 as [-> | [_ [ts1 ->]]];
          eapply years_spec_unrecovered;
          try (open_dicts; dict_lookup; reflexivity); right; reflexivity.
    + eexists _, _, _. split; [reflexivity |].
      destruct Hcase3 as [-> | [Hr _]]; [| discriminate].
      eapply years_spec_unrecovered;
        try (open_dicts; dict_lookup; reflexivity); left; reflexivity.
  - eexists _, _, _. split; [reflexivity |].
    eapply years_spec_unrecovered;
      try (open_dicts; dict_lookup; reflexivity); left; reflexivity.
Qed.

Lemma analyze_webarchive_returns (E : env) (domain : string) (h : world) :
  exists rec h',
    analyze_webarchive E domain h = (Ok (PDict rec), h')
    /\ years_covered_spec rec (bool_decide (is_Some (rec !! "error"))).
Proof.
  destruct (analyze_webarchive_body_cases E domain h)
    as (r & d' & h' & Hrun & first & last & years & Hf & Hl & Hy & H1 & H2 & H3).
  unfold analyze_webarchive, with_local, try_except, bind. rewrite Hrun.
  destruct r as [[]|e].
  - exists d', h'. split; [reflexivity |].
    exists first, last, years.
    split; [exact Hf |]. split; [exact Hl |]. split; [exact Hy |].
    split; [exact H1 |]. split; [exact H2 |].
    intros T1 T2 Hn. destruct (H3 T1 T2 Hn). discriminate.
  - exists (<["error" := PStr (str_exn e)]> d'), h'. split; [reflexivity |].
    exists first, last, years.
    split; [rewrite lookup_insert_ne by key_neq; exact Hf |].
    split; [rewrite lookup_insert_ne by key_neq; exact Hl |].
    split; [rewrite lookup_insert_ne by key_neq; exact Hy |].
    split; [exact H1 |]. split; [exact H2 |].
    intros T1 T2 Hn. destruct (H3 T1 T2 Hn) as [-> _]. split; [reflexivity |].
    apply bool_decide_eq_true. rewrite lookup_insert_eq. eauto.
Qed.

(* ===================================================================== *)
(** ** The records of the orchestrator and of the batch driver *)
(* ===================================================================== *)

Lemma analysis_record_fields (domain timestamp : string)
    (dns whois ssl : gmap string pyval) (sigs : list pyval) (is_available : pyval) :
  let rec := analysis_record domain timestamp dns whois ssl sigs is_available in
  rec !! "dns_records" = Some (PDict dns)
  /\ rec !! "whois_info" = Some (PDict whois)
  /\ rec !! "ssl_info" = Some (PDict ssl)
  /\ rec !! "signatures" = Some (PList sigs)
  /\ rec !! "is_available" = Some is_available
  /\ rec !! "quality_score" = Some (PInt (table_score (present dns whois ssl)))
  /\ rec !! "recommendations"
     = Some (render (advisories is_available dns ssl
                                (table_score (present dns whois ssl))))
  /\ rec !! "error" = None.
Proof.
  cbv zeta. unfold analysis_record. open_dicts.
  repeat split; dict_lookup; reflexivity.
Qed.

Lemma table_score_bounds (observed : evidence -> bool) :
  0 <= table_score observed <= 100.
Proof. unfold table_score. pose proof (weight_sum_bounds observed). lia. Qed.

(** C2.  [_calculate_quality_score] returns the minimum of 100 and the sum
    of the weights of the evidence items present: 20 NS, 20 A, 15 MX,
    10 TXT, 10 registrar, 10 creation date, 10 name servers, 15 TLS
    certificate.  The score lies in [0,100]; it depends on the record only
    through which of the eight items are present; no evidence scores 0 and
    all eight items score 100 (their weights sum to 110).  The
    [quality_score] of every record the class's [analyze_domain] returns is
    this score of the record's own [dns_records], [whois_info] and
    [ssl_info]: 0 when every source is unreachable, 100 when every source
    answers. *)
Theorem C2_quality_score :
  (forall (S : Type) (analysis dns whois ssl : gmap string pyval) (s : S),
     analysis !! "dns_records" = Some (PDict dns) ->
     analysis !! "whois_info" = Some (PDict whois) ->
     analysis !! "ssl_info" = Some (PDict ssl) ->
     _calculate_quality_score (PDict analysis) s
     = (Ok (PInt (Z.min (weight_sum (present dns whois ssl)) 100)), s))
  /\ (forall observed, 0 <= table_score observed <= 100)
  /\ (forall observed observed',
        (forall e, observed e = observed' e) ->
        table_score observed = table_score observed')
  /\ table_score (fun _ => false) = 0
  /\ weight_sum (fun _ => true) = 110
  /\ table_score (fun _ => true) = 100
  /\ (forall (E : env) (domain : string) (h : world),
        exists rec h' dns whois ssl,
          scanner_analyze_domain E domain h = (Ok (PDict rec), h')
          /\ rec !! "dns_records" = Some (PDict dns)
          /\ rec !! "whois_info" = Some (PDict whois)
          /\ rec !! "ssl_info" = Some (PDict ssl)
          /\ rec !! "quality_score"
             = Some (PInt (table_score (present dns whois ssl))))
  /\ returned_field (scanner_analyze_domain env_down "example.com" []) "quality_score"
     = Some (PInt 0)
  /\ returned_field (scanner_analyze_domain env_up "example.com" []) "quality_score"
     = Some (PInt 100).
Proof.
  split; [| split; [| split; [| split; [| split; [| split; [| split; [| split]]]]]]];
    [| | | | | | | vm_compute; reflexivity | vm_compute; reflexivity].
  - intros S analysis dns whois ssl s Hd Hw Hs.
    apply calculate_quality_score_run; assumption.
  - apply table_score_bounds.
  - intros f g Hfg. unfold table_score. now rewrite (weight_sum_ext f g Hfg).
  - reflexivity.
  - reflexivity.
  - reflexivity.
  - intros E domain h.
    destruct (scanner_analyze_domain_run E domain h) as (rec & h' & Hrun & Heq).
    destruct Hrun.
    match goal with
    | _ : context [analysis_record ?d ?t ?dns ?w ?s ?sg ?a] |- _ =>
        pose proof (analysis_record_fields d t dns w s sg a) as Hf;
        cbv zeta in Hf; destruct Hf as (F1 & F2 & F3 & _ & _ & F6 & _)
    end.
    eexists _, _, _, _, _. split; [exact Heq |]. auto.
Qed.

Lemma rule_lengths (is_available : pyval) (dns ssl : gmap string pyval) (score : Z) :
  (List.length (rule_availability is_available) <= 1)%nat
  /\ (List.length (rule_active_use dns) <= 1)%nat
  /\ (List.length (rule_https ssl) <= 1)%nat
  /\ (List.length (rule_presence score) <= 1)%nat.
Proof.
  unfold rule_availability, rule_active_use, rule_https, rule_presence.
  destruct (truthy is_available), (field_truthy dns "a_records"),
    (field_truthy ssl "has_ssl"), (score <? 50), (score >? 80); cbn; lia.
Qed.

(** C5.  [_generate_recommendations] returns the advisories of four rules
    in this order, each rule giving at most one: (1) available for
    registration when [is_available] is truthy, already registered
    otherwise; (2) no active use when there are no A records; (3) no HTTPS
    when there is no TLS certificate; (4) limited web presence when the
    score is below 50, strong web presence when it is above 80, nothing
    from 50 to 80.  A record with no A records, no certificate, a falsy
    [is_available] and score 0 gets exactly [already registered; no active
    use; no HTTPS; limited web presence]; the class returns these four for
    a domain whose every source is unreachable.  The [recommendations] of
    every record the class's [analyze_domain] returns are those of the
    record's own fields. *)
Theorem C5_recommendations :
  (forall (S : Type) (analysis dns ssl : gmap string pyval)
          (is_available : pyval) (score : Z) (s : S),
     analysis !! "is_available" = Some is_available ->
     analysis !! "dns_records" = Some (PDict dns) ->
     analysis !! "ssl_info" = Some (PDict ssl) ->
     analysis !! "quality_score" = Some (PInt score) ->
     _generate_recommendations (PDict analysis) s
     = (Ok (render (rule_availability is_available ++ rule_active_use dns
                    ++ rule_https ssl ++ rule_presence score)), s))
  /\ (forall is_available dns ssl score,
        (List.length (rule_availability is_available) <= 1)%nat
        /\ (List.length (rule_active_use dns) <= 1)%nat
        /\ (List.length (rule_https ssl) <= 1)%nat
        /\ (List.length (rule_presence score) <= 1)%nat)
  /\ (forall is_available,
        rule_availability is_available
        = if truthy is_available
          then [Available_for_registration] else [Already_registered])
  /\ (forall dns,
        rule_active_use dns
        = if field_truthy dns "a_records" then [] else [No_active_use])
  /\ (forall ssl,
        rule_https ssl = if field_truthy ssl "has_ssl" then [] else [No_HTTPS])
  /\ (forall score,
        (score < 50 -> rule_presence score = [Limited_web_presence])
        /\ (50 <= score <= 80 -> rule_presence score = [])
        /\ (80 < score -> rule_presence score = [Strong_web_presence]))
  /\ (forall is_available dns ssl,
        truthy is_available = false ->
        field_truthy dns "a_records" = false ->
        field_truthy ssl "has_ssl" = false ->
        advisories is_available dns ssl 0
        = [Already_registered; No_active_use; No_HTTPS; Limited_web_presence])
  /\ returned_field (scanner_analyze_domain env_down "example.com" []) "recommendations"
     = Some (PList [PStr "Domain is already registered";
                    PStr "No A records found - domain may not be actively used";
                    PStr "No SSL certificate found - HTTPS not available";
                    PStr "Low quality score - limited web presence"])
  /\ (forall (E : env) (domain : string) (h : world),
        exists rec h' dns ssl is_available score,
          scanner_analyze_domain E domain h = (Ok (PDict rec), h')
          /\ rec !! "is_available" = Some is_available
          /\ rec !! "dns_records" = Some (PDict dns)
          /\ rec !! "ssl_info" = Some (PDict ssl)
          /\ rec !! "quality_score" = Some (PInt score)
          /\ rec !! "recommendations"
             = Some (render (advisories is_available dns ssl score))).
Proof.
  split; [| split; [| split; [| split; [| split; [| split; [| split; [| split]]]]]]].
  - intros S analysis dns ssl is_available score s Ha Hd Hs Hq.
    apply generate_recommendations_run; assumption.
  - apply rule_lengths.
  - reflexivity.
  - reflexivity.
  - reflexivity.
  - intros score. unfold rule_presence. split; [| split]; intros H.
    + replace (score <? 50) with true by (symmetry; apply Z.ltb_lt; lia).
      reflexivity.
    + replace (score <? 50) with false by (symmetry; apply Z.ltb_ge; lia).
      replace (score >? 80) with false
        by (symmetry; rewrite Z.gtb_ltb; apply Z.ltb_ge; lia).
      reflexivity.
    + replace (score <? 50) with false by (symmetry; apply Z.ltb_ge; lia).
      replace (score >? 80) with true
        by (symmetry; rewrite Z.gtb_ltb; apply Z.ltb_lt; lia).
      reflexivity.
  - intros is_available dns ssl Ha Hd Hs.
    unfold advisories, rule_availability, rule_active_use, rule_https.
    rewrite Ha, Hd, Hs. reflexivity.
  - vm_compute. reflexivity.
  - intros E domain h.
    destruct (scanner_analyze_domain_run E domain h) as (rec & h' & Hrun & Heq).
    destruct Hrun.
    match goal with
    | _ : context [analysis_record ?d ?t ?dns ?w ?s ?sg ?a] |- _ =>
        pose proof (analysis_record_fields d t dns w s sg a) as Hf;
        cbv zeta in Hf; destruct Hf as (F1 & _ & F3 & _ & F5 & F6 & F7 & _)
    end.
    eexists _, _, _, _, _, _. split; [exact Heq |]. auto 10.
Qed.







Lemma fetch_fault_body_fault (self : methods) (domain : string)
    (d d' : gmap string pyval) (h h' : world) (e : exn) :
  analyze_domain_fetch self domain (d, h) = (Raise e, (d', h')) ->
  analyze_domain_body self domain (d, h) = (Raise e, (d', h')).
Proof. intros H. unfold analyze_domain_body, bind at 1. rewrite H. reflexivity. Qed.

(** C10.  Every dictionary [analyze_domain] returns has the nine keys
    [domain], [timestamp], [dns_records], [whois_info], [ssl_info],
    [signatures], [is_available], [quality_score] and [recommendations],
    which the dictionary it starts from already has.  When a fault occurs
    before the availability is copied (in one of the four calls, or in
    reading [analysis['whois_info']['is_available']]), the returned
    dictionary has [is_available] [None], [quality_score] 0,
    [recommendations] the empty list, and [error] set. *)
Theorem C10_record_fields (E : env) (self : methods) (domain : string) (h : world) :
  (forall k, In k base_keys ->
             is_Some (analysis_default domain (datetime_now E h) !! k))
  /\ (exists rec h',
        analyze_domain E self domain h = (Ok (PDict rec), h')
        /\ (forall k, In k base_keys -> is_Some (rec !! k))
        /\ rec !! "domain" = Some (PStr domain)
        /\ rec !! "timestamp" = Some (PStr (datetime_now E h)))
  /\ (forall e analysis h',
        analyze_domain_fetch self domain
          (analysis_default domain (datetime_now E h), h)
        = (Raise e, (analysis, h')) ->
        exists rec,
          analyze_domain E self domain h = (Ok (PDict rec), h')
          /\ rec !! "is_available" = Some PNone
          /\ rec !! "quality_score" = Some (PInt 0)
          /\ rec !! "recommendations" = Some (PList [])
          /\ rec !! "error" = Some (PStr (str_exn e))).
Proof.
  split; [| split].
  - intros k Hk. apply analysis_default_base, Hk.
  - apply analyze_domain_returns.
  - intros e analysis h' Hfetch.
    exists (<["error" := PStr (str_exn e)]> analysis).
    rewrite analyze_domain_outcome.
    rewrite (fetch_fault_body_fault _ _ _ _ _ _ _ Hfetch).
    split; [reflexivity |].
    pose proof (keeps_analyze_domain_fetch self domain _ _ _ _ _ Hfetch) as Hkeep.
    repeat split;
      try (rewrite lookup_insert_ne by key_neq; rewrite Hkeep by (cbn; auto 10);
           open_dicts; dict_lookup; reflexivity).
    apply lookup_insert_eq.
Qed.

Lemma signature_tags_In (ns a mx whois ssl : bool) :
  (In (PStr "DNS_NS") (signature_tags ns a mx whois ssl) <-> ns = true)
  /\ (In (PStr "DNS_A") (signature_tags ns a mx whois ssl) <-> a = true)
  /\ (In (PStr "DNS_MX") (signature_tags ns a mx whois ssl) <-> mx = true)
  /\ (In (PStr "WHOIS") (signature_tags ns a mx whois ssl) <-> whois = true)
  /\ (In (PStr "SSL") (signature_tags ns a mx whois ssl) <-> ssl = true)
  /\ (forall tag, In tag (signature_tags ns a mx whois ssl) -> In tag all_tags).
Proof.
  unfold signature_tags, all_tags.
  destruct ns, a, mx, whois, ssl; cbn [app In];
    repeat split; intros; try reflexivity; try discriminate;
    repeat match goal with
           | H : _ \/ _ |- _ => destruct H
           | H : False |- _ => destruct H
           | H : PStr _ = PStr _ |- _ => discriminate H
           end;
    subst; tauto.
Qed.

Lemma truthy_dns_answer (answer : result (list string)) :
  truthy (dns_answer_value answer)
  = match answer with Ok (_ :: _) => true | _ => false end.
Proof. destruct answer as [[|x l]|e]; reflexivity. Qed.

Lemma check_whois_info_stable (E : env) (domain : string) (max_retries : Z)
    (h1 h2 : world) :
  (forall w1 w2, whois_whois E w1 domain = whois_whois E w2 domain) ->
  fst (check_whois_info E domain max_retries h1)
  = fst (check_whois_info E domain max_retries h2).
Proof.
  intros Hstable.
  destruct (whois_whois E [] domain) as [w|e] eqn:H0.
  - destruct (Z.to_nat max_retries) as [|m] eqn:Hm.
    + rewrite !check_whois_info_exhausted by (rewrite Hm; intros; lia).
      reflexivity.
    + rewrite (check_whois_info_success E domain max_retries h1 0 w);
        [| lia | intros; lia | rewrite <- H0; apply Hstable].
      rewrite (check_whois_info_success E domain max_retries h2 0 w);
        [| lia | intros; lia | rewrite <- H0; apply Hstable].
      reflexivity.
  - rewrite !check_whois_info_exhausted
      by (intros j _; exists e; rewrite <- H0; apply Hstable).
    reflexivity.
Qed.

(** C7 fails as stated.  The resolver times out on the first query of
    [check_dns_records] and answers afterwards: the record has an empty
    [ns_records], yet DNS_NS is in its [signatures], put there by the second
    query that [check_domain_signatures] makes. *)
Lemma C7_counterexample :
  returned_field (scanner_analyze_domain env_flaky "example.com" []) "signatures"
  = Some (PList [PStr "DNS_NS"; PStr "DNS_A"; PStr "DNS_MX"])
  /\ returned_subfield (scanner_analyze_domain env_flaky "example.com" [])
                       "dns_records" "ns_records"
     = Some (PList []).
Proof. split; vm_compute; reflexivity. Qed.

(** C7, as the code has it.  In every record the class's [analyze_domain] returns,
    [signatures] holds DNS_NS, DNS_A, DNS_MX exactly when the signature
    extractor's own query for that kind returned at least one record, WHOIS
    exactly when the [is_registered] of its own call of [check_whois_info]
    is true, and SSL exactly when the presence flag of its own call of
    [check_ssl_certificate] is true, and no other tag.  These queries are
    made after those that filled [dns_records], [whois_info] and
    [ssl_info].  When the sources answer a repeated query as before, each
    tag is in [signatures] exactly when the record's own [dns_records],
    [whois_info] and [ssl_info] show the evidence. *)
Theorem C7_signatures (E : env) (domain : string) (h : world) :
  exists (rec : gmap string pyval) (h' : world) (sigs : list pyval)
         (dns whois ssl whois' : gmap string pyval) (hs hw : world),
    scanner_analyze_domain E domain h = (Ok (PDict rec), h')
    /\ rec !! "signatures" = Some (PList sigs)
    /\ rec !! "dns_records" = Some (PDict dns)
    /\ rec !! "whois_info" = Some (PDict whois)
    /\ rec !! "ssl_info" = Some (PDict ssl)
    /\ (exists trace, hs = h ++ dns_events domain ++ trace ++ [EvTls domain 5])
    /\ (In (PStr "DNS_NS") sigs <-> dns_has_records E domain "NS" hs = true)
    /\ (In (PStr "DNS_A") sigs <->
        dns_has_records E domain "A" (hs ++ [EvResolve domain "NS"]) = true)
    /\ (In (PStr "DNS_MX") sigs <->
        dns_has_records E domain "MX"
          (hs ++ [EvResolve domain "NS"; EvResolve domain "A"]) = true)
    /\ check_whois_info E domain 3 (hs ++ signature_events domain)
       = (Ok (PDict whois'), hw)
    /\ (In (PStr "WHOIS") sigs <-> whois' !! "is_registered" = Some (PBool true))
    /\ (In (PStr "SSL") sigs <-> tls_present E domain 5 hw = true)
    /\ (forall tag, In tag sigs -> In tag all_tags)
    /\ (stable E ->
        (In (PStr "DNS_NS") sigs <-> field_truthy dns "ns_records" = true)
        /\ (In (PStr "DNS_A") sigs <-> field_truthy dns "a_records" = true)
        /\ (In (PStr "DNS_MX") sigs <-> field_truthy dns "mx_records" = true)
        /\ (In (PStr "WHOIS") sigs <-> whois !! "is_registered" = Some (PBool true))
        /\ (In (PStr "SSL") sigs <-> ssl !! "has_ssl" = Some (PBool true))).
Proof.
  destruct (scanner_analyze_domain_run E domain h) as (rec & h' & Hrun & Heq).
  destruct Hrun as [whois ssl whois' trace trace' a r a' r' h1 h2 h3 h4
                     Hh1 Hwhois Hflags Hx Hh2 Hssl Hhas Hh3 Hwhois' Hflags' Hh4].
  match goal with
  | _ : context [analysis_record ?d ?t ?dns ?w ?s ?sg ?av] |- _ =>
      pose proof (analysis_record_fields d t dns w s sg av) as Hf;
      cbv zeta in Hf; destruct Hf as (F1 & F2 & F3 & F4 & _)
  end.
  match type of F4 with
  | _ = Some (PList (signature_tags ?ns ?a ?mx ?w ?s)) =>
      pose proof (signature_tags_In ns a mx w s)
        as (Tns & Ta & Tmx & Tw & Ts & Tall)
  end.
  eexists _, _, _, (dns_info_of E domain h), whois, ssl, whois',
    (h2 ++ [EvTls domain 5]), h4.
  split; [exact Heq |]. split; [exact F4 |]. split; [exact F1 |].
  split; [exact F2 |]. split; [exact F3 |].
  split; [exists trace; subst h2 h1; rewrite <- !app_assoc; reflexivity |].
  split; [exact Tns |]. split; [exact Ta |]. split; [exact Tmx |].
  split; [subst h4 h3; exact Hwhois' |].
  split.
  { rewrite Tw. destruct Hflags' as [_ ->]. split; [intros ->; reflexivity |].
    intros H. injection H as ->. reflexivity. }
  split; [exact Ts |]. split; [exact Tall |].
  intros (Sdns & Swhois & Stls).
  assert (Hsame : PDict whois = PDict whois').
  { pose proof (check_whois_info_stable E domain 3 h1 h3
                  (fun w1 w2 => Swhois w1 w2 domain)) as Hs.
    rewrite Hwhois, Hwhois' in Hs. cbn [fst] in Hs. congruence. }
  injection Hsame as <-.
  unfold field_truthy, dns_info_of. dict_lookup. rewrite !truthy_dns_answer.
  unfold dns_has_records in Tns, Ta, Tmx.
  split; [rewrite Tns, (Sdns _ h); reflexivity |].
  split; [rewrite Ta, (Sdns _ (h ++ take 1 (dns_events domain))); reflexivity |].
  split; [rewrite Tmx, (Sdns _ (h ++ take 2 (dns_events domain))); reflexivity |].
  split.
  - rewrite Tw. destruct Hflags' as [_ ->]. split; [intros ->; reflexivity |].
    intros H. injection H as ->. reflexivity.
  - rewrite Ts, Hhas. unfold tls_present. rewrite (Stls h4 h2).
    split; [intros ->; reflexivity |]. intros H. injection H as ->. reflexivity.
Qed.

Lemma batch_dict_fields (t p s f : Z) (es : list pyval) :
  batch_dict t p s f es !! "total_domains" = Some (PInt t)
  /\ batch_dict t p s f es !! "processed" = Some (PInt p)
  /\ batch_dict t p s f es !! "successful" = Some (PInt s)
  /\ batch_dict t p s f es !! "failed" = Some (PInt f)
  /\ batch_dict t p s f es !! "domains" = Some (PList es).
Proof. unfold batch_dict. repeat split; dict_lookup; reflexivity. Qed.

Lemma failure_stub_fields (domain : string) (e : exn) (timestamp : string) :
  exists stub,
    failure_stub domain e timestamp = PDict stub
    /\ stub !! "domain" = Some (PStr domain)
    /\ stub !! "error" = Some (PStr (str_exn e))
    /\ stub !! "timestamp" = Some (PStr timestamp)
    /\ size stub = 3%nat.
Proof.
  eexists. split; [reflexivity |]. rewrite !dict_cons, dict_nil.
  split; [dict_lookup; reflexivity |].
  split; [dict_lookup; reflexivity |].
  split; [dict_lookup; reflexivity |].
  rewrite !map_size_insert_None, map_size_empty by (dict_lookup; reflexivity).
  reflexivity.
Qed.

(** C4 fails as stated.  [check_dns_records] raises for [k.example], so
    analyzing it faults; [analyze_domain] catches the fault, and the batch
    of three ends with [failed] = 0 and a full record (with [error] and
    [quality_score]) as the entry of [k.example].  With the class as
    written and every source unreachable, [failed] is 0 as well. *)
Lemma C4_counterexample :
  (forall w, self_check_dns_records faulty_scanner "k.example" w
             = (Raise (Exception "RuntimeError" "resolver exploded"), w))
  /\ returned_field
       (batch_analyze_domains env_down (analyze_domain env_down faulty_scanner)
          ["a.example"; "k.example"; "b.example"] []) "total_domains"
     = Some (PInt 3)
  /\ returned_field
       (batch_analyze_domains env_down (analyze_domain env_down faulty_scanner)
          ["a.example"; "k.example"; "b.example"] []) "failed"
     = Some (PInt 0)
  /\ entry_field
       (batch_analyze_domains env_down (analyze_domain env_down faulty_scanner)
          ["a.example"; "k.example"; "b.example"] []) 1 "error"
     = Some (PStr "resolver exploded")
  /\ entry_field
       (batch_analyze_domains env_down (analyze_domain env_down faulty_scanner)
          ["a.example"; "k.example"; "b.example"] []) 1 "quality_score"
     = Some (PInt 0)
  /\ returned_field (scanner_batch_analyze_domains env_down ["k.example"] []) "failed"
     = Some (PInt 0).
Proof.
  split; [intros w; reflexivity |].
  repeat split; vm_compute; reflexivity.
Qed.

Lemma batch_run_failed_raised (E : env) (an : string -> M world pyval)
    (domains : list string) (h h' : world) (entries : list pyval)
    (successful failed : Z) :
  batch_run E an domains h entries successful failed h' ->
  1 <= failed ->
  exists d w e w', In d domains /\ an d w = (Raise e, w').
Proof.
  induction 1 as [h | domain domains h h1 h' analysis entries s f Han Hrun IH
                    | domain domains h h1 h' e entries s f Han Hrun IH];
    intros Hf.
  - lia.
  - destruct (IH Hf) as (d & w & e & w' & Hin & Hd).
    exists d, w, e, w'. split; [right; exact Hin | exact Hd].
  - exists domain, h, e, h1. split; [left; reflexivity | exact Han].
Qed.

(** C4, as the code has it.  For every batch of N domains, whatever
    [self.analyze_domain] does, [batch_analyze_domains] returns a result
    with [total_domains] = N, [processed] = N and
    [processed] = [successful] + [failed], and one entry per domain, in
    input order.  The counters count the calls of [analyze_domain] as
    [batch_run] lays down: a call that returns adds 1 to [successful] and
    its entry is the record returned; a call that raises to the batch driver
    adds 1 to [failed] and its entry is the stub with exactly [domain],
    [error] and [timestamp].  So [failed] is at least 1 only when some call
    raised, a domain whose call raises is counted in [failed], and when no
    call raises [failed] is 0 and [successful] is N.  That is the case of
    [analyze_domain] itself, whatever the methods it calls do: a fault in
    its [try] block is caught there, the entry of the domain is the record
    it returned, with the nine base keys and with [error] set when the [try]
    block raised, it is counted in [successful], and [failed] stays 0. *)
Theorem C4_batch_isolation (E : env) (an : string -> M world pyval)
    (domains : list string) (h : world) :
  exists (results : gmap string pyval) (h' : world) (entries : list pyval)
         (successful failed : Z),
    batch_analyze_domains E an domains h = (Ok (PDict results), h')
    /\ results !! "total_domains" = Some (PInt (Z.of_nat (List.length domains)))
    /\ results !! "processed" = Some (PInt (Z.of_nat (List.length domains)))
    /\ results !! "successful" = Some (PInt successful)
    /\ results !! "failed" = Some (PInt failed)
    /\ results !! "domains" = Some (PList entries)
    /\ 0 <= successful /\ 0 <= failed
    /\ Z.of_nat (List.length domains) = successful + failed
    /\ Forall2 (entry_for E an) domains entries
    /\ (forall K, In K domains ->
          (forall w, exists e w', an K w = (Raise e, w')) ->
          1 <= failed
          /\ forall i, domains !! i = Some K ->
               exists e w' stub,
                 entries !! i = Some (PDict stub)
                 /\ stub !! "domain" = Some (PStr K)
                 /\ stub !! "error" = Some (PStr (str_exn e))
                 /\ stub !! "timestamp" = Some (PStr (datetime_now E w'))
                 /\ size stub = 3%nat)
    /\ (forall i d, domains !! i = Some d ->
          (forall w, exists a w', an d w = (Ok a, w')) ->
          exists a w w', an d w = (Ok a, w') /\ entries !! i = Some a)
    /\ batch_run E an domains h entries successful failed h'
    /\ (1 <= failed ->
        exists d w e w', In d domains /\ an d w = (Raise e, w'))
    /\ ((forall d w, In d domains -> exists a w', an d w = (Ok a, w')) ->
        failed = 0 /\ successful = Z.of_nat (List.length domains))
    /\ (forall self : methods,
          exists (results0 : gmap string pyval) (h0 : world)
                 (entries0 : list pyval),
            batch_analyze_domains E (analyze_domain E self) domains h
            = (Ok (PDict results0), h0)
            /\ results0 !! "failed" = Some (PInt 0)
            /\ results0 !! "successful"
               = Some (PInt (Z.of_nat (List.length domains)))
            /\ results0 !! "domains" = Some (PList entries0)
            /\ forall i d,
                 domains !! i = Some d ->
                 exists rec w w',
                   analyze_domain E self d w = (Ok (PDict rec), w')
                   /\ entries0 !! i = Some (PDict rec)
                   /\ (forall k, In k base_keys -> is_Some (rec !! k))
                   /\ (forall e analysis w1,
                         analyze_domain_body self d
                           (analysis_default d (datetime_now E w), w)
                         = (Raise e, (analysis, w1)) ->
                         rec !! "error" = Some (PStr (str_exn e)))).
Proof.
  destruct (batch_analyze_domains_run E an domains h)
    as (entries & successful & failed & h' & Hrun & Heq).
  pose proof (batch_run_counts _ _ _ _ _ _ _ _ Hrun) as (Hs & Hf & Hsum & Hlen).
  pose proof (batch_run_entries _ _ _ _ _ _ _ _ Hrun) as Hentries.
  pose proof (batch_dict_fields (Z.of_nat (List.length domains))
                (successful + failed) successful failed entries)
    as (F1 & F2 & F3 & F4 & F5).
  eexists _, h', entries, successful, failed.
  split; [exact Heq |]. split; [exact F1 |].
  split; [rewrite F2, Hsum; reflexivity |].
  split; [exact F3 |]. split; [exact F4 |]. split; [exact F5 |].
  split; [exact Hs |]. split; [exact Hf |]. split; [lia |].
  split; [exact Hentries |]. split; [| split; [| split; [| split; [| split]]]].
  - intros K HK Hraise.
    destruct (batch_run_raise _ _ _ _ _ _ _ _ K Hrun Hraise HK) as [H1 Hstub].
    split; [exact H1 |]. intros i Hi.
    destruct (Hstub i Hi) as (e & w' & He).
    destruct (failure_stub_fields K e (datetime_now E w'))
      as (stub & Hstub_eq & S1 & S2 & S3 & S4).
    exists e, w', stub. rewrite He, Hstub_eq. auto.
  - intros i d Hi Hok.
    destruct (Forall2_lookup_l _ _ _ _ _ Hentries Hi) as (entry & He & Hfor).
    destruct Hfor as [(w & w' & Hw) | (w & w' & e & Hw & _)].
    + exists entry, w, w'. auto.
    + destruct (Hok w) as (a & w'' & Ha). congruence.
  - exact Hrun.
  - intros Hpos. eapply batch_run_failed_raised; eassumption.
  - intros Hok.
    destruct (batch_run_no_raise _ _ _ _ _ _ _ _ Hrun Hok) as [-> _].
    split; [reflexivity | lia].
  - intros self.
    destruct (batch_analyze_domains_run E (analyze_domain E self) domains h)
      as (entries0 & successful0 & failed0 & h0 & Hrun0 & Heq0).
    pose proof (batch_run_counts _ _ _ _ _ _ _ _ Hrun0) as (_ & _ & Hsum0 & _).
    destruct (batch_run_no_raise _ _ _ _ _ _ _ _ Hrun0) as [-> Hall].
    { intros d w _.
      destruct (analyze_domain_returns E self d w) as (rec & w' & Hret & _).
      eauto. }
    pose proof (batch_dict_fields (Z.of_nat (List.length domains))
                  (successful0 + 0) successful0 0 entries0)
      as (_ & _ & G3 & G4 & G5).
    eexists _, h0, entries0. split; [exact Heq0 |].
    split; [exact G4 |].
    split; [rewrite G3; do 2 f_equal; lia |].
    split; [exact G5 |].
    intros i d Hi.
    destruct (Forall2_lookup_l _ _ _ _ _ Hall Hi) as (entry & He & w & w' & Hw).
    destruct (analyze_domain_returns E self d w)
      as (rec & w'' & Hret & Hkeys & _).
    rewrite Hret in Hw. injection Hw as <- <-.
    exists rec, w, w''. split; [exact Hret |]. split; [exact He |].
    split; [exact Hkeys |].
    intros e analysis w1 Hbody.
    rewrite analyze_domain_outcome, Hbody in Hret. injection Hret as <- _.
    apply lookup_insert_eq.
Qed.

(** C9.  In [batch_analyze_domains] run on [analyze_domain] itself,
    whatever the methods of [self] do, no domain is counted as failed:
    [failed] is 0 and [successful] is the number of domains, and each
    entry is the record [analyze_domain] returned for the domain, the
    records whose [error] is set included; a fault of the [try] block of
    [analyze_domain] makes it return the record with [error] set.  For any
    implementation of [self.analyze_domain], [failed] is at least 1 only
    when some call of it raised. *)
Theorem C9_internal_faults_successful (E : env) (self : methods)
    (domains : list string) (h : world) :
  (exists (results : gmap string pyval) (h' : world) (entries : list pyval),
     batch_analyze_domains E (analyze_domain E self) domains h
     = (Ok (PDict results), h')
     /\ results !! "failed" = Some (PInt 0)
     /\ results !! "successful" = Some (PInt (Z.of_nat (List.length domains)))
     /\ results !! "processed" = Some (PInt (Z.of_nat (List.length domains)))
     /\ results !! "domains" = Some (PList entries)
     /\ Forall2 (fun d entry =>
                   exists w w', analyze_domain E self d w = (Ok entry, w'))
                domains entries)
  /\ (forall d w e analysis w',
        analyze_domain_body self d (analysis_default d (datetime_now E w), w)
        = (Raise e, (analysis, w')) ->
        exists rec,
          analyze_domain E self d w = (Ok (PDict rec), w')
          /\ rec !! "error" = Some (PStr (str_exn e)))
  /\ (forall (an : string -> M world pyval) results h' failed,
        batch_analyze_domains E an domains h = (Ok (PDict results), h') ->
        results !! "failed" = Some (PInt failed) ->
        1 <= failed ->
        exists d w e w', In d domains /\ an d w = (Raise e, w')).
Proof.
  split; [| split].
  - destruct (batch_analyze_domains_run E (analyze_domain E self) domains h)
      as (entries & successful & failed & h' & Hrun & Heq).
    pose proof (batch_run_counts _ _ _ _ _ _ _ _ Hrun) as (Hs & Hf & Hsum & Hlen).
    destruct (batch_run_no_raise _ _ _ _ _ _ _ _ Hrun) as [-> Hall].
    { intros d w _.
      destruct (analyze_domain_returns E self d w) as (rec & w' & Hret & _).
      eauto. }
    pose proof (batch_dict_fields (Z.of_nat (List.length domains))
                  (successful + 0) successful 0 entries)
      as (F1 & F2 & F3 & F4 & F5).
    eexists _, h', entries. split; [exact Heq |].
    split; [exact F4 |].
    split; [rewrite F3; do 2 f_equal; lia |].
    split; [rewrite F2; do 2 f_equal; lia |].
    split; [exact F5 | exact Hall].
  - intros d w e analysis w' Hbody.
    exists (<["error" := PStr (str_exn e)]> analysis).
    rewrite analyze_domain_outcome, Hbody.
    split; [reflexivity | apply lookup_insert_eq].
  - intros an results h' failed Heq Hfailed Hpos.
    destruct (batch_analyze_domains_run E an domains h)
      as (entries & successful & failed' & h'' & Hrun & Heq').
    rewrite Heq in Heq'. injection Heq' as -> _.
    pose proof (batch_dict_fields (Z.of_nat (List.length domains))
                  (successful + failed') successful failed' entries)
      as (_ & _ & _ & F4 & _).
    rewrite F4 in Hfailed. injection Hfailed as ->.
    eapply batch_run_failed_raised; eassumption.
Qed.

(** C8.  In the record [analyze_webarchive] returns, writing [first] and
    [last] for its [first_snapshot] and [last_snapshot]: when both were
    recovered (are truthy) and [firstYear], [lastYear] are the integer
    values of their first four characters, [years_covered] is
    [lastYear - firstYear + 1]; when one of them was not recovered,
    [years_covered] is 0.  (When both were recovered and one has no such
    integer value, [years_covered] stays 0 and [error] is set.)  The first
    snapshot "20080315120000" and the last snapshot "20231120000000" give
    [years_covered] = 16. *)
Theorem C8_years_covered :
  (forall (E : env) (domain : string) (h : world),
     exists rec h' first last years,
       analyze_webarchive E domain h = (Ok (PDict rec), h')
       /\ rec !! "first_snapshot" = Some first
       /\ rec !! "last_snapshot" = Some last
       /\ rec !! "years_covered" = Some (PInt years)
       /\ (forall firstYear lastYear,
             truthy first = true -> truthy last = true ->
             year_of first = Some firstYear -> year_of last = Some lastYear ->
             years = lastYear - firstYear + 1)
       /\ (truthy first = false \/ truthy last = false -> years = 0)
       /\ (truthy first = true -> truthy last = true ->
           year_of first = None \/ year_of last = None ->
           years = 0 /\ is_Some (rec !! "error")))
  /\ year_of (PStr "20080315120000") = Some 2008
  /\ year_of (PStr "20231120000000") = Some 2023
  /\ returned_field (analyze_webarchive env_archive "example.com" []) "first_snapshot"
     = Some (PStr "20080315120000")
  /\ returned_field (analyze_webarchive env_archive "example.com" []) "last_snapshot"
     = Some (PStr "20231120000000")
  /\ returned_field (analyze_webarchive env_archive "example.com" []) "years_covered"
     = Some (PInt 16).
Proof.
  split; [| repeat split; vm_compute; reflexivity].
  intros E domain h.
  destruct (analyze_webarchive_returns E domain h)
    as (rec & h' & Hrun & first & last & years & Hf & Hl & Hy & H1 & H2 & H3).
  exists rec, h', first, last, years.
  split; [exact Hrun |]. split; [exact Hf |]. split; [exact Hl |].
  split; [exact Hy |]. split; [exact H1 |]. split; [exact H2 |].
  intros T1 T2 Hn. destruct (H3 T1 T2 Hn) as [-> Herr].
  split; [reflexivity |]. apply bool_decide_eq_true in Herr. exact Herr.
Qed.

(* ===================================================================== *)
(** ** The theorems at concrete inputs *)
(* ===================================================================== *)

(** C1 on a text in which a registration field and an availability phrase
    both occur. *)
Lemma C1_witness :
  occurs "creation date:" conflicting_whois
  /\ occurs "status: available" conflicting_whois
  /\ snd (classify_whois conflicting_whois) = true
  /\ fst (classify_whois conflicting_whois) = false.
Proof.
  assert (Hc : occurs "creation date:" conflicting_whois)
    by (exists "", " 2001-01-01; status: available"; reflexivity).
  assert (Hs : occurs "status: available" conflicting_whois)
    by (exists "creation date: 2001-01-01; ", ""; reflexivity).
  split; [exact Hc |]. split; [exact Hs |].
  destruct (proj1 C1_classifier conflicting_whois) as (_ & _ & _ & H).
  exact (H Hc Hs).
Defined.

(** C6 with every source unreachable: three queries, two sleeps of 2, the
    default dictionary. *)
Lemma C6_witness :
  check_whois_info env_down "example.com" 3 []
  = (Ok (PDict whois_info_default),
     [EvWhois "example.com"; EvSleep 2; EvWhois "example.com"; EvSleep 2;
      EvWhois "example.com"])
  /\ whois_flags whois_info_default false false.
Proof.
  apply (proj1 (proj2 (proj2 (C6_whois_retry env_down "example.com" 3 [])))).
  intros j Hj. exists unreachable. reflexivity.
Defined.

(** C2 on [full_analysis]: all eight items, score 100. *)
Lemma C2_witness :
  _calculate_quality_score (PDict full_analysis) tt = (Ok (PInt 100), tt).
Proof.
  exact (proj1 C2_quality_score unit full_analysis full_dns full_whois full_ssl tt
           eq_refl eq_refl eq_refl).
Defined.

(** C5 on [full_analysis]: registered, A records, certificate, score 100. *)
Lemma C5_witness :
  _generate_recommendations (PDict full_analysis) tt
  = (Ok (PList [PStr "Domain is already registered";
                PStr "High quality score - strong web presence"]), tt).
Proof.
  exact (proj1 C5_recommendations unit full_analysis full_dns full_ssl
           (PBool false) 100 tt eq_refl eq_refl eq_refl eq_refl).
Defined.


(** C10 on a scanner whose [check_dns_records] raises. *)
Lemma C10_witness :
  exists rec,
    analyze_domain env_down faulty_scanner "k.example" [] = (Ok (PDict rec), [])
    /\ rec !! "is_available" = Some PNone
    /\ rec !! "quality_score" = Some (PInt 0)
    /\ rec !! "recommendations" = Some (PList [])
    /\ rec !! "error" = Some (PStr "resolver exploded").
Proof.
  apply (proj2 (proj2 (C10_record_fields env_down faulty_scanner "k.example" []))
           (Exception "RuntimeError" "resolver exploded")
           (analysis_default "k.example" "2024-01-01T00:00:00") []).
  reflexivity.
Defined.

(** C4 on a batch of three in which the call for [k.example] raises to
    the batch driver. *)
Lemma C4_witness :
  exists (results : gmap string pyval) (h' : world) (failed : Z)
         (stub : gmap string pyval),
    batch_analyze_domains env_down raising_analyze_domain
      ["a.example"; "k.example"; "b.example"] []
    = (Ok (PDict results), h')
    /\ results !! "total_domains" = Some (PInt 3)
    /\ results !! "processed" = Some (PInt 3)
    /\ results !! "failed" = Some (PInt failed)
    /\ 1 <= failed
    /\ entry_field
         (batch_analyze_domains env_down raising_analyze_domain
            ["a.example"; "k.example"; "b.example"] []) 1 "domain"
       = stub !! "domain"
    /\ stub !! "domain" = Some (PStr "k.example")
    /\ size stub = 3%nat.
Proof.
  destruct (C4_batch_isolation env_down raising_analyze_domain
              ["a.example"; "k.example"; "b.example"] [])
    as (results & h' & entries & successful & failed & Hrun & Ht & Hp & _ & Hf
        & Hd & _ & _ & _ & _ & HK & _).
  destruct (HK "k.example") as [Hpos Hstub].
  { cbn. auto. }
  { intros w. eexists _, _. reflexivity. }
  destruct (Hstub 1%nat eq_refl) as (e & w' & stub & He & Hdom & _ & _ & Hsize).
  exists results, h', failed, stub.
  split; [exact Hrun |]. split; [exact Ht |]. split; [exact Hp |].
  split; [exact Hf |]. split; [exact Hpos |].
  split; [| split; [exact Hdom | exact Hsize]].
  unfold entry_field, returned_field. rewrite Hrun, Hd, He. reflexivity.
Defined.

Lemma stable_env_up : stable env_up.
Proof. repeat split. Qed.

(** C7 with sources that answer every time alike. *)
Lemma C7_witness :
  stable env_up
  /\ exists rec h' sigs dns whois ssl,
       scanner_analyze_domain env_up "example.com" [] = (Ok (PDict rec), h')
       /\ rec !! "signatures" = Some (PList sigs)
       /\ rec !! "dns_records" = Some (PDict dns)
       /\ rec !! "whois_info" = Some (PDict whois)
       /\ rec !! "ssl_info" = Some (PDict ssl)
       /\ (In (PStr "DNS_NS") sigs <-> field_truthy dns "ns_records" = true)
       /\ (In (PStr "WHOIS") sigs <-> whois !! "is_registered" = Some (PBool true))
       /\ (In (PStr "SSL") sigs <-> ssl !! "has_ssl" = Some (PBool true)).
Proof.
  split; [exact stable_env_up |].
  destruct (C7_signatures env_up "example.com" [])
    as (rec & h' & sigs & dns & whois & ssl & whois' & hs & hw & Hrun & Hs & Hd
        & Hw & Hl & _ & _ & _ & _ & _ & _ & _ & _ & Hstable).
  destruct (Hstable stable_env_up) as (Hns & _ & _ & Hwhois & Hssl).
  exists rec, h', sigs, dns, whois, ssl. auto 10.
Defined.

(** C8 on an archive holding snapshots from 2008 to 2023. *)
Lemma C8_witness :
  exists rec h' years,
    analyze_webarchive env_archive "example.com" [] = (Ok (PDict rec), h')
    /\ rec !! "years_covered" = Some (PInt years)
    /\ years = 2023 - 2008 + 1.
Proof.
  destruct (proj1 C8_years_covered env_archive "example.com" [])
    as (rec & h' & first & last & years & Hrun & Hf & Hl & Hy & Hyears & _).
  exists rec, h', years. split; [exact Hrun |]. split; [exact Hy |].
  assert (Hfirst : returned_field (analyze_webarchive env_archive "example.com" [])
                     "first_snapshot" = Some (PStr "20080315120000"))
    by (vm_compute; reflexivity).
  assert (Hlast : returned_field (analyze_webarchive env_archive "example.com" [])
                    "last_snapshot" = Some (PStr "20231120000000"))
    by (vm_compute; reflexivity).
  rewrite Hrun in Hfirst, Hlast. cbn [returned_field] in Hfirst, Hlast.
  rewrite Hf in Hfirst. rewrite Hl in Hlast.
  injection Hfirst as ->. injection Hlast as ->.
  apply Hyears; reflexivity.
Defined.

(** C9 on a scanner whose [check_dns_records] raises for [k.example]. *)
Lemma C9_witness :
  exists results h' entries,
    batch_analyze_domains env_down (analyze_domain env_down faulty_scanner)
      ["a.example"; "k.example"; "b.example"] []
    = (Ok (PDict results), h')
    /\ results !! "failed" = Some (PInt 0)
    /\ results !! "successful" = Some (PInt 3)
    /\ results !! "domains" = Some (PList entries)
    /\ entry_field
         (batch_analyze_domains env_down (analyze_domain env_down faulty_scanner)
            ["a.example"; "k.example"; "b.example"] []) 1 "error"
       = Some (PStr "resolver exploded").
Proof.
  destruct (proj1 (C9_internal_faults_successful env_down faulty_scanner
                     ["a.example"; "k.example"; "b.example"] []))
    as (results & h' & entries & Hrun & Hf & Hs & _ & Hd & _).
  exists results, h', entries.
  split; [exact Hrun |]. split; [exact Hf |]. split; [exact Hs |].
  split; [exact Hd |]. vm_compute. reflexivity.
Defined.

(* ===================================================================== *)
(** ** More about the classifier *)
(* ===================================================================== *)

Lemma append_assoc (a b c : string) : (a +:+ b) +:+ c = a +:+ (b +:+ c).
Proof.
  induction a as [|x a IH]; [reflexivity |].
  rewrite !append_cons, IH. reflexivity.
Qed.

Lemma occurs_trans (a b c : string) : occurs a b -> occurs b c -> occurs a c.
Proof.
  intros (b1 & b2 & ->) (c1 & c2 & ->).
  exists (c1 +:+ b1), (b2 +:+ c2).
  rewrite !append_assoc. reflexivity.
Qed.

Lemma registered_not_available (raw : string) :
  snd (classify_whois raw) = true -> classify_whois raw = (false, true).
Proof.
  intros Hr. pose proof (classify_exclusive raw) as Hx. rewrite Hr in Hx.
  destruct (classify_whois raw) as [a r]. cbn [fst snd] in *. subst r.
  destruct a; [discriminate | reflexivity].
Qed.

Lemma shadowed_indicators_list :
  shadowed_indicators
  = ["domain status: no object found"; "unregistered domain";
     "domain status: available"].
Proof. vm_compute. reflexivity. Qed.

Lemma shadowed_indicator_cases (phrase : string) :
  In phrase shadowed_indicators ->
  In phrase available_indicators
  /\ exists u, In u unavailable_indicators /\ occurs u phrase.
Proof.
  rewrite shadowed_indicators_list.
  intros [<- | [<- | [<- | []]]];
    (split; [unfold available_indicators; cbn [In]; tauto |]).
  - exists "domain status:". split.
    + unfold unavailable_indicators. cbn [In]. tauto.
    + exists "", " no object found". reflexivity.
  - exists "registered domain". split.
    + unfold unavailable_indicators. cbn [In]. tauto.
    + exists "un", "". reflexivity.
  - exists "domain status:". split.
    + unfold unavailable_indicators. cbn [In]. tauto.
    + exists "", " available". reflexivity.
Qed.

(** X1.  Three availability indicators contain a registration indicator
    ("domain status: no object found" and "domain status: available"
    contain "domain status:", "unregistered domain" contains "registered
    domain"): a WHOIS text in which one of them occurs, in any letter case,
    is classified registered and not available. *)
Theorem X1_shadowed_availability_phrases (raw phrase : string) :
  In phrase shadowed_indicators ->
  occurs phrase (lower raw) ->
  classify_whois raw = (false, true)
  /\ In phrase available_indicators
  /\ shadowed_indicators
     = ["domain status: no object found"; "unregistered domain";
        "domain status: available"].
Proof.
  intros Hin Hocc.
  destruct (shadowed_indicator_cases phrase Hin) as (Hav & u & Hu & Hsub).
  split; [| split; [exact Hav | exact shadowed_indicators_list]].
  apply registered_not_available.
  unfold classify_whois. cbn [snd].
  apply (proj2 (any_in_spec unavailable_indicators (lower raw))).
  exists u. split; [exact Hu |].
  exact (occurs_trans _ _ _ Hsub Hocc).
Qed.

(** X1 on the reply "Domain Status: Available". *)
Lemma X1_witness :
  classify_whois "Domain Status: Available" = (false, true)
  /\ In "domain status: available" available_indicators
  /\ shadowed_indicators
     = ["domain status: no object found"; "unregistered domain";
        "domain status: available"].
Proof.
  apply (X1_shadowed_availability_phrases "Domain Status: Available"
           "domain status: available").
  - rewrite shadowed_indicators_list. cbn [In]. tauto.
  - exists "", "". reflexivity.
Defined.

(** X2.  A text classified registered stays registered, and not
    available, whatever text is put before and after it. *)
Theorem X2_registered_text_embedded (raw before after : string) :
  snd (classify_whois raw) = true ->
  classify_whois (before +:+ raw +:+ after) = (false, true).
Proof.
  intros Hr. apply registered_not_available.
  unfold classify_whois in *. cbn [snd] in *.
  pose proof (proj1 (any_in_spec _ _) Hr) as (u & Hu & Hocc).
  apply (proj2 (any_in_spec unavailable_indicators _)).
  exists u. split; [exact Hu |].
  rewrite !lower_app. apply (occurs_trans _ _ _ Hocc).
  exists (lower before), (lower after). reflexivity.
Qed.

(** X2 on a registered record wrapped in "no match" boilerplate. *)
Lemma X2_witness :
  classify_whois ("No match for the query. " +:+ conflicting_whois
                  +:+ " -- domain available")
  = (false, true).
Proof.
  apply (X2_registered_text_embedded conflicting_whois).
  vm_compute. reflexivity.
Defined.

(* ===================================================================== *)
(** ** More about the quality score *)
(* ===================================================================== *)

Lemma weight_sum_terms (f : evidence -> bool) :
  weight_sum f
  = (if f NS_records then 20 else 0) + (if f A_records then 20 else 0)
    + (if f MX_records then 15 else 0) + (if f TXT_records then 10 else 0)
    + (if f Registrar then 10 else 0) + (if f Creation_date then 10 else 0)
    + (if f Name_servers then 10 else 0) + (if f TLS_certificate then 15 else 0).
Proof.
  unfold weight_sum, all_evidence. cbn [List.filter].
  destruct (f NS_records), (f A_records), (f MX_records), (f TXT_records),
    (f Registrar), (f Creation_date), (f Name_servers), (f TLS_certificate);
    reflexivity.
Qed.





Lemma score_bools (b1 b2 b3 b4 b5 b6 b7 b8 : bool) :
  let s := (if b1 then 20 else 0) + (if b2 then 20 else 0)
           + (if b3 then 15 else 0) + (if b4 then 10 else 0)
           + (if b5 then 10 else 0) + (if b6 then 10 else 0)
           + (if b7 then 10 else 0) + (if b8 then 15 else 0) in
  let all := b1 && b2 && b3 && b4 && b5 && b6 && b7 && b8 in
  (100 <? s) = all
  /\ ((Z.min s 100 =? s) || all) = true
  /\ implb (Z.min s 100 =? 100) (b1 && b2 && b3 && b8) = true
  /\ (Z.min s 100 mod 5 =? 0) = true.
Proof.
  destruct b1, b2, b3, b4, b5, b6, b7, b8; vm_compute; auto.
Qed.

Lemma table_score_cap (observed : evidence -> bool) :
  (100 < weight_sum observed <-> forall e, observed e = true)
  /\ (table_score observed = weight_sum observed \/ forall e, observed e = true)
  /\ (table_score observed = 100 ->
      observed NS_records = true /\ observed A_records = true
      /\ observed MX_records = true /\ observed TLS_certificate = true)
  /\ exists k, table_score observed = 5 * k.
Proof.
  unfold table_score. rewrite weight_sum_terms.
  pose proof (score_bools (observed NS_records) (observed A_records)
                (observed MX_records) (observed TXT_records)
                (observed Registrar) (observed Creation_date)
                (observed Name_servers) (observed TLS_certificate))
    as (Hlt & Hcap & Hfull & Hfive).
  cbv zeta in Hlt, Hcap, Hfull, Hfive.
  set (total := _ + _ + _ + _ + _ + _ + _ + _) in *.
  assert (Hall : observed NS_records && observed A_records && observed MX_records
                 && observed TXT_records && observed Registrar
                 && observed Creation_date && observed Name_servers
                 && observed TLS_certificate = true
                 <-> forall e, observed e = true).
  { rewrite !andb_true_iff. split.
    - intros H e. destruct e; tauto.
    - intros H. repeat split; apply H. }
  split; [| split; [| split]].
  - rewrite <- Hall, <- Hlt. symmetry. apply Z.ltb_lt.
  - apply orb_true_iff in Hcap as [H | H].
    + left. apply Z.eqb_eq, H.
    + right. apply Hall, H.
  - intros Heq. rewrite Heq in Hfull. cbn in Hfull.
    rewrite !andb_true_iff in Hfull. tauto.
  - exists (Z.min total 100 / 5). apply Z.eqb_eq in Hfive.
    apply Z.div_exact in Hfive; [exact Hfive | lia].
Qed.

(** X4.  On every record whose [dns_records], [whois_info] and [ssl_info]
    are dictionaries [_calculate_quality_score] returns an integer that is
    a multiple of 5 and that is the sum of the weights of the items present
    unless all eight items are present, the one case in which [min(score,
    100)] changes the sum; it returns 100 only when the NS, A and MX records
    and the TLS certificate are present. *)
Theorem X4_score_cap {S} (analysis dns whois ssl : gmap string pyval) (s : S) :
  analysis !! "dns_records" = Some (PDict dns) ->
  analysis !! "whois_info" = Some (PDict whois) ->
  analysis !! "ssl_info" = Some (PDict ssl) ->
  exists score,
    _calculate_quality_score (PDict analysis) s = (Ok (PInt score), s)
    /\ (100 < weight_sum (present dns whois ssl)
        <-> forall e, present dns whois ssl e = true)
    /\ (score = weight_sum (present dns whois ssl)
        \/ forall e, present dns whois ssl e = true)
    /\ (score = 100 ->
        field_truthy dns "ns_records" = true
        /\ field_truthy dns "a_records" = true
        /\ field_truthy dns "mx_records" = true
        /\ field_truthy ssl "has_ssl" = true)
    /\ exists k, score = 5 * k.
Proof.
  intros Hd Hw Hs.
  exists (table_score (present dns whois ssl)).
  split; [apply calculate_quality_score_run; assumption |].
  exact (table_score_cap (present dns whois ssl)).
Qed.

(** X4 on the record with everything. *)
Lemma X4_witness :
  exists score,
    _calculate_quality_score (PDict full_analysis) tt = (Ok (PInt score), tt)
    /\ exists k, score = 5 * k.
Proof.
  destruct (X4_score_cap full_analysis full_dns full_whois full_ssl tt)
    as (score & Hrun & _ & _ & _ & Hfive); try reflexivity.
  exists score. split; [exact Hrun | exact Hfive].
Defined.

(* ===================================================================== *)
(** ** More about the TLS fetcher and the signature extractor *)
(* ===================================================================== *)

Ltac same_keys :=
  repeat (rewrite dom_insert_lookup_L by (open_dicts; dict_lookup; eauto));
  reflexivity.

Ltac peercert_leaf :=
  eexists _, _; split; [reflexivity |];
  split; [dict_lookup; reflexivity |];
  split; [open_dicts; dict_lookup; reflexivity |];
  split; [same_keys |].

Lemma record_peercert_cases (cert : peercert) (h : world) :
  exists r info,
    record_peercert cert (ssl_info_default, h) = (r, (info, h))
    /\ info !! "has_ssl" = Some (PBool true)
    /\ info !! "signature_algorithm" = Some (PStr "")
    /\ dom info = dom ssl_info_default
    /\ (forall e, cert_issuer cert = Raise e ->
        info = <["has_ssl" := PBool true]> ssl_info_default).
Proof.
  unfold record_peercert. run_monad.
  destruct (cert_issuer cert) as [v1|e1];
    [| peercert_leaf; intros e _; reflexivity].
  destruct (cert_subject cert) as [v2|e2]; [| peercert_leaf; discriminate].
  destruct (cert_notBefore cert) as [v3|e3]; [| peercert_leaf; discriminate].
  destruct (cert_notAfter cert) as [v4|e4]; [| peercert_leaf; discriminate].
  destruct (cert_serialNumber cert) as [v5|e5]; [| peercert_leaf; discriminate].
  destruct (cert_version cert) as [v6|e6]; peercert_leaf; discriminate.
Qed.

(** X5.  [check_ssl_certificate] makes exactly one TLS probe and returns a
    dictionary with the eight keys it starts from.  [has_ssl] is true
    exactly when the probe returned a truthy certificate, also when reading
    a field of that certificate then faults: if the issuer cannot be read,
    [has_ssl] is true and every other entry is left at its default.
    [signature_algorithm] is never filled in. *)
Theorem X5_ssl_certificate (E : env) (domain : string) (timeout : Z) (h : world) :
  exists info,
    check_ssl_certificate E domain timeout h
    = (Ok (PDict info), h ++ [EvTls domain timeout])
    /\ dom info = dom ssl_info_default
    /\ info !! "has_ssl" = Some (PBool (tls_present E domain timeout h))
    /\ info !! "signature_algorithm" = Some (PStr "")
    /\ (forall cert e,
          tls_getpeercert E h domain timeout = Ok cert ->
          cert_truthy cert = true ->
          cert_issuer cert = Raise e ->
          info = <["has_ssl" := PBool true]> ssl_info_default).
Proof.
  unfold check_ssl_certificate, tls_present, with_local, try_except.
  unfold bind at 1. unfold bind at 1. unfold call, external. cbn [fst snd].
  destruct (tls_getpeercert E h domain timeout) as [cert|e].
  - destruct (cert_truthy cert) eqn:Ht.
    + destruct (record_peercert_cases cert (h ++ [EvTls domain timeout]))
        as (r & info & Hrun & Hssl & Hsig & Hdom & Hissuer).
      rewrite Hrun. exists info.
      destruct r; (split; [reflexivity |]);
        (split; [exact Hdom |]); (split; [exact Hssl |]);
        (split; [exact Hsig |]);
        intros cert' e' Hc _ He'; injection Hc as <-; eapply Hissuer; exact He'.
    + exists ssl_info_default. split; [reflexivity |]. split; [reflexivity |].
      split; [open_dicts; dict_lookup; reflexivity |].
      split; [open_dicts; dict_lookup; reflexivity |].
      intros cert' e' Hc Ht'. injection Hc as <-. congruence.
  - exists ssl_info_default. split; [reflexivity |]. split; [reflexivity |].
    split; [open_dicts; dict_lookup; reflexivity |].
    split; [open_dicts; dict_lookup; reflexivity |].
    intros cert' e' Hc. discriminate.
Qed.

Lemma signature_tags_ordered (ns a mx whois ssl : bool) :
  ordered_sublist (signature_tags ns a mx whois ssl) all_tags
  /\ NoDup (signature_tags ns a mx whois ssl).
Proof.
  unfold signature_tags, all_tags.
  destruct ns, a, mx, whois, ssl; cbn [app]; split;
    try (cbn; tauto);
    repeat (apply NoDup_cons_2;
            [rewrite list_elem_of_In; cbn [In]; intros H;
             repeat destruct H as [H | H]; (discriminate H || exact H) |]);
    apply NoDup_nil_2.
Qed.

(** X6.  The list [check_domain_signatures] returns for the class holds
    its tags in the fixed order DNS_NS, DNS_A, DNS_MX, WHOIS, SSL, each at
    most once. *)
Theorem X6_signatures_ordered (E : env) (domain : string) (h : world) :
  exists sigs h',
    self_check_domain_signatures (DomainScanner E) domain h = (Ok (PList sigs), h')
    /\ ordered_sublist sigs all_tags
    /\ NoDup sigs.
Proof.
  destruct (check_domain_signatures_run E domain h)
    as (whois & trace & a & r & _ & _ & Hrun).
  cbv zeta in Hrun. cbn [self_check_domain_signatures DomainScanner].
  rewrite Hrun. eexists _, _. split; [reflexivity |].
  apply signature_tags_ordered.
Qed.

(** X7.  When the call of [check_whois_info] faults inside
    [check_domain_signatures], the extraction ends there: the DNS tags
    gathered so far are returned, there is no WHOIS and no SSL tag, and
    [check_ssl_certificate] is not called (the history ends with that of the
    faulted call). *)
Theorem X7_signatures_whois_fault (E : env)
    (whois_m ssl_m : string -> M world pyval) (domain : string) (h h1 : world)
    (e : exn) :
  whois_m domain (h ++ signature_events domain) = (Raise e, h1) ->
  check_domain_signatures E whois_m ssl_m domain h
  = (Ok (PList (signature_tags
                  (dns_has_records E domain "NS" h)
                  (dns_has_records E domain "A" (h ++ take 1 (signature_events domain)))
                  (dns_has_records E domain "MX" (h ++ take 2 (signature_events domain)))
                  false false)),
     h1).
Proof.
  intros Hw.
  unfold check_domain_signatures, with_local, try_except, bind.
  rewrite !dns_signature_run. unfold call. cbn [fst snd].
  unfold signature_events in *. cbn [take]. rewrite <- !app_assoc in *.
  cbn [app] in *. rewrite Hw.
  unfold get_local, ret, signature_tags. cbn [fst snd].
  rewrite !app_nil_r, <- ?app_assoc. reflexivity.
Qed.

(** A WHOIS method that always raises. *)
Lemma X7_witness :
  check_domain_signatures env_up
    (fun _ => raise (Exception "RuntimeError" "whois exploded"))
    (fun domain => check_ssl_certificate env_up domain 5) "example.com" []
  = (Ok (PList [PStr "DNS_NS"; PStr "DNS_A"; PStr "DNS_MX"]),
     signature_events "example.com").
Proof.
  exact (X7_signatures_whois_fault env_up
           (fun _ => raise (Exception "RuntimeError" "whois exploded"))
           (fun domain => check_ssl_certificate env_up domain 5)
           "example.com" [] (signature_events "example.com")
           (Exception "RuntimeError" "whois exploded") eq_refl).
Defined.

(* ===================================================================== *)
(** ** More about the orchestrator and the batch driver *)
(* ===================================================================== *)

Lemma dns_queries_app (h1 h2 : list event) :
  dns_queries (h1 ++ h2) = (dns_queries h1 + dns_queries h2)%nat.
Proof. unfold dns_queries. rewrite List.filter_app, List.length_app. reflexivity. Qed.

Lemma tls_probes_app (h1 h2 : list event) :
  tls_probes (h1 ++ h2) = (tls_probes h1 + tls_probes h2)%nat.
Proof. unfold tls_probes. rewrite List.filter_app, List.length_app. reflexivity. Qed.

Lemma slept_app (h1 h2 : list event) : slept (h1 ++ h2) = slept h1 + slept h2.
Proof.
  unfold slept. induction h1 as [|ev h1 IH]; cbn [app map fold_right]; [lia |].
  rewrite IH. lia.
Qed.

Lemma failed_attempts_cost (domain : string) (k : nat) :
  dns_queries (failed_attempts domain k) = 0%nat
  /\ tls_probes (failed_attempts domain k) = 0%nat
  /\ slept (failed_attempts domain k) = 2 * Z.of_nat k.
Proof.
  induction k as [|k (Hd & Ht & Hs)]; [repeat split |].
  cbn [failed_attempts]. split; [| split].
  - exact Hd.
  - exact Ht.
  - change (slept (EvWhois domain :: EvSleep 2 :: failed_attempts domain k))
      with (0 + (2 + slept (failed_attempts domain k))).
    rewrite Hs. lia.
Qed.

(** What one call of [check_whois_info] costs. *)
Lemma check_whois_info_cost (E : env) (domain : string) (max_retries : Z)
    (h : world) :
  exists info trace,
    check_whois_info E domain max_retries h = (Ok (PDict info), h ++ trace)
    /\ (whois_queries trace <= Z.to_nat max_retries)%nat
    /\ dns_queries trace = 0%nat
    /\ tls_probes trace = 0%nat
    /\ 0 <= slept trace <= 2 * Z.of_nat (Z.to_nat max_retries - 1).
Proof.
  destruct (first_success_or_all_fail E domain (Z.to_nat max_retries) h)
    as [(k & w & Hk & Hfail & Hw) | Hall].
  - exists (whois_info_of w), (failed_attempts domain k ++ [EvWhois domain]).
    destruct (failed_attempts_cost domain k) as (Hd & Ht & Hs).
    split; [apply check_whois_info_success; assumption |].
    rewrite whois_queries_app, whois_queries_failed, dns_queries_app,
      tls_probes_app, slept_app, Hd, Ht, Hs.
    cbn. repeat split; lia.
  - exists whois_info_default, (exhausted_attempts domain (Z.to_nat max_retries)).
    split; [apply check_whois_info_exhausted; assumption |].
    rewrite whois_queries_exhausted.
    destruct (Z.to_nat max_retries) as [|m]; [cbn; repeat split; lia |].
    cbn [exhausted_attempts].
    destruct (failed_attempts_cost domain m) as (Hd & Ht & Hs).
    rewrite dns_queries_app, tls_probes_app, slept_app, Hd, Ht, Hs.
    cbn. repeat split; lia.
Qed.

Lemma whois_trace_cost (E : env) (domain : string) (h : world)
    (info : gmap string pyval) (trace : list event) :
  check_whois_info E domain 3 h = (Ok (PDict info), h ++ trace) ->
  (whois_queries trace <= 3)%nat
  /\ dns_queries trace = 0%nat
  /\ tls_probes trace = 0%nat
  /\ 0 <= slept trace <= 4.
Proof.
  intros Hrun.
  destruct (check_whois_info_cost E domain 3 h)
    as (info' & trace' & Hrun' & Hw & Hd & Ht & Hs).
  rewrite Hrun in Hrun'. injection Hrun' as _ Heq.
  apply app_inv_head in Heq. subst trace'.
  change (Z.to_nat 3) with 3%nat in *. cbn in Hs. auto.
Qed.

(** X8.  For the class as written, the [try] block of [analyze_domain]
    cannot fault: the record has no [error], and its [is_available] is a
    boolean, the [is_available] of its [whois_info].  One analysis makes 8
    DNS queries and 2 TLS probes, because the signature extractor repeats
    the probes; it makes at most 6 WHOIS queries and sleeps at most 8
    seconds between them. *)
Theorem X8_analyze_domain_cost (E : env) (domain : string) (h : world) :
  exists (rec whois : gmap string pyval) (trace : list event) (b : bool),
    scanner_analyze_domain E domain h = (Ok (PDict rec), h ++ trace)
    /\ rec !! "error" = None
    /\ rec !! "is_available" = Some (PBool b)
    /\ rec !! "whois_info" = Some (PDict whois)
    /\ whois !! "is_available" = Some (PBool b)
    /\ dns_queries trace = 8%nat
    /\ tls_probes trace = 2%nat
    /\ (whois_queries trace <= 6)%nat
    /\ 0 <= slept trace <= 8.
Proof.
  destruct (scanner_analyze_domain_run E domain h) as (rec & h' & Hrun & Heq).
  destruct Hrun as [whois ssl whois' trace trace' a r a' r' h1 h2 h3 h4
                     Hh1 Hwhois Hflags Hx Hh2 Hssl Hhas Hh3 Hwhois' Hflags' Hh4].
  match goal with
  | _ : context [analysis_record ?d ?t ?dns ?w ?s ?sg ?av] |- _ =>
      pose proof (analysis_record_fields d t dns w s sg av) as Hf;
      cbv zeta in Hf; destruct Hf as (_ & F2 & _ & _ & F5 & _ & _ & F8)
  end.
  destruct (whois_trace_cost _ _ _ _ _ Hwhois) as (W1 & D1 & T1 & S1).
  destruct (whois_trace_cost _ _ _ _ _ Hwhois') as (W2 & D2 & T2 & S2).
  eexists _, whois,
    (dns_events domain ++ trace ++ [EvTls domain 5]
     ++ signature_events domain ++ trace' ++ [EvTls domain 5]), a.
  split.
  { rewrite Heq. f_equal. subst h4 h3 h2 h1. rewrite <- !app_assoc. reflexivity. }
  split; [exact F8 |]. split; [exact F5 |]. split; [exact F2 |].
  split; [exact (proj1 Hflags) |].
  rewrite !dns_queries_app, !tls_probes_app, !whois_queries_app, !slept_app,
    D1, D2, T1, T2.
  change (dns_queries (dns_events domain)) with 5%nat.
  change (dns_queries (signature_events domain)) with 3%nat.
  change (dns_queries [EvTls domain 5]) with 0%nat.
  change (tls_probes (dns_events domain)) with 0%nat.
  change (tls_probes (signature_events domain)) with 0%nat.
  change (tls_probes [EvTls domain 5]) with 1%nat.
  change (whois_queries (dns_events domain)) with 0%nat.
  change (whois_queries (signature_events domain)) with 0%nat.
  change (whois_queries [EvTls domain 5]) with 0%nat.
  change (slept (dns_events domain)) with 0.
  change (slept (signature_events domain)) with 0.
  change (slept [EvTls domain 5]) with 0.
  repeat split; lia.
Qed.

(** X9.  When every WHOIS attempt of the fetch fails, nothing is known
    about the registration, yet the record of the class's [analyze_domain]
    has [is_available] false and its first recommendation reads "Domain is
    already registered". *)
Theorem X9_whois_unreachable_reads_registered (E : env) (domain : string)
    (h : world) :
  (forall j, (j < 3)%nat ->
     whois_fails E domain ((h ++ dns_events domain) ++ failed_attempts domain j)) ->
  exists rec h' rest,
    scanner_analyze_domain E domain h = (Ok (PDict rec), h')
    /\ rec !! "whois_info" = Some (PDict whois_info_default)
    /\ rec !! "is_available" = Some (PBool false)
    /\ rec !! "recommendations"
       = Some (PList (PStr "Domain is already registered" :: rest)).
Proof.
  intros Hall.
  destruct (scanner_analyze_domain_run E domain h) as (rec & h' & Hrun & Heq).
  destruct Hrun as [whois ssl whois' trace trace' a r a' r' h1 h2 h3 h4
                     Hh1 Hwhois Hflags Hx Hh2 Hssl Hhas Hh3 Hwhois' Hflags' Hh4].
  subst h1.
  rewrite (check_whois_info_exhausted E domain 3 (h ++ dns_events domain))
    in Hwhois by exact Hall.
  injection Hwhois as <- _.
  destruct Hflags as [Ha _]. destruct whois_flags_default as [Ha' _].
  rewrite Ha' in Ha. injection Ha as <-.
  match goal with
  | _ : context [analysis_record ?d ?t ?dns ?w ?s ?sg ?av] |- _ =>
      pose proof (analysis_record_fields d t dns w s sg av) as Hf;
      cbv zeta in Hf; destruct Hf as (_ & F2 & _ & _ & F5 & _ & F7 & _)
  end.
  eexists _, _, _. split; [exact Heq |]. split; [exact F2 |].
  split; [exact F5 |]. rewrite F7. reflexivity.
Qed.

(** X9 with every source unreachable. *)
Lemma X9_witness :
  exists rec h' rest,
    scanner_analyze_domain env_down "example.com" [] = (Ok (PDict rec), h')
    /\ rec !! "whois_info" = Some (PDict whois_info_default)
    /\ rec !! "is_available" = Some (PBool false)
    /\ rec !! "recommendations"
       = Some (PList (PStr "Domain is already registered" :: rest)).
Proof.
  apply (X9_whois_unreachable_reads_registered env_down "example.com" []).
  intros j _. exists unreachable. reflexivity.
Defined.

(** X10.  Whatever [check_dns_records], [check_whois_info],
    [check_ssl_certificate] and [check_domain_signatures] do when called on
    [self] (they are given the domain only), with the class's own
    [_calculate_quality_score] and [_generate_recommendations], which only
    read the record: the entries [batch_analyze_domains] returns are
    dictionaries, as many as the input domains and in their order, and the
    [domain] of the i-th entry is the i-th input. *)
Theorem X10_batch_entries_in_order (E : env)
    (check_dns check_whois check_ssl check_signatures : string -> M world pyval)
    (domains : list string) (h : world) :
  let self := {|
    self_check_dns_records := check_dns;
    self_check_whois_info := check_whois;
    self_check_ssl_certificate := check_ssl;
    self_check_domain_signatures := check_signatures;
    self_calculate_quality_score := _calculate_quality_score;
    self_generate_recommendations := _generate_recommendations
  |} in
  exists (results : gmap string pyval) (h' : world) (entries : list pyval),
    batch_analyze_domains E (analyze_domain E self) domains h
    = (Ok (PDict results), h')
    /\ results !! "domains" = Some (PList entries)
    /\ List.length entries = List.length domains
    /\ forall i d, domains !! i = Some d ->
         exists rec, entries !! i = Some (PDict rec)
                     /\ rec !! "domain" = Some (PStr d).
Proof.
  intros self.
  destruct (batch_analyze_domains_run E (analyze_domain E self) domains h)
    as (entries & successful & failed & h' & Hrun & Heq).
  pose proof (batch_run_counts _ _ _ _ _ _ _ _ Hrun) as (_ & _ & _ & Hlen).
  destruct (batch_run_no_raise _ _ _ _ _ _ _ _ Hrun) as [_ Hall].
  { intros d w _.
    destruct (analyze_domain_returns E self d w) as (rec & w' & Hret & _).
    eauto. }
  pose proof (batch_dict_fields (Z.of_nat (List.length domains))
                (successful + failed) successful failed entries)
    as (_ & _ & _ & _ & F5).
  eexists _, h', entries. split; [exact Heq |]. split; [exact F5 |].
  split; [exact Hlen |].
  intros i d Hi.
  destruct (Forall2_lookup_l _ _ _ _ _ Hall Hi) as (entry & He & w & w' & Hw).
  destruct (analyze_domain_returns E self d w) as (rec & w'' & Hret & _ & Hd & _).
  rewrite Hret in Hw. injection Hw as <- _.
  exists rec. auto.
Qed.

(* ===================================================================== *)
(** ** More about the web-archive analysis *)
(* ===================================================================== *)

Lemma dict_get_stateless {S} (v : pyval) (key : string) (default : pyval) (s : S) :
  exists r, dict_get v key default s = (r, s).
Proof. destruct v; cbn; eauto. Qed.

Lemma closest_field_stateless {S} (data : pyval) (field : string) (s : S) :
  exists r, closest_field data field s = (r, s).
Proof.
  unfold closest_field, bind.
  destruct (dict_get_stateless data "archived_snapshots" (PDict ∅) s) as [[x|e] ->];
    [| eauto].
  destruct (dict_get_stateless x "closest" (PDict ∅) s) as [[y|e] ->]; [| eauto].
  apply dict_get_stateless.
Qed.

Lemma closest_field_absent {S} (data : gmap string pyval) (field : string) (s : S) :
  data !! "archived_snapshots" = None ->
  closest_field (PDict data) field s = (Ok (PStr ""), s).
Proof.
  intros H. unfold closest_field, bind, dict_get, ret. rewrite H.
  rewrite !lookup_empty. reflexivity.
Qed.

(** X11.  [check_wayback_availability] makes one request and never
    raises.  Unless the request returns status 200 with a JSON object as
    body, the result is exactly [{'available': False}].  The flag is read at
    the top level of the body only: a body with no top-level [available]
    gives [available] false, whatever its [archived_snapshots] hold; a body
    with no [archived_snapshots] gives empty [url], [timestamp] and
    [status]. *)
Theorem X11_wayback_availability (E : env) (domain : string) (h : world) :
  exists av,
    check_wayback_availability E domain h
    = (Ok (PDict av), h ++ [EvGet (availability_url domain)])
    /\ is_Some (av !! "available")
    /\ (~ (exists resp data,
             requests_get E h (availability_url domain) = Ok resp
             /\ status_code resp = 200
             /\ json resp = Ok (PDict data)) ->
        av = not_available)
    /\ (forall resp data,
          requests_get E h (availability_url domain) = Ok resp ->
          status_code resp = 200 ->
          json resp = Ok (PDict data) ->
          (data !! "available" = None -> av !! "available" = Some (PBool false))
          /\ (data !! "archived_snapshots" = None ->
              av = dict [("available",
                          match data !! "available" with
                          | Some x => x
                          | None => PBool false
                          end);
                         ("url", PStr ""); ("timestamp", PStr "");
                         ("status", PStr "")])).
Proof.
  assert (Hdefault : not_available !! "available" = Some (PBool false))
    by (unfold not_available; rewrite dict_cons; dict_lookup; reflexivity).
  unfold check_wayback_availability, try_except, http_get, external.
  unfold bind at 1. fold (availability_url domain).
  destruct (requests_get E h (availability_url domain)) as [resp|e] eqn:Hreq.
  2:{ exists not_available. split; [reflexivity |]. split; [eauto |].
      split; [reflexivity |]. intros resp data Hr. discriminate. }
  destruct (status_code resp =? 200) eqn:Hstatus.
  2:{ exists not_available. split; [reflexivity |]. split; [eauto |].
      split; [reflexivity |]. intros resp' data Hr Hs. injection Hr as <-.
      apply Z.eqb_neq in Hstatus. contradiction. }
  unfold bind at 1. unfold lift_result at 1.
  destruct (json resp) as [data|e] eqn:Hjson.
  2:{ exists not_available. split; [reflexivity |]. split; [eauto |].
      split; [reflexivity |]. intros resp' data Hr _ Hj. injection Hr as <-.
      congruence. }
  destruct data as [| | | | |dd|];
    try (exists not_available; split; [reflexivity |]; split; [eauto |];
         split; [reflexivity |]; intros resp' data Hr _ Hj; injection Hr as <-;
         congruence).
  unfold bind at 1. unfold dict_get at 1, ret at 1. cbv beta iota.
  unfold bind at 1.
  destruct (closest_field_stateless (S := world) (PDict dd) "url"
              (h ++ [EvGet (availability_url domain)])) as [r1 H1].
  rewrite H1.
  assert (Hcases : forall (av : gmap string pyval),
            av = not_available
            \/ av = dict [("available",
                           match dd !! "available" with
                           | Some x => x
                           | None => PBool false
                           end);
                          ("url", PStr ""); ("timestamp", PStr "");
                          ("status", PStr "")]
            \/ (dd !! "archived_snapshots" <> None
                /\ exists u t s,
                     av = dict [("available",
                                 match dd !! "available" with
                                 | Some x => x
                                 | None => PBool false
                                 end);
                                ("url", u); ("timestamp", t); ("status", s)]) ->
            (dd !! "archived_snapshots" = None -> r1 = Ok (PStr "")) ->
            (av = not_available -> dd !! "archived_snapshots" <> None) ->
            is_Some (av !! "available")
            /\ (~ (exists resp0 data,
                     Ok resp = Ok resp0 /\ status_code resp0 = 200
                     /\ json resp0 = Ok (PDict data)) ->
                av = not_available)
            /\ (forall resp0 data,
                  Ok resp = Ok resp0 -> status_code resp0 = 200 ->
                  json resp0 = Ok (PDict data) ->
                  (data !! "available" = None ->
                   av !! "available" = Some (PBool false))
                  /\ (data !! "archived_snapshots" = None ->
                      av = dict [("available",
                                  match data !! "available" with
                                  | Some x => x
                                  | None => PBool false
                                  end);
                                 ("url", PStr ""); ("timestamp", PStr "");
                                 ("status", PStr "")]))).
  { intros av Hav Habsent Hna.
    assert (Hlook : av !! "available" = Some (PBool false)
                    \/ av !! "available"
                       = Some (match dd !! "available" with
                               | Some x => x
                               | None => PBool false
                               end)).
    { destruct Hav as [-> | [-> | (_ & u & t & s & ->)]];
        [left; exact Hdefault
        | right; rewrite dict_cons; dict_lookup; reflexivity
        | right; rewrite dict_cons; dict_lookup; reflexivity]. }
    split; [destruct Hlook as [-> | ->]; eauto |].
    split.
    - intros Hno. exfalso. apply Hno. exists resp, dd.
      apply Z.eqb_eq in Hstatus. auto.
    - intros resp0 data Hr _ Hj. injection Hr as <-.
      rewrite Hjson in Hj. injection Hj as <-. split.
      + intros Hnone. destruct Hlook as [-> | ->]; [reflexivity |].
        rewrite Hnone. reflexivity.
      + intros Habs.
        destruct Hav as [-> | [-> | (Hpresent & _)]];
          [exfalso; apply (Hna eq_refl Habs) | reflexivity | contradiction]. }
  assert (Habsent1 : dd !! "archived_snapshots" = None -> r1 = Ok (PStr "")).
  { intros Habs. rewrite (closest_field_absent (S := world) dd "url" _ Habs) in H1.
    congruence. }
  destruct r1 as [url|e1].
  2:{ exists not_available. split; [reflexivity |].
      apply Hcases; [left; reflexivity | exact Habsent1 |].
      intros _ Habs. specialize (Habsent1 Habs). discriminate. }
  unfold bind at 1.
  destruct (closest_field_stateless (S := world) (PDict dd) "timestamp"
              (h ++ [EvGet (availability_url domain)])) as [r2 H2].
  rewrite H2.
  destruct r2 as [timestamp|e2].
  2:{ exists not_available. split; [reflexivity |].
      apply Hcases; [left; reflexivity | exact Habsent1 |].
      intros _ Habs.
      rewrite (closest_field_absent (S := world) dd "timestamp" _ Habs) in H2. discriminate. }
  unfold bind at 1.
  destruct (closest_field_stateless (S := world) (PDict dd) "status"
              (h ++ [EvGet (availability_url domain)])) as [r3 H3].
  rewrite H3.
  destruct r3 as [status|e3].
  2:{ exists not_available. split; [reflexivity |].
      apply Hcases; [left; reflexivity | exact Habsent1 |].
      intros _ Habs.
      rewrite (closest_field_absent (S := world) dd "status" _ Habs) in H3. discriminate. }
  eexists. split; [reflexivity |].
  apply Hcases; [| exact Habsent1 |].
  - assert (Hsnap : dd !! "archived_snapshots" <> None
                    \/ dd !! "archived_snapshots" = None)
      by (destruct (dd !! "archived_snapshots");
          [left; discriminate | right; reflexivity]).
    destruct Hsnap as [Hsnap | Hsnap].
    + right; right. split; [exact Hsnap |]. eauto.
    + right; left.
      rewrite (closest_field_absent (S := world) dd "url" _ Hsnap) in H1.
      rewrite (closest_field_absent (S := world) dd "timestamp" _ Hsnap) in H2.
      rewrite (closest_field_absent (S := world) dd "status" _ Hsnap) in H3.
      injection H1 as <-. injection H2 as <-. injection H3 as <-. reflexivity.
  - intros Heq. exfalso.
    assert (Hu : dict [("available",
                        match dd !! "available" with
                        | Some x => x
                        | None => PBool false
                        end);
                       ("url", url); ("timestamp", timestamp);
                       ("status", status)] !! "url" = Some url)
      by (rewrite !dict_cons; dict_lookup; reflexivity).
    rewrite Heq in Hu. revert Hu. unfold not_available.
    rewrite dict_cons, dict_nil. dict_lookup. discriminate.
Qed.

(** X12.  [get_snapshot_count] never raises and makes one request.  When
    the request returns status 200 with a JSON object as body, the value
    returned is the [num_pages] of that object, whatever its type, and [0]
    when the object has no [num_pages]; in every other case it is [0], so a
    body that is a bare number gives [0]. *)
Theorem X12_snapshot_count (E : env) (domain : string) (h : world) :
  exists total,
    get_snapshot_count E domain h
    = (Ok total, h ++ [EvGet (count_url domain)])
    /\ (forall resp data,
          requests_get E h (count_url domain) = Ok resp ->
          status_code resp = 200 ->
          json resp = Ok (PDict data) ->
          total = match data !! "num_pages" with
                  | Some pages => pages
                  | None => PInt 0
                  end)
    /\ (~ (exists resp data,
             requests_get E h (count_url domain) = Ok resp
             /\ status_code resp = 200
             /\ json resp = Ok (PDict data)) ->
        total = PInt 0)
    /\ (forall resp pages,
          requests_get E h (count_url domain) = Ok resp ->
          json resp = Ok (PInt pages) ->
          total = PInt 0).
Proof.
  unfold get_snapshot_count, try_except, http_get, external.
  unfold bind at 1. fold (count_url domain).
  destruct (requests_get E h (count_url domain)) as [resp|e] eqn:Hreq.
  2:{ exists (PInt 0). split; [reflexivity |].
      split; [intros resp data Hr; discriminate |].
      split; [reflexivity | intros resp pages Hr; discriminate]. }
  destruct (status_code resp =? 200) eqn:Hstatus.
  2:{ exists (PInt 0). split; [reflexivity |]. apply Z.eqb_neq in Hstatus.
      split; [intros resp' data Hr Hs; injection Hr as <-; contradiction |].
      split; reflexivity. }
  apply Z.eqb_eq in Hstatus.
  unfold bind at 1. unfold lift_result at 1.
  destruct (json resp) as [data|e] eqn:Hjson.
  2:{ exists (PInt 0). split; [reflexivity |].
      split; [intros resp' data Hr _ Hj; injection Hr as <-; congruence |].
      split; reflexivity. }
  destruct data as [| | | | |dd|];
    try (exists (PInt 0); split; [reflexivity |];
         split; [intros resp' data Hr _ Hj; injection Hr as <-; congruence |];
         split; reflexivity).
  unfold dict_get, ret.
  exists (match dd !! "num_pages" with Some pages => pages | None => PInt 0 end).
  split; [reflexivity |].
  split; [intros resp' data Hr _ Hj; injection Hr as <-;
          rewrite Hjson in Hj; injection Hj as <-; reflexivity |].
  split.
  - intros Hno. exfalso. apply Hno. exists resp, dd. auto.
  - intros resp' pages Hr Hj. injection Hr as <-. congruence.
Qed.

Lemma check_wayback_availability_trace (E : env) (domain : string) (h : world) :
  exists av v,
    check_wayback_availability E domain h
    = (Ok (PDict av), h ++ [EvGet (availability_url domain)])
    /\ av !! "available" = Some v.
Proof.
  assert (Hdefault : (dict [("available", PBool false)] : gmap string pyval)
                     !! "available" = Some (PBool false))
    by (rewrite dict_cons; dict_lookup; reflexivity).
  unfold check_wayback_availability, try_except, http_get, external.
  unfold bind at 1. fold (availability_url domain).
  destruct (requests_get E h _) as [resp|e]; [| cbn; eauto].
  destruct (status_code resp =? 200); [| cbn; eauto].
  unfold bind at 1. unfold lift_result at 1.
  destruct (json resp) as [data|e]; [| cbn; eauto].
  unfold bind at 1.
  match goal with
  | |- context [dict_get data "available" (PBool false) ?s] =>
      destruct (dict_get_stateless (S := world) data "available" (PBool false) s)
        as [[available|e] ->]; [| cbn; eauto]
  end.
  unfold bind at 1.
  match goal with
  | |- context [closest_field data "url" ?s] =>
      destruct (closest_field_stateless (S := world) data "url" s) as [[url|e] ->];
        [| cbn; eauto]
  end.
  unfold bind at 1.
  match goal with
  | |- context [closest_field data "timestamp" ?s] =>
      destruct (closest_field_stateless (S := world) data "timestamp" s) as [[timestamp|e] ->];
        [| cbn; eauto]
  end.
  unfold bind at 1.
  match goal with
  | |- context [closest_field data "status" ?s] =>
      destruct (closest_field_stateless (S := world) data "status" s) as [[status|e] ->];
        [| cbn; eauto]
  end.
  unfold ret. eexists _, available. split; [reflexivity |].
  rewrite dict_cons. dict_lookup. reflexivity.
Qed.

Lemma get_snapshot_count_trace (E : env) (domain : string) (h : world) :
  exists total,
    get_snapshot_count E domain h = (Ok total, h ++ [EvGet (count_url domain)]).
Proof.
  unfold get_snapshot_count, try_except, http_get, external.
  unfold bind at 1. fold (count_url domain).
  destruct (requests_get E h _) as [resp|e]; [| cbn; eauto].
  destruct (status_code resp =? 200); [| cbn; eauto].
  unfold bind at 1. unfold lift_result at 1.
  destruct (json resp) as [data|e]; [| cbn; eauto].
  match goal with
  | |- context [dict_get data "num_pages" (PInt 0) ?s] =>
      destruct (dict_get_stateless (S := world) data "num_pages" (PInt 0) s)
        as [[total|e] ->]; eauto
  end.
Qed.

(** A directional query makes one request, whatever comes of it. *)
Lemma fetch_snapshot_trace (E : env) (domain sort key : string)
    (d : gmap string pyval) (h : world) :
  exists r d',
    fetch_snapshot E domain sort key (d, h)
    = (r, (d', (h ++ [EvGet (snapshot_url domain sort)] : world)))
    /\ (d' = d \/ (r = Ok tt /\ exists ts, d' = <[key := ts]> d)).
Proof.
  unfold fetch_snapshot, http_get.
  unfold bind at 1. unfold call, external. cbn [fst snd].
  fold (snapshot_url domain sort).
  destruct (requests_get E h _) as [resp|e]; [| eauto 10].
  destruct (status_code resp =? 200); [| eexists _, _; split; [reflexivity | auto]].
  unfold bind at 1. unfold lift_result at 1.
  destruct (json resp) as [data|e]; [| eauto 10].
  destruct (truthy data); [| eexists _, _; split; [reflexivity | auto]].
  unfold bind at 1.
  match goal with
  | |- context [py_len data ?s] =>
      destruct (py_len_stateless data s) as [[n|e] ->]; [| eauto 10]
  end.
  destruct (n >? 1); [| eexists _, _; split; [reflexivity | auto]].
  unfold bind at 1.
  match goal with
  | |- context [getitem_int data 1 ?s] =>
      destruct (getitem_int_stateless data 1 s) as [[row|e] ->]; [| eauto 10]
  end.
  unfold bind at 1.
  match goal with
  | |- context [getitem_int row 1 ?s] =>
      destruct (getitem_int_stateless row 1 s) as [[ts|e] ->]; [| eauto 10]
  end.
  eexists _, _. split; [reflexivity |]. right. eauto.
Qed.

Lemma webarchive_requests_take (domain : string) (h : world) :
  h ++ [EvGet (availability_url domain)]
  = h ++ take 1 (webarchive_requests domain)
  /\ ((h ++ [EvGet (availability_url domain)]) ++ [EvGet (count_url domain)])
     ++ [EvGet (snapshot_url domain "oldest")]
     = h ++ take 3 (webarchive_requests domain)
  /\ (((h ++ [EvGet (availability_url domain)]) ++ [EvGet (count_url domain)])
      ++ [EvGet (snapshot_url domain "oldest")])
     ++ [EvGet (snapshot_url domain "latest")]
     = h ++ take 4 (webarchive_requests domain).
Proof.
  unfold webarchive_requests. cbn [take].
  rewrite <- !app_assoc. cbn [app]. auto.
Qed.

(** The requests made by the body of [analyze_webarchive], and the entries
    the body never touches. *)
Lemma analyze_webarchive_body_trace (E : env) (domain : string) (h : world) :
  exists r d' n v,
    analyze_webarchive_body E domain (webarchive_default domain, h)
    = (r, (d', (h ++ take n (webarchive_requests domain) : world)))
    /\ d' !! "domain" = Some (PStr domain)
    /\ d' !! "has_snapshots" = Some v
    /\ d' !! "error" = None
    /\ (truthy v = false ->
        n = 1%nat /\ r = Ok tt
        /\ d' = <["has_snapshots" := v]> (webarchive_default domain))
    /\ (truthy v = true ->
        n = 4%nat \/ (n = 3%nat /\ exists e, r = Raise e)).
Proof.
  destruct (webarchive_requests_take domain h) as (W1 & W3 & W4).
  destruct (check_wayback_availability_trace E domain h) as (av & v & Hav & Hv).
  unfold analyze_webarchive_body.
  unfold bind at 1. unfold call at 1. cbn [fst snd]. rewrite Hav.
  unfold bind at 1. rewrite (getitem_Some _ _ _ _ Hv).
  unfold bind at 1. unfold set_item at 1, modify_local at 1. cbn [fst snd].
  unfold bind at 1. unfold get_local at 1. cbn [fst snd].
  unfold bind at 1.
  rewrite (getitem_Some _ "has_snapshots" v) by apply lookup_insert_eq.
  destruct (truthy v) eqn:Ht.
  - destruct (get_snapshot_count_trace E domain
                (h ++ [EvGet (availability_url domain)])) as (total & Hcount).
    unfold bind at 1. unfold call at 1. cbn [fst snd]. rewrite Hcount.
    unfold bind at 1. unfold set_item at 1, modify_local at 1. cbn [fst snd].
    unfold bind at 1.
    match goal with
    | |- context [fetch_snapshot E domain "oldest" "first_snapshot" (?d, ?w)] =>
        destruct (fetch_snapshot_trace E domain "oldest" "first_snapshot" d w)
          as (r3 & d3 & Hrun3 & Hcase3); rewrite Hrun3
    end.
    destruct r3 as [[]|e3].
    + unfold bind at 1.
      match goal with
      | |- context [fetch_snapshot E domain "latest" "last_snapshot" (?d, ?w)] =>
          destruct (fetch_snapshot_trace E domain "latest" "last_snapshot" d w)
            as (r4 & d4 & Hrun4 & Hcase4); rewrite Hrun4
      end.
      rewrite W4.
      destruct r4 as [[]|e4].
      * destruct Hcase3 as [-> | [_ [ts1 ->]]];
          destruct Hcase4 as [-> | [_ [ts2 ->]]];
          match goal with
          | |- context [years_covered_block (?d, ?w)] =>
              edestruct (years_covered_block_run d w)
                as (r & d' & Hrun & Hcases);
                [open_dicts; dict_lookup; reflexivity ..
                | rewrite Hrun; exists r, d', 4%nat, v;
                  split; [reflexivity |];
                  destruct Hcases as [(_ & _ & ->) | [(_ & _ & _ & ->)
                                                     | (_ & y1 & y2 & _ & _ & _ & ->)]];
                  (split; [open_dicts; dict_lookup; reflexivity |]);
                  (split; [open_dicts; dict_lookup; reflexivity |]);
                  (split; [open_dicts; dict_lookup; reflexivity |]);
                  (split; [congruence | auto])]
          end.
      * eexists _, _, 4%nat, v. split; [reflexivity |].
        destruct Hcase4 as [-> | [Hr _]]; [| discriminate].
        destruct Hcase3 as [-> | [_ [ts1 ->]]];
          (split; [open_dicts; dict_lookup; reflexivity |]);
          (split; [open_dicts; dict_lookup; reflexivity |]);
          (split; [open_dicts; dict_lookup; reflexivity |]);
          (split; [congruence | auto]).
    + rewrite W3. eexists _, _, 3%nat, v. split; [reflexivity |].
      destruct Hcase3 as [-> | [Hr _]]; [| discriminate].
      (split; [open_dicts; dict_lookup; reflexivity |]);
      (split; [open_dicts; dict_lookup; reflexivity |]);
      (split; [open_dicts; dict_lookup; reflexivity |]);
      (split; [congruence | eauto]).
  - rewrite W1. eexists _, _, 1%nat, v. split; [reflexivity |].
    (split; [open_dicts; dict_lookup; reflexivity |]);
    (split; [open_dicts; dict_lookup; reflexivity |]);
    (split; [open_dicts; dict_lookup; reflexivity |]);
    (split; [auto | congruence]).
Qed.

Lemma py_len_pure {S} (v : pyval) (s : S) :
  py_len v s = (fst (py_len v tt), s).
Proof. destruct v; reflexivity. Qed.

Lemma getitem_int_pure {S} (v : pyval) (i : nat) (s : S) :
  getitem_int v i s = (fst (getitem_int v i tt), s).
Proof.
  destruct v; try reflexivity; cbn.
  - destruct (String.get i s0); reflexivity.
  - destruct (l !! i); reflexivity.
Qed.

(** A directional query by the answer to its request. *)
Lemma fetch_snapshot_run (E : env) (domain sort key : string)
    (d : gmap string pyval) (h : world) :
  fetch_snapshot E domain sort key (d, h)
  = (match read_snapshot (requests_get E h (snapshot_url domain sort)) with
     | Ok _ => Ok tt
     | Raise e => Raise e
     end,
     (match read_snapshot (requests_get E h (snapshot_url domain sort)) with
      | Ok (Some timestamp) => <[key := timestamp]> d
      | _ => d
      end,
      (h ++ [EvGet (snapshot_url domain sort)] : world))).
Proof.
  unfold fetch_snapshot, http_get, read_snapshot.
  unfold bind at 1. unfold call, external. cbn [fst snd].
  fold (snapshot_url domain sort).
  destruct (requests_get E h (snapshot_url domain sort)) as [resp|e];
    [| reflexivity].
  destruct (status_code resp =? 200); [| reflexivity].
  unfold bind at 1. unfold lift_result at 1.
  destruct (json resp) as [data|e]; [| reflexivity].
  destruct (truthy data); [| reflexivity].
  unfold bind at 1. rewrite py_len_pure.
  destruct (fst (py_len data tt)) as [n|e]; [| reflexivity].
  destruct (n >? 1); [| reflexivity].
  unfold bind at 1. rewrite getitem_int_pure.
  destruct (fst (getitem_int data 1 tt)) as [row|e]; [| reflexivity].
  unfold bind at 1. rewrite getitem_int_pure.
  destruct (fst (getitem_int row 1 tt)) as [timestamp|e]; reflexivity.
Qed.

Lemma webarchive_requests_nested (domain : string) (h : world) :
  h ++ take 1 (webarchive_requests domain)
  = h ++ [EvGet (availability_url domain)]
  /\ h ++ take 2 (webarchive_requests domain)
     = (h ++ [EvGet (availability_url domain)]) ++ [EvGet (count_url domain)]
  /\ h ++ take 3 (webarchive_requests domain)
     = ((h ++ [EvGet (availability_url domain)]) ++ [EvGet (count_url domain)])
       ++ [EvGet (snapshot_url domain "oldest")]
  /\ h ++ take 4 (webarchive_requests domain)
     = (((h ++ [EvGet (availability_url domain)]) ++ [EvGet (count_url domain)])
        ++ [EvGet (snapshot_url domain "oldest")])
       ++ [EvGet (snapshot_url domain "latest")].
Proof.
  unfold webarchive_requests. cbn [take].
  rewrite <- !app_assoc. cbn [app]. auto.
Qed.

(** The body of [analyze_webarchive] by the answers to its requests. *)
Lemma analyze_webarchive_body_reads (E : env) (domain : string) (h : world) :
  exists r d' n v,
    analyze_webarchive_body E domain (webarchive_default domain, h)
    = (r, (d', (h ++ take n (webarchive_requests domain) : world)))
    /\ d' !! "domain" = Some (PStr domain)
    /\ d' !! "has_snapshots" = Some v
    /\ d' !! "error" = None
    /\ (truthy v = false ->
        n = 1%nat /\ r = Ok tt
        /\ d' = <["has_snapshots" := v]> (webarchive_default domain))
    /\ (truthy v = true ->
        match read_snapshot
                (requests_get E (h ++ take 2 (webarchive_requests domain))
                              (snapshot_url domain "oldest")) with
        | Raise e =>
            n = 3%nat /\ r = Raise e
            /\ d' !! "first_snapshot" = Some PNone
            /\ d' !! "last_snapshot" = Some PNone
        | Ok first =>
            n = 4%nat
            /\ d' !! "first_snapshot" = Some (recovered first)
            /\ match read_snapshot
                       (requests_get E (h ++ take 3 (webarchive_requests domain))
                                     (snapshot_url domain "latest")) with
               | Raise e => r = Raise e /\ d' !! "last_snapshot" = Some PNone
               | Ok last => d' !! "last_snapshot" = Some (recovered last)
               end
        end).
Proof.
  destruct (webarchive_requests_nested domain h) as (W1 & W2 & W3 & W4).
  rewrite W2, W3.
  destruct (check_wayback_availability_trace E domain h) as (av & v & Hav & Hv).
  unfold analyze_webarchive_body.
  unfold bind at 1. unfold call at 1. cbn [fst snd]. rewrite Hav.
  unfold bind at 1. rewrite (getitem_Some _ _ _ _ Hv).
  unfold bind at 1. unfold set_item at 1, modify_local at 1. cbn [fst snd].
  unfold bind at 1. unfold get_local at 1. cbn [fst snd].
  unfold bind at 1.
  rewrite (getitem_Some _ "has_snapshots" v) by apply lookup_insert_eq.
  destruct (truthy v) eqn:Ht.
  2:{ eexists _, _, 1%nat, v. rewrite W1. split; [reflexivity |].
      (split; [open_dicts; dict_lookup; reflexivity |]);
      (split; [open_dicts; dict_lookup; reflexivity |]);
      (split; [open_dicts; dict_lookup; reflexivity |]);
      (split; [auto | congruence]). }
  destruct (get_snapshot_count_trace E domain
              (h ++ [EvGet (availability_url domain)])) as (total & Hcount).
  unfold bind at 1. unfold call at 1. cbn [fst snd]. rewrite Hcount.
  unfold bind at 1. unfold set_item at 1, modify_local at 1. cbn [fst snd].
  unfold bind at 1. rewrite fetch_snapshot_run.
  destruct (read_snapshot
              (requests_get E
                 ((h ++ [EvGet (availability_url domain)])
                  ++ [EvGet (count_url domain)])
                 (snapshot_url domain "oldest"))) as [first|e1].
  2:{ eexists _, _, 3%nat, v. rewrite W3. split; [reflexivity |].
      (split; [open_dicts; dict_lookup; reflexivity |]);
      (split; [open_dicts; dict_lookup; reflexivity |]);
      (split; [open_dicts; dict_lookup; reflexivity |]);
      (split; [congruence |]). intros _.
      split; [reflexivity |]. split; [reflexivity |].
      split; open_dicts; dict_lookup; reflexivity. }
  unfold bind at 1. rewrite fetch_snapshot_run.
  destruct (read_snapshot
              (requests_get E
                 (((h ++ [EvGet (availability_url domain)])
                   ++ [EvGet (count_url domain)])
                  ++ [EvGet (snapshot_url domain "oldest")])
                 (snapshot_url domain "latest"))) as [last|e2].
  2:{ eexists _, _, 4%nat, v. rewrite W4. split; [reflexivity |].
      destruct first as [ts1|];
        (split; [open_dicts; dict_lookup; reflexivity |]);
        (split; [open_dicts; dict_lookup; reflexivity |]);
        (split; [open_dicts; dict_lookup; reflexivity |]);
        (split; [congruence |]); intros _;
        (split; [reflexivity |]);
        (split; [open_dicts; dict_lookup; reflexivity |]);
        (split; [reflexivity | open_dicts; dict_lookup; reflexivity]). }
  destruct first as [ts1|], last as [ts2|];
    match goal with
    | |- context [years_covered_block (?d, ?w)] =>
        edestruct (years_covered_block_run d w) as (r & d' & Hrun & Hcases);
          [open_dicts; dict_lookup; reflexivity ..
          | rewrite Hrun; exists r, d', 4%nat, v; rewrite W4;
            split; [reflexivity |];
            destruct Hcases as [(_ & _ & ->) | [(_ & _ & _ & ->)
                                               | (_ & y1 & y2 & _ & _ & _ & ->)]];
            (split; [open_dicts; dict_lookup; reflexivity |]);
            (split; [open_dicts; dict_lookup; reflexivity |]);
            (split; [open_dicts; dict_lookup; reflexivity |]);
            (split; [congruence |]); intros _;
            (split; [reflexivity |]);
            (split; open_dicts; dict_lookup; reflexivity)]
    end.
Qed.

(** X13.  [analyze_webarchive] always returns a record for its domain,
    and the requests it makes are an initial part of the availability,
    count, oldest-snapshot and latest-snapshot requests, in that order.
    When the availability flag is falsy only the availability request is
    made and every other entry keeps its default.  When it is truthy, the
    run ends after three requests exactly when the oldest-snapshot query
    faults, with [error] recorded and no timestamp stored; otherwise all
    four requests are made, [first_snapshot] is the timestamp the oldest
    query recovered (or [None]), and [last_snapshot] is the timestamp the
    latest query recovered (or [None]), unless that query faults, which
    records [error]. *)
Theorem X13_webarchive_requests (E : env) (domain : string) (h : world) :
  exists rec n v,
    analyze_webarchive E domain h
    = (Ok (PDict rec), h ++ take n (webarchive_requests domain))
    /\ rec !! "domain" = Some (PStr domain)
    /\ rec !! "has_snapshots" = Some v
    /\ (truthy v = false ->
        n = 1%nat
        /\ rec = <["has_snapshots" := v]> (webarchive_default domain))
    /\ (truthy v = true ->
        match read_snapshot
                (requests_get E (h ++ take 2 (webarchive_requests domain))
                              (snapshot_url domain "oldest")) with
        | Raise e =>
            n = 3%nat
            /\ rec !! "error" = Some (PStr (str_exn e))
            /\ rec !! "first_snapshot" = Some PNone
            /\ rec !! "last_snapshot" = Some PNone
        | Ok first =>
            n = 4%nat
            /\ rec !! "first_snapshot" = Some (recovered first)
            /\ match read_snapshot
                       (requests_get E (h ++ take 3 (webarchive_requests domain))
                                     (snapshot_url domain "latest")) with
               | Raise e =>
                   rec !! "error" = Some (PStr (str_exn e))
                   /\ rec !! "last_snapshot" = Some PNone
               | Ok last => rec !! "last_snapshot" = Some (recovered last)
               end
        end).
Proof.
  destruct (analyze_webarchive_body_reads E domain h)
    as (r & d' & n & v & Hrun & Hdomain & Hflag & Herror & Hfalsy & Htruthy).
  unfold analyze_webarchive, with_local, try_except, bind. rewrite Hrun.
  destruct r as [[]|e].
  - exists d', n, v. split; [reflexivity |].
    split; [exact Hdomain |]. split; [exact Hflag |]. split.
    + intros Hv. destruct (Hfalsy Hv) as (-> & _ & ->). auto.
    + intros Hv. specialize (Htruthy Hv).
      destruct (read_snapshot _) as [first|e1].
      * destruct Htruthy as (Hn & Hfirst & Hlast).
        split; [exact Hn |]. split; [exact Hfirst |].
        destruct (read_snapshot _) as [last|e2]; [exact Hlast |].
        destruct Hlast as [Hr _]. discriminate.
      * destruct Htruthy as (_ & Hr & _). discriminate.
  - exists (<["error" := PStr (str_exn e)]> d'), n, v. split; [reflexivity |].
    split; [rewrite lookup_insert_ne by key_neq; exact Hdomain |].
    split; [rewrite lookup_insert_ne by key_neq; exact Hflag |]. split.
    + intros Hv. destruct (Hfalsy Hv) as (_ & Hr & _). discriminate.
    + intros Hv. specialize (Htruthy Hv).
      destruct (read_snapshot _) as [first|e1].
      * destruct Htruthy as (Hn & Hfirst & Hlast).
        split; [exact Hn |].
        split; [rewrite lookup_insert_ne by key_neq; exact Hfirst |].
        destruct (read_snapshot _) as [last|e2].
        -- rewrite lookup_insert_ne by key_neq. exact Hlast.
        -- destruct Hlast as [Hr Hl]. injection Hr as ->.
           split; [apply lookup_insert_eq |].
           rewrite lookup_insert_ne by key_neq. exact Hl.
      * destruct Htruthy as (Hn & Hr & Hfirst & Hlast). injection Hr as ->.
        split; [exact Hn |]. split; [apply lookup_insert_eq |].
        split; rewrite lookup_insert_ne by key_neq; assumption.
Qed.

Lemma webarchive_batch_step_run (an : string -> M world pyval) (domain : string)
    (t p s f : Z) (es : list pyval) (h : world) :
  webarchive_batch_step an domain (batch_dict t p s f es, h)
  = match an domain h with
    | (Ok analysis, h1) =>
        (Ok Continue, (batch_dict t (p + 1) (s + 1) f (es ++ [analysis]), h1))
    | (Raise e, h1) =>
        (Ok Continue,
         (batch_dict t (p + 1) s (f + 1) (es ++ [webarchive_stub domain e]), h1))
    end.
Proof.
  unfold webarchive_batch_step, try_except.
  unfold bind at 1. unfold bind at 1. unfold call at 1. cbn [fst snd].
  destruct (an domain h) as [[analysis|e] h1].
  - unfold bind. rewrite batch_dict_append, batch_dict_successful,
      batch_dict_processed. reflexivity.
  - unfold bind.
    rewrite batch_dict_append, batch_dict_failed, batch_dict_processed.
    reflexivity.
Qed.

Lemma webarchive_batch_loop_run (an : string -> M world pyval)
    (domains : list string) :
  forall (t p s f : Z) (es : list pyval) (h : world),
  exists entries successful failed h',
    webarchive_batch_run an domains h entries successful failed h'
    /\ for_each domains (webarchive_batch_step an) (batch_dict t p s f es, h)
       = (Ok tt,
          (batch_dict t (p + successful + failed) (s + successful) (f + failed)
                      (es ++ entries), h')).
Proof.
  induction domains as [|domain domains IH]; intros t p s f es h.
  - exists [], 0, 0, h. split; [constructor |].
    cbn. rewrite app_nil_r, !Z.add_0_r. reflexivity.
  - cbn [for_each]. unfold bind. rewrite webarchive_batch_step_run.
    destruct (an domain h) as [[analysis|e] h1] eqn:Han.
    + destruct (IH t (p + 1) (s + 1) f (es ++ [analysis]) h1)
        as (entries & successful & failed & h' & Hrun & Hloop).
      exists (analysis :: entries), (successful + 1), failed, h'.
      split; [econstructor; eassumption |].
      rewrite Hloop, <- app_assoc. cbn [app].
      do 3 f_equal; lia.
    + destruct (IH t (p + 1) s (f + 1) (es ++ [webarchive_stub domain e]) h1)
        as (entries & successful & failed & h' & Hrun & Hloop).
      exists (webarchive_stub domain e :: entries), successful, (failed + 1), h'.
      split; [econstructor; eassumption |].
      rewrite Hloop, <- app_assoc. cbn [app].
      do 3 f_equal; lia.
Qed.

Lemma webarchive_batch_run_counts (an : string -> M world pyval)
    (domains : list string) (h h' : world) (entries : list pyval)
    (successful failed : Z) :
  webarchive_batch_run an domains h entries successful failed h' ->
  0 <= successful /\ 0 <= failed
  /\ successful + failed = Z.of_nat (List.length domains)
  /\ List.length entries = List.length domains.
Proof.
  induction 1; cbn [List.length]; lia.
Qed.

Lemma webarchive_batch_run_entries (an : string -> M world pyval)
    (domains : list string) (h h' : world) (entries : list pyval)
    (successful failed : Z) :
  webarchive_batch_run an domains h entries successful failed h' ->
  forall (i : nat) (domain : string),
    domains !! i = Some domain ->
    exists entry,
      entries !! i = Some entry
      /\ ((exists w w', an domain w = (Ok entry, w'))
          \/ (exists e w w', an domain w = (Raise e, w')
                             /\ entry = webarchive_stub domain e)).
Proof.
  induction 1 as [h | d ds h h1 h' analysis entries s f Han Hrun IH
                    | d ds h h1 h' e entries s f Han Hrun IH];
    intros i domain Hi.
  - discriminate.
  - destruct i as [|i]; [| exact (IH i domain Hi)].
    injection Hi as <-. exists analysis. split; [reflexivity |]. left. eauto.
  - destruct i as [|i]; [| exact (IH i domain Hi)].
    injection Hi as <-. exists (webarchive_stub d e). split; [reflexivity |].
    right. eauto.
Qed.

(** X14.  [batch_analyze_webarchive], for any implementation of
    [self.analyze_webarchive], never raises.  It returns the five counters
    with [processed = total_domains = len(domains)] and
    [successful + failed = processed], and one entry per domain, in the
    order of the input: what the call returned, or, when the call raised,
    the two-key stub [{'domain': domain, 'error': str(e)}], which carries
    no timestamp. *)
Theorem X14_webarchive_batch (an : string -> M world pyval)
    (domains : list string) (h : world) :
  exists entries successful failed h',
    batch_analyze_webarchive an domains h
    = (Ok (PDict (batch_dict (Z.of_nat (List.length domains))
                             (Z.of_nat (List.length domains))
                             successful failed entries)), h')
    /\ 0 <= successful /\ 0 <= failed
    /\ successful + failed = Z.of_nat (List.length domains)
    /\ List.length entries = List.length domains
    /\ (forall (i : nat) (domain : string),
          domains !! i = Some domain ->
          exists entry,
            entries !! i = Some entry
            /\ ((exists w w', an domain w = (Ok entry, w'))
                \/ (exists e w w',
                      an domain w = (Raise e, w')
                      /\ entry = PDict (dict [("domain", PStr domain);
                                              ("error", PStr (str_exn e))])
                      /\ forall rec, entry = PDict rec ->
                                     rec !! "timestamp" = None))).
Proof.
  destruct (webarchive_batch_loop_run an domains
              (Z.of_nat (List.length domains)) 0 0 0 [] h)
    as (entries & successful & failed & h' & Hrun & Hloop).
  destruct (webarchive_batch_run_counts _ _ _ _ _ _ _ Hrun)
    as (Hs & Hf & Hsum & Hlen).
  exists entries, successful, failed, h'. split.
  { unfold batch_analyze_webarchive, with_local, bind.
    rewrite batch_results_default_dict, Hloop.
    replace (0 + successful + failed) with (Z.of_nat (List.length domains))
      by lia.
    reflexivity. }
  split; [exact Hs |]. split; [exact Hf |]. split; [exact Hsum |].
  split; [exact Hlen |].
  intros i domain Hi.
  destruct (webarchive_batch_run_entries _ _ _ _ _ _ _ Hrun i domain Hi)
    as (entry & Hentry & [Hok | (e & w & w' & Hraise & ->)]).
  - exists entry. split; [exact Hentry |]. left. exact Hok.
  - exists (webarchive_stub domain e). split; [exact Hentry |]. right.
    exists e, w, w'. split; [exact Hraise |]. split; [reflexivity |].
    assert (Hstub : dict [("domain", PStr domain); ("error", PStr (str_exn e))]
                    !! "timestamp" = (None : option pyval))
      by (rewrite !dict_cons, dict_nil; dict_lookup; reflexivity).
    intros rec Hrec. unfold webarchive_stub in Hrec. congruence.
Qed.

Lemma analyze_webarchive_trace (E : env) (domain : string) (h : world) :
  exists rec trace,
    analyze_webarchive E domain h = (Ok (PDict rec), h ++ trace)
    /\ rec !! "domain" = Some (PStr domain)
    /\ (1 <= List.length trace <= 4)%nat.
Proof.
  destruct (analyze_webarchive_body_trace E domain h)
    as (r & d' & n & v & Hrun & Hdomain & _ & _ & Hfalsy & Htruthy).
  assert (Hn : (1 <= List.length (take n (webarchive_requests domain)) <= 4)%nat).
  { destruct (truthy v).
    - destruct (Htruthy eq_refl) as [-> | [-> _]]; cbn; lia.
    - destruct (Hfalsy eq_refl) as (-> & _); cbn; lia. }
  unfold analyze_webarchive, with_local, try_except, bind. rewrite Hrun.
  destruct r as [[]|e].
  - exists d', (take n (webarchive_requests domain)). auto.
  - exists (<["error" := PStr (str_exn e)]> d'),
      (take n (webarchive_requests domain)).
    split; [reflexivity |]. split; [| exact Hn].
    rewrite lookup_insert_ne by key_neq. exact Hdomain.
Qed.

Lemma webarchive_batch_run_class (E : env) (domains : list string)
    (h h' : world) (entries : list pyval) (successful failed : Z) :
  webarchive_batch_run (analyze_webarchive E) domains h entries
                       successful failed h' ->
  failed = 0
  /\ (exists trace,
        h' = h ++ trace
        /\ (List.length domains <= List.length trace
            <= 4 * List.length domains)%nat)
  /\ (forall (i : nat) (domain : string),
        domains !! i = Some domain ->
        exists rec, entries !! i = Some (PDict rec)
                    /\ rec !! "domain" = Some (PStr domain)).
Proof.
  induction 1 as [h | d ds h h1 h' analysis entries s f Han Hrun IH
                    | d ds h h1 h' e entries s f Han Hrun IH].
  - split; [reflexivity |]. split.
    + exists []. rewrite app_nil_r. cbn. auto.
    + intros i domain Hi. discriminate.
  - destruct IH as (-> & (trace & -> & Hlen) & Hentries).
    destruct (analyze_webarchive_trace E d h)
      as (rec & trace1 & Hrun1 & Hdomain & Hlen1).
    rewrite Hrun1 in Han. injection Han as <- <-.
    split; [reflexivity |]. split.
    + exists (trace1 ++ trace). split; [rewrite app_assoc; reflexivity |].
      rewrite length_app. cbn [List.length]. lia.
    + intros [|i] domain Hi; [| exact (Hentries i domain Hi)].
      injection Hi as <-. exists rec. auto.
  - destruct (analyze_webarchive_trace E d h)
      as (rec & trace1 & Hrun1 & _). congruence.
Qed.

(** X15.  With the class's own [analyze_webarchive], which catches its
    own exceptions, [batch_analyze_webarchive] reports every domain as
    successful and none as failed, whatever the archive answers; the i-th
    entry is a record whose [domain] is the i-th input; and the batch makes
    between one and four requests per domain. *)
Theorem X15_webarchive_batch_never_fails (E : env) (domains : list string)
    (h : world) :
  exists entries trace,
    batch_analyze_webarchive (analyze_webarchive E) domains h
    = (Ok (PDict (batch_dict (Z.of_nat (List.length domains))
                             (Z.of_nat (List.length domains))
                             (Z.of_nat (List.length domains)) 0 entries)),
       h ++ trace)
    /\ List.length entries = List.length domains
    /\ (forall (i : nat) (domain : string),
          domains !! i = Some domain ->
          exists rec, entries !! i = Some (PDict rec)
                      /\ rec !! "domain" = Some (PStr domain))
    /\ (List.length domains <= List.length trace
        <= 4 * List.length domains)%nat.
Proof.
  destruct (webarchive_batch_loop_run (analyze_webarchive E) domains
              (Z.of_nat (List.length domains)) 0 0 0 [] h)
    as (entries & successful & failed & h' & Hrun & Hloop).
  destruct (webarchive_batch_run_counts _ _ _ _ _ _ _ Hrun)
    as (Hs & Hf & Hsum & Hlen).
  destruct (webarchive_batch_run_class _ _ _ _ _ _ _ Hrun)
    as (-> & (trace & -> & Htrace) & Hentries).
  exists entries, trace. split.
  { unfold batch_analyze_webarchive, with_local, bind.
    rewrite batch_results_default_dict, Hloop.
    replace (0 + successful + 0) with (Z.of_nat (List.length domains))
      by lia.
    replace (0 + successful) with (Z.of_nat (List.length domains)) by lia.
    reflexivity. }
  auto.
Qed.

(* ===================================================================== *)
(** ** The route that analyses and saves *)
(* ===================================================================== *)

Lemma has_date_dict (d : gmap string pyval) :
  has_date (PDict d) = map_fold (fun _ x acc => has_date x || acc) false d.
Proof. reflexivity. Qed.

(** A dictionary one of whose values holds a [datetime] holds one. *)
Lemma has_date_lookup (d : gmap string pyval) (k : string) (v : pyval) :
  d !! k = Some v -> has_date v = true -> has_date (PDict d) = true.
Proof.
  intros Hk Hv. rewrite has_date_dict.
  rewrite (map_fold_delete_L _ _ k v d); [rewrite Hv; reflexivity | | exact Hk].
  intros j1 j2 z1 z2 y _ _ _.
  destruct (has_date z1), (has_date z2); reflexivity.
Qed.

Lemma field_Some (rec : gmap string pyval) (k : string) (v : pyval) :
  rec !! k = Some v -> field rec k = v.
Proof. intros H. unfold field. rewrite H. reflexivity. Qed.

(** An entry that has [error] is passed over. *)
Lemma store_result_error (D : database) (rec : gmap string pyval)
    (log : list db_event) (w : world) :
  is_Some (rec !! "error") ->
  store_result D (PDict rec) (log, w) = (Ok Continue, (log, w)).
Proof.
  intros H. unfold store_result, py_in, bind, ret.
  rewrite bool_decide_eq_true_2 by exact H. reflexivity.
Qed.

(** A stored record is serialised, which fails on a [datetime], and then
    inserted. *)
Lemma store_result_record (D : database) (rec : gmap string pyval)
    (log : list db_event) (w : world) :
  rec !! "error" = None ->
  (forall k, In k stored_keys -> is_Some (rec !! k)) ->
  exists row,
    row_of (PDict rec) = Some row
    /\ is_insert row
    /\ store_result D (PDict rec) (log, w)
       = if has_date (field rec "dns_records")
            || has_date (field rec "whois_info")
            || has_date (field rec "ssl_info")
         then (Raise (TypeError "Object of type datetime is not JSON serializable"),
               (log, w))
         else (match D log row with
               | Ok _ => Ok Continue
               | Raise e => Raise e
               end, (log ++ [row], w)).
Proof.
  intros He Hk.
  destruct (Hk "dns_records") as [dns Hdns]; [cbn; auto |].
  destruct (Hk "whois_info") as [whois Hwhois]; [cbn; auto |].
  destruct (Hk "ssl_info") as [ssl Hssl]; [cbn; auto |].
  destruct (Hk "domain") as [domain Hdomain]; [cbn; auto 10 |].
  destruct (Hk "quality_score") as [quality Hquality]; [cbn; auto 10 |].
  destruct (Hk "is_available") as [avail Havail]; [cbn; auto 10 |].
  assert (Herr : bool_decide (is_Some (rec !! "error")) = false).
  { apply bool_decide_eq_false_2. rewrite He. intros [x Hx]. discriminate. }
  exists (DbInsertDomain domain quality (Dumped dns) (Dumped whois) (Dumped ssl)
                         avail).
  split.
  { unfold row_of. rewrite Herr.
    rewrite (field_Some _ _ _ Hdns), (field_Some _ _ _ Hwhois),
      (field_Some _ _ _ Hssl), (field_Some _ _ _ Hdomain),
      (field_Some _ _ _ Hquality), (field_Some _ _ _ Havail).
    reflexivity. }
  split; [exact I |].
  rewrite (field_Some _ _ _ Hdns), (field_Some _ _ _ Hwhois),
    (field_Some _ _ _ Hssl).
  unfold store_result, py_in, json_dumps, db_call. run_monad.
  rewrite Herr, Hdns, Hwhois, Hssl, Hdomain, Hquality, Havail.
  cbv beta iota delta [negb].
  destruct (has_date dns); [reflexivity |].
  destruct (has_date whois); [reflexivity |].
  destruct (has_date ssl); [reflexivity |].
  cbn [orb fst snd].
  destruct (D log _); reflexivity.
Qed.

Lemma stored_rows_cons (entry : pyval) (entries : list pyval) :
  stored_rows (entry :: entries)
  = match row_of entry with
    | Some row => row :: stored_rows entries
    | None => stored_rows entries
    end.
Proof. reflexivity. Qed.

Lemma row_of_error (rec : gmap string pyval) :
  is_Some (rec !! "error") -> row_of (PDict rec) = None.
Proof.
  intros H. unfold row_of. rewrite bool_decide_eq_true_2 by exact H. reflexivity.
Qed.

(** The loop that saves the results, on entries the route can handle and
    a database that answers. *)
Lemma store_loop_ok (D : database) (entries : list pyval) :
  (forall log ev, D log ev = Ok tt) ->
  Forall storable entries ->
  forall (log : list db_event) (w : world),
    for_each entries (store_result D) (log, w)
    = (Ok tt, (log ++ stored_rows entries, w)).
Proof.
  intros HD. induction 1 as [|entry entries Hentry _ IH]; intros log w.
  - cbn. rewrite app_nil_r. reflexivity.
  - destruct Hentry as (rec & -> & [Herror | (Hkeys & Hdns & Hwhois & Hssl)]).
    + cbn [for_each]. unfold bind. rewrite store_result_error by exact Herror.
      rewrite IH, stored_rows_cons, row_of_error by exact Herror. reflexivity.
    + assert (He : rec !! "error" = None \/ is_Some (rec !! "error"))
        by (destruct (rec !! "error"); eauto).
      destruct He as [He | He].
      * destruct (store_result_record D rec log w He Hkeys)
          as (row & Hrow & _ & Hrun).
        cbn [for_each]. unfold bind. rewrite Hrun, Hdns, Hwhois, Hssl, HD.
        cbn [orb]. rewrite IH, stored_rows_cons, Hrow.
        rewrite <- app_assoc. reflexivity.
      * cbn [for_each]. unfold bind. rewrite store_result_error by exact He.
        rewrite IH, stored_rows_cons, row_of_error by exact He. reflexivity.
Qed.

(** The loop that saves the results, on stored records: it only inserts,
    and it raises when a record cannot be serialised. *)
Lemma store_loop_records (D : database) (entries : list pyval) :
  Forall stored_record entries ->
  forall (log : list db_event) (w : world),
  exists r rows,
    for_each entries (store_result D) (log, w) = (r, (log ++ rows, w))
    /\ Forall is_insert rows
    /\ (Exists unserialisable entries ->
        exists e, r = Raise e
                  /\ ((forall log ev, D log ev = Ok tt) ->
                      e = TypeError "Object of type datetime is not JSON serializable")).
Proof.
  induction 1 as [|entry entries Hentry _ IH]; intros log w.
  - exists (Ok tt), []. rewrite app_nil_r. split; [reflexivity |].
    split; [constructor |]. intros H. inversion H.
  - destruct Hentry as (rec & -> & He & Hkeys).
    destruct (store_result_record D rec log w He Hkeys)
      as (row & Hrow & Hins & Hrun).
    cbn [for_each]. unfold bind. rewrite Hrun.
    destruct (has_date (field rec "dns_records")
              || has_date (field rec "whois_info")
              || has_date (field rec "ssl_info")) eqn:Hdate.
    + eexists _, []. rewrite app_nil_r. split; [reflexivity |].
      split; [constructor |]. intros _. eauto.
    + destruct (D log row) as [[]|e] eqn:HD.
      * destruct (IH (log ++ [row]) w) as (r & rows & Hloop & Hrows & Hraise).
        exists r, (row :: rows). rewrite Hloop, <- app_assoc.
        split; [reflexivity |]. split; [constructor; assumption |].
        intros Hex. apply Hraise. inversion Hex as [? ? Hhead | ? ? Htail]; subst.
        -- destruct Hhead as (rec' & Heq & _ & Hd). injection Heq as <-.
           congruence.
        -- exact Htail.
      * exists (Raise e), [row]. split; [reflexivity |].
        split; [repeat constructor; assumption |].
        intros _. exists e. split; [reflexivity |].
        intros Hok. rewrite Hok in HD. discriminate.
Qed.

(** X16.  The route [/api/v1/domains/analyze], for a non-empty list of
    domains, any [analyze_domain] of the scanner and a database that
    answers: when every entry of the batch is a dictionary that either has
    [error] or has the six entries the route reads with no [datetime] in
    [dns_records], [whois_info] and [ssl_info], the route answers 200 with
    the batch results and the database sees one connection, one insert per
    entry without [error], in the order of the batch, then one commit and
    one close.  Entries that have [error], the failure stubs among them,
    are returned but never saved. *)
Theorem X16_route_saves_records (E : env) (D : database)
    (an : string -> M world pyval) (domains : list string) (h : world) :
  domains <> [] ->
  (forall log ev, D log ev = Ok tt) ->
  exists (results : gmap string pyval) (entries : list pyval) (h' : world),
    batch_analyze_domains E an domains h = (Ok (PDict results), h')
    /\ results !! "domains" = Some (PList entries)
    /\ (Forall storable entries ->
        analyze_domains E D an (Some domains) ([], h)
        = (Ok (PDict results, 200),
           (DbConnect :: stored_rows entries ++ [DbCommit; DbClose], h')))
    /\ (forall row, In row (stored_rows entries) ->
          exists rec, In (PDict rec) entries
                      /\ rec !! "error" = None
                      /\ row_of (PDict rec) = Some row).
Proof.
  intros Hne HD.
  destruct (batch_analyze_domains_run E an domains h)
    as (entries & successful & failed & h' & Hrun & Heq).
  pose proof (batch_dict_fields (Z.of_nat (List.length domains))
                (successful + failed) successful failed entries)
    as (_ & _ & _ & _ & F5).
  eexists _, entries, h'. split; [exact Heq |]. split; [exact F5 |]. split.
  - intros Hall. destruct domains as [|d ds]; [contradiction |].
    unfold analyze_domains. cbn [from_option id].
    unfold bind at 1. unfold call at 1. cbn [fst snd]. rewrite Heq.
    unfold bind at 1. unfold db_call at 1. cbn [fst snd]. rewrite HD.
    unfold bind at 1. rewrite (getitem_Some _ _ _ _ F5).
    unfold bind at 1. unfold iter_list at 1, ret at 1.
    unfold bind at 1. rewrite (store_loop_ok D entries HD Hall).
    unfold bind, db_call, ret. cbn [fst snd]. rewrite !HD.
    rewrite <- !app_assoc. reflexivity.
  - clear. induction entries as [|entry entries IH]; intros row Hin.
    + contradiction.
    + rewrite stored_rows_cons in Hin.
      destruct (row_of entry) as [row'|] eqn:Hrow.
      * destruct Hin as [<- | Hin].
        -- destruct entry as [| | | | |rec|]; try discriminate.
           exists rec. split; [left; reflexivity |]. split; [| exact Hrow].
           unfold row_of in Hrow.
           destruct (rec !! "error") eqn:He; [| reflexivity].
           rewrite bool_decide_eq_true_2 in Hrow by eauto. discriminate.
        -- destruct (IH row Hin) as (rec & Hrec & He & Hr).
           exists rec. split; [right; exact Hrec | auto].
      * destruct (IH row Hin) as (rec & Hrec & He & Hr).
        exists rec. split; [right; exact Hrec | auto].
Qed.

Lemma returned_dict_inj (r1 r2 : gmap string pyval) (h1 h2 : world) :
  (Ok (PDict r1), h1) = (Ok (PDict r2), h2) -> r2 = r1 /\ h2 = h1.
Proof. intros H. injection H as -> ->. auto. Qed.

Lemma plain_analysis_storable (domain : string) :
  storable (PDict (plain_analysis domain)).
Proof.
  exists (plain_analysis domain). split; [reflexivity |]. right.
  unfold field, plain_analysis. rewrite !dict_cons, dict_nil.
  split; [| dict_lookup; repeat split; vm_compute; reflexivity].
  intros k Hk. unfold stored_keys in Hk. cbn [In] in Hk.
  repeat destruct Hk as [<- | Hk]; try contradiction; dict_lookup; eauto.
Qed.

Lemma plain_entry_storable (E : env) (domain : string) (entry : pyval) :
  entry_for E plain_analyze_domain domain entry -> storable entry.
Proof.
  unfold plain_analyze_domain.
  intros [(h & h1 & Hrun) | (h & h1 & e & Hrun & ->)].
  - destruct (String.eqb domain "k.example"); [discriminate |].
    injection Hrun as <- _. apply plain_analysis_storable.
  - destruct (failure_stub_fields domain e (datetime_now E h1))
      as (stub & -> & _ & Herror & _).
    exists stub. split; [reflexivity |]. left. rewrite Herror. eauto.
Qed.

(** X16 on a batch of two in which the call for [k.example] raises to the
    batch driver: the route answers 200. *)
Lemma X16_witness :
  exists (results : gmap string pyval) (log : list db_event) (h' : world),
    analyze_domains env_down db_ok plain_analyze_domain
      (Some ["a.example"; "k.example"]) ([], [])
    = (Ok (PDict results, 200), (log, h')).
Proof.
  destruct (X16_route_saves_records env_down db_ok plain_analyze_domain
              ["a.example"; "k.example"] [])
    as (results & entries & h' & Hbatch & Hentries & Hroute & _);
    [discriminate | reflexivity |].
  eexists _, _, _. apply Hroute.
  destruct (batch_analyze_domains_run env_down plain_analyze_domain
              ["a.example"; "k.example"] [])
    as (entries' & successful & failed & h2 & Hrun & Heq).
  rewrite Heq in Hbatch. apply returned_dict_inj in Hbatch as [-> ->].
  pose proof (batch_dict_fields 2 (successful + failed) successful failed entries')
    as (_ & _ & _ & _ & F5).
  change (Z.of_nat (List.length ["a.example"; "k.example"])) with 2 in Hentries.
  rewrite F5 in Hentries. injection Hentries as <-.
  pose proof (batch_run_entries _ _ _ _ _ _ _ _ Hrun) as Hall.
  clear -Hall. induction Hall as [|d entry ds es Hentry _ IH]; constructor.
  - exact (plain_entry_storable _ _ _ Hentry).
  - exact IH.
Defined.

(** Every record of the class's [analyze_domain] is a stored record. *)
Lemma scanner_entry_stored (E : env) (domain : string) (h h' : world)
    (entry : pyval) :
  scanner_analyze_domain E domain h = (Ok entry, h') ->
  stored_record entry.
Proof.
  intros Hentry.
  destruct (scanner_analyze_domain_run E domain h) as (rec & h1 & Hrun & Heq).
  destruct (analyze_domain_returns E (DomainScanner E) domain h)
    as (rec' & h2 & Hret & _ & Hdomain & _).
  unfold scanner_analyze_domain in Heq, Hentry.
  rewrite Heq in Hret. injection Hret as <- <-.
  rewrite Heq in Hentry. injection Hentry as <- <-.
  destruct Hrun.
  match goal with
  | |- context [analysis_record ?d ?t ?dns ?w ?s ?sg ?av] =>
      pose proof (analysis_record_fields d t dns w s sg av) as Hf;
      cbv zeta in Hf; destruct Hf as (F1 & F2 & F3 & _ & F5 & F6 & _ & F8)
  end.
  eexists. split; [reflexivity |]. split; [exact F8 |].
  intros k Hk. unfold stored_keys in Hk. cbn [In] in Hk.
  repeat destruct Hk as [<- | Hk]; try contradiction; eauto.
Qed.

(** A WHOIS answer with a [datetime] as creation date makes the record of
    the class's [analyze_domain] unserialisable. *)
Lemma scanner_entry_dated (E : env) (domain : string) (h h' : world)
    (entry : pyval) (w : whois_entry) (v : pyval) :
  (forall h0, whois_whois E h0 domain = Ok w) ->
  w_truthy w = true ->
  w_creation_date w = Some v ->
  has_date v = true ->
  scanner_analyze_domain E domain h = (Ok entry, h') ->
  unserialisable entry.
Proof.
  intros Hw Htruthy Hcreated Hdate Hentry.
  destruct (scanner_analyze_domain_run E domain h) as (rec & h1 & Hrun & Heq).
  rewrite Heq in Hentry. injection Hentry as <- <-.
  destruct Hrun as [whois ssl whois' trace trace' a r a' r' w1 w2 w3 w4
                     Hw1 Hwhois _ _ _ _ _ _ _ _ _].
  match goal with
  | |- context [analysis_record ?d ?t ?dns ?wi ?s ?sg ?av] =>
      pose proof (analysis_record_fields d t dns wi s sg av) as Hf;
      cbv zeta in Hf; destruct Hf as (_ & F2 & _ & _ & _ & _ & _ & F8)
  end.
  rewrite (check_whois_info_success E domain 3 w1 0 w) in Hwhois;
    [| change (Z.to_nat 3) with 3%nat; lia | intros j Hj; lia | apply Hw].
  injection Hwhois as <- _.
  eexists. split; [reflexivity |]. split; [exact F8 |].
  rewrite (field_Some _ _ _ F2).
  assert (Hd : has_date (PDict (whois_info_of w)) = true).
  { unfold whois_info_of. rewrite Htruthy.
    apply (has_date_lookup _ "creation_date" v); [| exact Hdate].
    unfold whois_info_recorded. dict_lookup. rewrite Hcreated. reflexivity. }
  rewrite Hd. apply orb_true_iff. left. apply orb_true_r.
Qed.

Lemma inserts_only (rows : list db_event) (ev : db_event) :
  Forall is_insert rows -> In ev rows -> is_insert ev.
Proof.
  induction 1 as [|row rows Hrow _ IH]; intros Hin; [destruct Hin |].
  destruct Hin as [<- | Hin]; auto.
Qed.

(** X17.  The route with the class as written: when the WHOIS source
    answers for one of the domains with a truthy entry whose creation date
    is (or holds) a [datetime], the route raises instead of answering, and
    neither commits nor closes the database connection, so nothing of the
    batch is saved; with a database that answers, what it raises is the
    [TypeError] of [json.dumps]. *)
Theorem X17_route_fails_on_whois_dates (E : env) (D : database)
    (domains : list string) (h : world) (d : string) (w : whois_entry)
    (v : pyval) :
  In d domains ->
  (forall h0, whois_whois E h0 d = Ok w) ->
  w_truthy w = true ->
  w_creation_date w = Some v ->
  has_date v = true ->
  exists e log h',
    analyze_domains E D (scanner_analyze_domain E) (Some domains) ([], h)
    = (Raise e, (log, h'))
    /\ ~ In DbCommit log
    /\ ~ In DbClose log
    /\ ((forall log0 ev, D log0 ev = Ok tt) ->
        e = TypeError "Object of type datetime is not JSON serializable").
Proof.
  intros Hin Hw Htruthy Hcreated Hdate.
  destruct (batch_analyze_domains_run E (scanner_analyze_domain E) domains h)
    as (entries & successful & failed & h' & Hrun & Heq).
  pose proof (batch_dict_fields (Z.of_nat (List.length domains))
                (successful + failed) successful failed entries)
    as (_ & _ & _ & _ & F5).
  destruct (batch_run_no_raise _ _ _ _ _ _ _ _ Hrun) as [_ Hall].
  { intros d0 w0 _.
    destruct (scanner_analyze_domain_run E d0 w0) as (rec & w' & _ & Hret).
    eauto. }
  assert (Hrecords : Forall stored_record entries).
  { clear -Hall. induction Hall as [|d0 entry ds es (w0 & w' & Hentry) _ IH];
      constructor; [| exact IH].
    exact (scanner_entry_stored _ _ _ _ _ Hentry). }
  assert (Hdated : Exists unserialisable entries).
  { apply list_elem_of_In, list_elem_of_lookup_1 in Hin as [i Hi].
    destruct (Forall2_lookup_l _ _ _ _ _ Hall Hi) as (entry & He & w0 & w' & Hentry).
    apply Exists_exists. exists entry.
    split; [eapply list_elem_of_lookup_2; exact He |].
    exact (scanner_entry_dated _ _ _ _ _ _ _ Hw Htruthy Hcreated Hdate Hentry). }
  destruct domains as [|d0 ds]; [contradiction |].
  unfold analyze_domains. cbn [from_option id].
  unfold bind at 1. unfold call at 1. cbn [fst snd]. rewrite Heq.
  unfold bind at 1. unfold db_call at 1. cbn [fst snd app].
  destruct (D [] DbConnect) as [[]|e] eqn:Hconnect.
  2:{ exists e, [DbConnect], h'. split; [reflexivity |].
      split; [intros [H | []]; discriminate |].
      split; [intros [H | []]; discriminate |].
      intros HD. rewrite HD in Hconnect. discriminate. }
  unfold bind at 1. rewrite (getitem_Some _ _ _ _ F5).
  unfold bind at 1. unfold iter_list at 1, ret at 1.
  unfold bind at 1.
  destruct (store_loop_records D entries Hrecords [DbConnect] h')
    as (r & rows & Hloop & Hrows & Hraise).
  destruct (Hraise Hdated) as (e & -> & He).
  rewrite Hloop. exists e, ([DbConnect] ++ rows), h'. split; [reflexivity |].
  split; [intros [H | H]; [discriminate | exact (inserts_only _ _ Hrows H)] |].
  split; [intros [H | H]; [discriminate | exact (inserts_only _ _ Hrows H)] |].
  exact He.
Qed.

(** X17 over sources that all answer, the WHOIS source with the creation
    date 1995-08-14 as a [datetime]. *)
Lemma X17_witness :
  exists (log : list db_event) (h' : world),
    analyze_domains env_up db_ok (scanner_analyze_domain env_up)
      (Some ["example.com"]) ([], [])
    = (Raise (TypeError "Object of type datetime is not JSON serializable"),
       (log, h'))
    /\ ~ In DbCommit log.
Proof.
  destruct (X17_route_fails_on_whois_dates env_up db_ok ["example.com"] []
              "example.com" registered_entry (PDate "1995-08-14T04:00:00"))
    as (e & log & h' & Hrun & Hcommit & _ & He);
    [left; reflexivity | reflexivity | reflexivity | reflexivity | reflexivity |].
  rewrite (He (fun _ _ => eq_refl)) in Hrun.
  exists log, h'. split; [exact Hrun | exact Hcommit].
Defined.

(* ===================================================================== *)
(** ** Tokens and decorators *)
(* ===================================================================== *)

Lemma replace_from_skip (old new u t : string) :
  replace_from old new (String.length u) (u +:+ t) = replace_from old new 0 t.
Proof.
  induction u as [|c u IH]; [destruct t; reflexivity |].
  rewrite append_cons. cbn [String.length replace_from]. exact IH.
Qed.

(** Replacing on a text that starts with [old] replaces that occurrence
    and goes on after it. *)
Lemma str_replace_prefix (c : ascii) (old new t : string) :
  str_replace (String c old) new (String c old +:+ t)
  = new +:+ str_replace (String c old) new t.
Proof.
  unfold str_replace. rewrite append_cons. cbn [replace_from].
  assert (Hp : String.prefix (String c old) (String c (old +:+ t)) = true).
  { apply prefix_spec. exists t. rewrite append_cons. reflexivity. }
  rewrite Hp. cbn [String.length]. rewrite Nat.sub_1_r. cbn [Nat.pred].
  rewrite replace_from_skip. reflexivity.
Qed.

Lemma str_replace_empty (old new : string) : str_replace old new "" = "".
Proof. reflexivity. Qed.

(** What [require_auth] does with the text it takes for the token. *)
Lemma require_auth_token {S} (J : jwt) (f : view S) (header : string)
    (s : option pyval * S) :
  require_auth J f (Some header) s
  = match str_replace "Bearer " "" header with
    | EmptyString => (Ok (message "Token required" 401), s)
    | String c token =>
        match J (String c token) with
        | JwtPayload payload =>
            if truthy payload then f (Some payload, snd s)
            else (Ok (message "Invalid token" 401), s)
        | JwtInvalid _ => (Ok (message "Invalid token" 401), s)
        | JwtError e => (Raise e, s)
        end
    end.
Proof.
  unfold require_auth. destruct header as [|a header]; [reflexivity |].
  cbn [truthy].
  destruct (str_replace "Bearer " "" (String a header)) as [|c token];
    [reflexivity |].
  cbn [truthy negb]. unfold bind, verify_token, set_current_user.
  destruct (J (String c token)) as [payload|e|e]; try reflexivity.
  unfold ret. destruct (truthy payload); reflexivity.
Qed.

(** X18.  [require_auth]: the view runs only on a request whose
    [Authorization] header, with every ["Bearer "] taken out, is a
    non-empty token that [jwt.decode] accepts with a truthy payload, and
    it then runs with that payload as [request.current_user]; every other
    request is answered 401 (or the error of [jwt.decode] is raised) with
    the state untouched, so that the analysis route then makes no query and
    no database call.  The scheme is not checked: a header with the
    ["Bearer "] prefix and the same header without it are treated alike. *)
Theorem X18_require_auth {S} (J : jwt) (f : view S)
    (authorization : option string) (s : option pyval * S) :
  (forall token,
     require_auth J f (Some ("Bearer " +:+ token)) s
     = require_auth J f (Some token) s)
  /\ (forall payload,
        authenticated J authorization payload ->
        require_auth J f authorization s = f (Some payload, snd s))
  /\ ((~ exists payload, authenticated J authorization payload) ->
      exists r,
        require_auth J f authorization s = (r, s)
        /\ (r = Ok (message "Token required" 401)
            \/ r = Ok (message "Invalid token" 401)
            \/ exists token e, bearer_token authorization = Some token
                               /\ J token = JwtError e /\ r = Raise e))
  /\ (forall E D an data_domains (u : option pyval) (h : world),
        (~ exists payload, authenticated J authorization payload) ->
        exists r,
          api_analyze_domains J E D an authorization data_domains (u, ([], h))
          = (r, (u, ([], h)))).
Proof.
  assert (Hrefused : forall T (g : view T) (t : option pyval * T),
            (~ exists payload, authenticated J authorization payload) ->
            exists r,
              require_auth J g authorization t = (r, t)
              /\ (r = Ok (message "Token required" 401)
                  \/ r = Ok (message "Invalid token" 401)
                  \/ exists token e, bearer_token authorization = Some token
                                     /\ J token = JwtError e /\ r = Raise e)).
  { intros T g t Hno. destruct authorization as [header|]; [| eauto].
    rewrite require_auth_token. unfold authenticated, bearer_token in *.
    destruct (str_replace "Bearer " "" header) as [|c token]; [eauto |].
    destruct (J (String c token)) as [payload|e|e] eqn:HJ; [| eauto | eauto 10].
    destruct (truthy payload) eqn:Hp; [| eauto].
    exfalso. apply Hno. eauto. }
  split; [| split; [| split]].
  - intros token. rewrite !require_auth_token.
    change "Bearer " with (String "B" "earer ") at 2.
    rewrite str_replace_prefix, append_nil_l. reflexivity.
  - intros payload (token & Htoken & HJ & Hp).
    destruct authorization as [header|]; [| discriminate].
    rewrite require_auth_token. unfold bearer_token in Htoken.
    destruct (str_replace "Bearer " "" header) as [|c t]; [discriminate |].
    injection Htoken as <-. rewrite HJ, Hp. reflexivity.
  - apply Hrefused.
  - intros E D an data_domains u h Hno. unfold api_analyze_domains.
    destruct (Hrefused _ (in_request (analyze_domains E D an data_domains))
                (u, ([], h)) Hno) as (r & Hrun & _).
    eauto.
Qed.

(** X18 on the header [Bearer abc] and a view that answers 200. *)
Lemma X18_witness :
  require_auth jwt_abc (ret (message "ok" 200)) (Some "Bearer abc") (None, tt)
  = (Ok (message "ok" 200),
     (Some (PDict (dict [("role", PStr "admin")])), tt)).
Proof.
  rewrite (proj1 (proj2 (X18_require_auth jwt_abc (ret (message "ok" 200))
                           (Some "Bearer abc") (None, tt)))
             (PDict (dict [("role", PStr "admin")]))).
  - reflexivity.
  - exists "abc". split; [reflexivity |]. split; reflexivity.
Defined.

(** X19.  An admin route, [require_auth(require_admin(f))]: the view
    runs only for an authenticated payload that is a dictionary whose
    [role] is the string ["admin"]; any other request is answered 401 or
    403, or raises, and leaves the state of the view untouched. *)
Theorem X19_require_admin {S} (J : jwt) (f : view S)
    (authorization : option string) (s : option pyval * S) :
  (exists payload user,
     authenticated J authorization payload
     /\ payload = PDict user
     /\ user !! "role" = Some (PStr "admin")
     /\ require_auth J (require_admin f) authorization s
        = f (Some payload, snd s))
  \/ (exists r current_user,
        require_auth J (require_admin f) authorization s
        = (r, (current_user, snd s))
        /\ (In r (map Ok refusals) \/ exists e, r = Raise e)).
Proof.
  destruct s as [u s].
  destruct authorization as [header|];
    [| right; exists (Ok (message "Token required" 401)), u;
       split; [reflexivity | left; cbn; auto]].
  rewrite require_auth_token. unfold authenticated, bearer_token.
  destruct (str_replace "Bearer " "" header) as [|c token];
    [right; exists (Ok (message "Token required" 401)), u;
     split; [reflexivity | left; cbn; auto] |].
  destruct (J (String c token)) as [payload|e|e] eqn:HJ.
  - destruct (truthy payload) eqn:Hp;
      [| right; exists (Ok (message "Invalid token" 401)), u;
         split; [reflexivity | left; cbn; auto]].
    unfold require_admin. cbn [fst snd].
    destruct payload as [| | | | |user|];
      try (right; eexists (Raise _), _; split; [reflexivity | right; eauto]).
    unfold bind, dict_get, ret.
    destruct (user !! "role") as [role|] eqn:Hrole;
      [| right; exists (Ok (message "Admin access required" 403)), (Some (PDict user));
         split; [reflexivity | left; cbn; auto]].
    destruct (not_admin role) eqn:Hadmin;
      [right; exists (Ok (message "Admin access required" 403)), (Some (PDict user));
       split; [reflexivity | left; cbn; auto] |].
    left. exists (PDict user), user.
    split; [exists (String c token); auto |]. split; [reflexivity |].
    split; [| reflexivity].
    destruct role as [| | |r| | |]; try discriminate.
    unfold not_admin in Hadmin. apply negb_false_iff, String.eqb_eq in Hadmin.
    subst r. exact Hrole.
  - right. exists (Ok (message "Invalid token" 401)), u.
    split; [reflexivity | left; cbn; auto].
  - right. exists (Raise e), u. split; [reflexivity | right; eauto].
Qed.

(* ===================================================================== *)
(** ** The LLM batch driver *)
(* ===================================================================== *)

Lemma llm_results_default_dict (domains_data : list pyval) :
  llm_results_default domains_data
  = batch_dict (Z.of_nat (List.length domains_data)) 0 0 0 [].
Proof. reflexivity. Qed.

Lemma llm_step_run (single : pyval -> M world pyval) (item : pyval)
    (t p s f : Z) (es : list pyval) (h : world) :
  llm_step single item (batch_dict t p s f es, h)
  = match single item h with
    | (Ok analysis, h1) =>
        (Ok Continue, (batch_dict t (p + 1) (s + 1) f (es ++ [analysis]), h1))
    | (Raise e, h1) =>
        match item with
        | PDict d =>
            (Ok Continue,
             (batch_dict t (p + 1) s (f + 1)
                (es ++ [llm_stub (setting d "domain" (PStr "unknown")) e]), h1))
        | _ => (Raise no_get, (batch_dict t p s f es, h1))
        end
    end.
Proof.
  unfold llm_step, try_except.
  unfold bind at 1. unfold bind at 1. unfold call at 1. cbn [fst snd].
  destruct (single item h) as [[analysis|e] h1].
  - unfold bind. rewrite batch_dict_append, batch_dict_successful,
      batch_dict_processed. reflexivity.
  - destruct item; reflexivity.
Qed.

(** The loop on items that are all dictionaries. *)
Lemma llm_loop_dicts (single : pyval -> M world pyval) (domains_data : list pyval) :
  Forall is_dict domains_data ->
  forall (t p s f : Z) (es : list pyval) (h : world),
  exists entries successful failed h',
    for_each domains_data (llm_step single) (batch_dict t p s f es, h)
    = (Ok tt,
       (batch_dict t (p + successful + failed) (s + successful) (f + failed)
                   (es ++ entries), h'))
    /\ 0 <= successful /\ 0 <= failed
    /\ successful + failed = Z.of_nat (List.length domains_data)
    /\ List.length entries = List.length domains_data
    /\ (forall (i : nat) (item : pyval),
          domains_data !! i = Some item ->
          exists entry,
            entries !! i = Some entry
            /\ ((exists w w', single item w = (Ok entry, w'))
                \/ (exists e w w' d,
                      single item w = (Raise e, w')
                      /\ item = PDict d
                      /\ entry = llm_stub (setting d "domain" (PStr "unknown")) e))).
Proof.
  induction 1 as [|item items [d ->] _ IH]; intros t p s f es h.
  - exists [], 0, 0, h. split.
    { cbn. rewrite app_nil_r, !Z.add_0_r. reflexivity. }
    cbn [List.length]. split; [lia |]. split; [lia |]. split; [lia |].
    split; [reflexivity |].
    intros i item Hi. discriminate.
  - cbn [for_each]. unfold bind. rewrite llm_step_run.
    destruct (single (PDict d) h) as [[analysis|e] h1] eqn:Hsingle.
    + destruct (IH t (p + 1) (s + 1) f (es ++ [analysis]) h1)
        as (entries & successful & failed & h' & Hloop & Hs & Hf & Hsum & Hlen
            & Hentries).
      exists (analysis :: entries), (successful + 1), failed, h'. split.
      { rewrite Hloop, <- app_assoc. cbn [app]. do 3 f_equal; lia. }
      cbn [List.length]. split; [lia |]. split; [lia |]. split; [lia |].
      split; [lia |].
      intros [|i] item Hi; [| exact (Hentries i item Hi)].
      injection Hi as <-. exists analysis. split; [reflexivity |]. left. eauto.
    + destruct (IH t (p + 1) s (f + 1)
                  (es ++ [llm_stub (setting d "domain" (PStr "unknown")) e]) h1)
        as (entries & successful & failed & h' & Hloop & Hs & Hf & Hsum & Hlen
            & Hentries).
      exists (llm_stub (setting d "domain" (PStr "unknown")) e :: entries),
        successful, (failed + 1), h'. split.
      { rewrite Hloop, <- app_assoc. cbn [app]. do 3 f_equal; lia. }
      cbn [List.length]. split; [lia |]. split; [lia |]. split; [lia |].
      split; [lia |].
      intros [|i] item Hi; [| exact (Hentries i item Hi)].
      injection Hi as <-. eexists. split; [reflexivity |]. right. eauto 10.
Qed.

(** The loop on a list with an item that is no dictionary and whose call
    raises: the handler raises in its turn. *)
Lemma llm_loop_raises (single : pyval -> M world pyval) (domains_data : list pyval) :
  Exists (fun item => ~ is_dict item
                      /\ forall w, exists e w', single item w = (Raise e, w'))
         domains_data ->
  forall (t p s f : Z) (es : list pyval) (h : world),
  exists state,
    for_each domains_data (llm_step single) (batch_dict t p s f es, h)
    = (Raise no_get, state).
Proof.
  induction domains_data as [|item items IH]; intros Hex t p s f es h.
  - inversion Hex.
  - cbn [for_each]. unfold bind. rewrite llm_step_run.
    destruct (single item h) as [[analysis|e] h1] eqn:Hsingle.
    + apply IH. inversion Hex as [? ? [_ Hraises] | ? ? Htail]; subst.
      * destruct (Hraises h) as (e & w' & He). congruence.
      * exact Htail.
    + destruct item as [| | | | |d|]; try (eexists; reflexivity).
      apply IH. inversion Hex as [? ? [Hnot _] | ? ? Htail]; subst.
      * exfalso. apply Hnot. exists d. reflexivity.
      * exact Htail.
Qed.

(** X20.  [analyze_domains_with_llm], for any [get_settings] that returns
    a dictionary and any [_analyze_single_domain].  Without a configured
    API key (missing, empty or [None]) nothing is analysed and the result
    has only [error] and an empty [domains], none of the counters.  With a
    key and items that are all dictionaries the function never raises:
    [processed = total_domains = len(domains_data)],
    [successful + failed = processed], and the i-th entry is what the call
    for the i-th item returned, or the stub with its [domain] (or
    ['unknown']), [str(e)] and [llm_analysis: None] when that call raised.
    But one item that is not a dictionary and whose call raises makes the
    handler itself raise [AttributeError]: the whole batch is lost. *)
Theorem X20_llm_batch (get_settings : M world pyval)
    (single : pyval -> pyval -> pyval -> pyval -> M world pyval)
    (domains_data : list pyval) (h h1 : world) (settings : gmap string pyval) :
  get_settings h = (Ok (PDict settings), h1) ->
  let api_key := setting settings "openrouter_api_key" (PStr "") in
  let model := setting settings "openrouter_model" (PStr default_model) in
  let prompt := setting settings "analysis_prompt" (PStr default_prompt) in
  let run := analyze_domains_with_llm get_settings single domains_data h in
  (truthy api_key = false -> run = (Ok no_api_key, h1))
  /\ (truthy api_key = true ->
      Forall is_dict domains_data ->
      exists entries successful failed h',
        run = (Ok (PDict (batch_dict (Z.of_nat (List.length domains_data))
                                     (Z.of_nat (List.length domains_data))
                                     successful failed entries)), h')
        /\ 0 <= successful /\ 0 <= failed
        /\ successful + failed = Z.of_nat (List.length domains_data)
        /\ List.length entries = List.length domains_data
        /\ (forall (i : nat) (item : pyval),
              domains_data !! i = Some item ->
              exists entry,
                entries !! i = Some entry
                /\ ((exists w w', single item api_key model prompt w = (Ok entry, w'))
                    \/ (exists e w w' d,
                          single item api_key model prompt w = (Raise e, w')
                          /\ item = PDict d
                          /\ entry = PDict (dict [
                                 ("domain", setting d "domain" (PStr "unknown"));
                                 ("error", PStr (str_exn e));
                                 ("llm_analysis", PNone)])))))
  /\ (truthy api_key = true ->
      (exists item, In item domains_data
                    /\ ~ is_dict item
                    /\ forall w, exists e w',
                         single item api_key model prompt w = (Raise e, w')) ->
      exists h', run = (Raise no_get, h')).
Proof.
  intros Hsettings api_key model prompt run.
  assert (Hrun : run
                 = if negb (truthy api_key) then (Ok no_api_key, h1)
                   else with_local (llm_results_default domains_data)
                          (bind (for_each domains_data
                                   (llm_step (fun item => single item api_key
                                                            model prompt)))
                                (fun _ => bind get_local
                                            (fun results => ret (PDict results))))
                          h1).
  { subst run. unfold analyze_domains_with_llm.
    unfold bind at 1. rewrite Hsettings.
    unfold bind at 1. unfold dict_get at 1, ret at 1.
    unfold bind at 1. unfold dict_get at 1, ret at 1.
    unfold bind at 1. unfold dict_get at 1, ret at 1.
    fold (setting settings "openrouter_api_key" (PStr "")).
    fold (setting settings "openrouter_model" (PStr default_model)).
    fold (setting settings "analysis_prompt" (PStr default_prompt)).
    fold api_key model prompt.
    destruct (truthy api_key); reflexivity. }
  rewrite Hrun. clear Hrun. split; [| split].
  - intros ->. reflexivity.
  - intros -> Hdicts. cbn [negb].
    destruct (llm_loop_dicts (fun item => single item api_key model prompt)
                domains_data Hdicts (Z.of_nat (List.length domains_data))
                0 0 0 [] h1)
      as (entries & successful & failed & h' & Hloop & Hs & Hf & Hsum & Hlen
          & Hentries).
    exists entries, successful, failed, h'. split.
    { unfold with_local, bind. rewrite llm_results_default_dict, Hloop.
      replace (0 + successful + failed)
        with (Z.of_nat (List.length domains_data)) by lia.
      reflexivity. }
    auto.
  - intros -> (item & Hin & Hnot & Hraises). cbn [negb].
    destruct (llm_loop_raises (fun item => single item api_key model prompt)
                domains_data) with
      (t := Z.of_nat (List.length domains_data)) (p := 0) (s := 0) (f := 0)
      (es := @nil pyval) (h := h1) as ([results h'] & Hloop).
    { apply Exists_exists. exists item. split; [| auto].
      apply list_elem_of_In. exact Hin. }
    exists h'. unfold with_local, bind.
    rewrite llm_results_default_dict, Hloop. reflexivity.
Qed.

(** X20 with a key configured, a call that raises, and a list of domain
    names instead of records. *)
Lemma X20_witness :
  exists h',
    analyze_domains_with_llm
      (ret (PDict (dict [("openrouter_api_key", PStr "sk-test")])))
      (fun _ _ _ _ =>
         raise (Exception "Exception" "OpenRouter API error: 401 - Unauthorized"))
      [PStr "example.com"] []
    = (Raise no_get, h').
Proof.
  pose proof (X20_llm_batch
                (ret (PDict (dict [("openrouter_api_key", PStr "sk-test")])))
                (fun _ _ _ _ =>
                   raise (Exception "Exception"
                                    "OpenRouter API error: 401 - Unauthorized"))
                [PStr "example.com"] [] []
                (dict [("openrouter_api_key", PStr "sk-test")]) eq_refl) as H.
  cbv zeta in H. destruct H as (_ & _ & H). apply H.
  - reflexivity.
  - exists (PStr "example.com"). split; [left; reflexivity |].
    split; [intros [d Hd]; discriminate |].
    intros w. eexists _, _. reflexivity.
Defined.

(* ===================================================================== *)
(** ** More about the DNS fetcher *)
(* ===================================================================== *)

(** X21.  [check_dns_records] never raises and makes exactly five
    queries, for NS, A, MX, TXT and CNAME in this order.  Its result has
    the five keys of the default and each entry is a list of strings: the
    renderings of the records its query returned, or the empty list when
    that query raised, whatever became of the other queries.  An empty list
    therefore does not tell a failed query from an empty answer. *)
Theorem X21_dns_records (E : env) (domain : string) (h : world) :
  exists info,
    check_dns_records E domain h = (Ok (PDict info), h ++ dns_events domain)
    /\ dom info = dom dns_info_default
    /\ (forall (i : nat) (kind key : string),
          dns_kinds !! i = Some (kind, key) ->
          dns_events domain !! i = Some (EvResolve domain kind)
          /\ info !! key
             = Some (dns_answer_value
                       (dns_resolve E (h ++ take i (dns_events domain)) domain kind))
          /\ (forall e,
                dns_resolve E (h ++ take i (dns_events domain)) domain kind
                = Raise e ->
                info !! key = Some (PList []))
          /\ (dns_resolve E (h ++ take i (dns_events domain)) domain kind = Ok [] ->
              info !! key = Some (PList [])))
    /\ (forall key v, info !! key = Some v ->
                      exists records, v = PList (map PStr records)).
Proof.
  exists (dns_info_of E domain h).
  split; [apply check_dns_records_run |].
  split; [unfold dns_info_of; same_keys |].
  assert (Hlookup : forall (i : nat) (kind key : string),
            dns_kinds !! i = Some (kind, key) ->
            dns_events domain !! i = Some (EvResolve domain kind)
            /\ dns_info_of E domain h !! key
               = Some (dns_answer_value
                         (dns_resolve E (h ++ take i (dns_events domain))
                                      domain kind))).
  { intros i kind key Hi. unfold dns_kinds in Hi.
    do 5 (destruct i as [|i];
          [injection Hi as <- <-; split; [reflexivity |];
           unfold dns_info_of; dict_lookup;
           cbn [take]; rewrite ?app_nil_r; reflexivity |]).
    discriminate. }
  split.
  - intros i kind key Hi. destruct (Hlookup i kind key Hi) as [Hev Hinfo].
    split; [exact Hev |]. split; [exact Hinfo |].
    split; [intros e He | intros He]; rewrite Hinfo, He; reflexivity.
  - intros key v Hv. unfold dns_info_of, dns_info_default in Hv.
    rewrite !dict_cons, dict_nil in Hv.
    assert (Hvalue : forall answer, exists records,
              dns_answer_value answer = PList (map PStr records)).
    { intros [records|e]; [exists records | exists []]; reflexivity. }
    repeat match type of Hv with
           | <[?k := _]> _ !! key = Some v =>
               let Hne := fresh "Hne" in
               destruct (String.eqb_spec k key) as [<- | Hne];
               [rewrite lookup_insert_eq in Hv; injection Hv as <-;
                first [apply Hvalue | exists []; reflexivity]
               | rewrite lookup_insert_ne in Hv by exact Hne]
           end.
    rewrite lookup_empty in Hv. discriminate.
Qed.
